(** * SuperMall catalog services over the localStorage gateway

    A shallow embedding of the data-access layer of the SuperMall web
    application: [FirebaseService] (the persistence gateway, whose
    [isFirebaseAvailable] flag is set to [false] on every path of
    [initializeFirebase], so only the localStorage branch of each method
    runs) and the three catalog services [ShopService], [ProductService]
    and [OfferService] built on it.

    Modelling conventions.
    - JavaScript values are the inductive [value]; objects are association
      lists in property order.  Strings are sequences of code units below
      256.  Numbers are exact rationals plus [NaN]; infinities and rounding
      are not modelled.
    - What the browser supplies and the sources do not define (locale
      collation, date parsing and printing, number/string conversion) is the
      record [Runtime], a parameter of every definition that needs it.
    - [new Date()] is the argument [now] (milliseconds since the epoch), read
      once per operation; [generateId()] is the argument [newId].
    - Stored records, payloads and filters are objects ([obj]); identifiers
      are arbitrary values.
    - The [Logger] calls of the methods are not part of their models.  They
      write the entries [supermall_logs] and [supermall_server_logs] and the
      console, nothing else; no method uses what they return, and on the
      values of the model they do not throw.  So a [catch] block that logs and throws the same error
      again is the identity, and the state of a method is the rest of the
      storage: the three catalog collections and the current-user entry
      ([LocalStorage]).  No statement about a [LocalStorage] speaks of the
      two log entries; the Logger itself is modelled further down, on those
      two entries. *)

From Stdlib Require Import List String Ascii ZArith QArith Qabs Bool Lia.
From Stdlib Require Import Sorted Permutation DecimalString.
Import ListNotations.

Set Warnings "-register-all".
Local Open Scope string_scope.
Local Open Scope list_scope.

(** ** Values *)

Inductive num : Type :=
| NaN
| Fin (q : Q).

Inductive value : Type :=
| VUndef
| VNull
| VBool (b : bool)
| VNum (n : num)
| VStr (s : string)
| VArr (elems : list value)
| VObj (props : list (string * value)).

(** A plain object: own enumerable properties, in insertion order. *)
Definition obj : Type := list (string * value).

Definition num_of_Z (z : Z) : value := VNum (Fin (inject_Z z)).

(** What the host environment provides. *)
Record Runtime : Type := {
  (** [a.localeCompare(b)]: negative, zero or positive *)
  localeCompare : string -> string -> Z;
  (** time value of [new Date(s)] for a string [s]; [None] is Invalid Date *)
  Date_parse : string -> option Z;
  (** [new Date(t).toISOString()] *)
  toISOString : Z -> string;
  (** [Number(s)] for a string [s] *)
  StringToNumber : string -> num;
  (** [String(x)] for a finite number [x] *)
  NumberToString : Q -> string
}.

(** ** Exceptions, and the monad of operations on localStorage *)

Inductive exn : Type :=
| Error (message : string)
| TypeError.

Inductive result (A : Type) : Type :=
| Ok (a : A)
| Throw (e : exn).
Arguments Ok {A} a.
Arguments Throw {A} e.

Definition rbind {A B} (r : result A) (k : A -> result B) : result B :=
  match r with
  | Ok a => k a
  | Throw e => Throw e
  end.

(** ** Primitive operations of the language *)

Definition Qltb (x y : Q) : bool := negb (Qle_bool y x).

(** ToBoolean *)
Definition truthy (v : value) : bool :=
  match v with
  | VUndef | VNull => false
  | VBool b => b
  | VNum NaN => false
  | VNum (Fin q) => negb (Qeq_bool q 0)
  | VStr s => negb (String.eqb s "")
  | VArr _ | VObj _ => true
  end.

(** [a === b].  Arrays and objects compare by identity; every use below
    compares a value read from freshly parsed storage with a value held by
    the caller, which are never the same object. *)
Definition strict_eq (a b : value) : bool :=
  match a, b with
  | VUndef, VUndef => true
  | VNull, VNull => true
  | VBool x, VBool y => Bool.eqb x y
  | VNum (Fin x), VNum (Fin y) => Qeq_bool x y
  | VStr x, VStr y => String.eqb x y
  | _, _ => false
  end.

(** Own-property read [o[k]] on a plain object. *)
Fixpoint lookup (k : string) (o : obj) : value :=
  match o with
  | [] => VUndef
  | (k', v) :: o' => if String.eqb k k' then v else lookup k o'
  end.

Definition has_key (k : string) (o : obj) : bool :=
  existsb (fun kv => String.eqb k (fst kv)) o.

(** Property write [o[k] = v]: an existing key keeps its position. *)
Fixpoint obj_set (k : string) (v : value) (o : obj) : obj :=
  match o with
  | [] => [(k, v)]
  | (k', v') :: o' =>
      if String.eqb k k' then (k, v) :: o' else (k', v') :: obj_set k v o'
  end.

(** Object spread [{...o, ...patch}]. *)
Definition spread (o patch : obj) : obj :=
  fold_left (fun acc kv => obj_set (fst kv) (snd kv) acc) patch o.

Definition index_key (i : nat) : string :=
  NilEmpty.string_of_uint (Nat.to_uint i).

Fixpoint nth_by_key {A} (k : string) (i : nat) (l : list A) : option A :=
  match l with
  | [] => None
  | x :: l' => if String.eqb k (index_key i) then Some x else nth_by_key k (S i) l'
  end.

Definition string_units (s : string) : list ascii := list_ascii_of_string s.

(** Property read [v[k]] where [v] is known not to be null or undefined
    (the sources guard these reads by a truthiness test or by [?.]).  The
    keys read this way are data keys; inherited methods are not values of
    the model. *)
Definition get_prop (v : value) (k : string) : value :=
  match v with
  | VObj o => lookup k o
  | VArr l =>
      if String.eqb k "length" then num_of_Z (Z.of_nat (List.length l))
      else match nth_by_key k 0 l with Some x => x | None => VUndef end
  | VStr s =>
      if String.eqb k "length" then num_of_Z (Z.of_nat (String.length s))
      else match nth_by_key k 0 (string_units s) with
           | Some c => VStr (String c EmptyString)
           | None => VUndef
           end
  | _ => VUndef
  end.

(** Optional chaining [v?.k]. *)
Definition opt_chain (v : value) (k : string) : value :=
  match v with
  | VUndef | VNull => VUndef
  | _ => get_prop v k
  end.

(** [Object.keys(v)] for a truthy [v]. *)
Definition Object_keys (v : value) : list string :=
  match v with
  | VObj o => map fst o
  | VArr l => map index_key (seq 0 (List.length l))
  | VStr s => map index_key (seq 0 (String.length s))
  | _ => []
  end.

Section Coercions.
Variable rt : Runtime.

(** ToString; an array joins its elements with commas. *)
Fixpoint ToString (v : value) : string :=
  match v with
  | VUndef => "undefined"
  | VNull => "null"
  | VBool true => "true"
  | VBool false => "false"
  | VNum NaN => "NaN"
  | VNum (Fin q) => NumberToString rt q
  | VStr s => s
  | VArr l =>
      (fix join (l : list value) : string :=
         match l with
         | [] => ""
         | x :: l' =>
             let s := match x with
                      | VUndef | VNull => ""
                      | _ => ToString x
                      end in
             match l' with
             | [] => s
             | _ :: _ => (s ++ "," ++ join l')%string
             end
         end) l
  | VObj _ => "[object Object]"
  end.

(** ToNumber *)
Definition ToNumber (v : value) : num :=
  match v with
  | VUndef => NaN
  | VNull => Fin 0
  | VBool true => Fin 1
  | VBool false => Fin 0
  | VNum n => n
  | VStr s => StringToNumber rt s
  | VArr _ | VObj _ => StringToNumber rt (ToString v)
  end.

Definition num_add (a b : num) : num :=
  match a, b with
  | Fin x, Fin y => Fin (x + y)
  | _, _ => NaN
  end.

Definition num_sub (a b : num) : num :=
  match a, b with
  | Fin x, Fin y => Fin (x - y)
  | _, _ => NaN
  end.

(** Division by a non-zero count; a zero divisor (infinite or NaN in
    JavaScript) is outside the model and yields [NaN]. *)
Definition num_div (a b : num) : num :=
  match a, b with
  | Fin x, Fin y => if Qeq_bool y 0 then NaN else Fin (x / y)
  | _, _ => NaN
  end.

(** ToPrimitive turns arrays and objects into strings. *)
Definition stringy (v : value) : bool :=
  match v with
  | VStr _ | VArr _ | VObj _ => true
  | _ => false
  end.

(** [a + b] *)
Definition js_add (a b : value) : value :=
  if stringy a || stringy b then VStr (ToString a ++ ToString b)%string
  else VNum (num_add (ToNumber a) (ToNumber b)).

(** [a - b] *)
Definition js_sub (a b : value) : num := num_sub (ToNumber a) (ToNumber b).

(** The abstract relational comparison [a < b]; [None] is "undefined",
    which every operator turns into [false]. *)
Definition js_lt (a b : value) : option bool :=
  if stringy a && stringy b then Some (String.ltb (ToString a) (ToString b))
  else match ToNumber a, ToNumber b with
       | Fin x, Fin y => Some (Qltb x y)
       | _, _ => None
       end.

Definition lt (a b : value) : bool :=
  match js_lt a b with Some r => r | None => false end.
Definition gt (a b : value) : bool := lt b a.
Definition le (a b : value) : bool :=
  match js_lt b a with Some r => negb r | None => false end.
Definition ge (a b : value) : bool :=
  match js_lt a b with Some r => negb r | None => false end.

(** [a || b] on values *)
Definition or_else (a b : value) : value := if truthy a then a else b.

(** [isNaN(v)] and [Number.isInteger(v)] *)
Definition isNaN (v : value) : bool :=
  match ToNumber v with NaN => true | Fin _ => false end.

Definition Number_isInteger (v : value) : bool :=
  match v with
  | VNum (Fin q) => Z.eqb (Z.modulo (Qnum q) (Zpos (Qden q))) 0
  | _ => false
  end.

(** ** Dates

    A [Date] is its time value; [None] is Invalid Date.  The relational
    operators on dates compare time values and are false on an invalid
    one. *)
Definition TimeClip (q : Q) : option Z :=
  if Qle_bool (Qabs q) (inject_Z 8640000000000000)
  then Some (Z.quot (Qnum q) (Zpos (Qden q)))
  else None.

Definition new_Date (v : value) : option Z :=
  match v with
  | VStr s => Date_parse rt s
  | VArr _ | VObj _ => Date_parse rt (ToString v)
  | _ => match ToNumber v with
         | Fin q => TimeClip q
         | NaN => None
         end
  end.

Definition date_cmp (op : Z -> Z -> bool) (a b : option Z) : bool :=
  match a, b with
  | Some x, Some y => op x y
  | _, _ => false
  end.

Definition date_sub (a b : option Z) : num :=
  match a, b with
  | Some x, Some y => Fin (inject_Z (x - y))
  | _, _ => NaN
  end.

End Coercions.

(** ** JSON

    [JSON.parse(JSON.stringify(v))]: a property whose value is [undefined]
    is omitted, [undefined] inside an array and [NaN] become [null].
    (Integer-like keys are not moved to the front.) *)
Fixpoint JSON_value (v : value) : value :=
  match v with
  | VNum NaN => VNull
  | VArr l =>
      VArr (map (fun x => match x with
                          | VUndef => VNull
                          | _ => JSON_value x
                          end) l)
  | VObj o =>
      VObj ((fix props (o : list (string * value)) : list (string * value) :=
               match o with
               | [] => []
               | (k, x) :: o' =>
                   match x with
                   | VUndef => props o'
                   | _ => (k, JSON_value x) :: props o'
                   end
               end) o)
  | _ => v
  end.

Fixpoint JSON_props (o : obj) : obj :=
  match o with
  | [] => []
  | (k, x) :: o' =>
      match x with
      | VUndef => JSON_props o'
      | _ => (k, JSON_value x) :: JSON_props o'
      end
  end.

(** The array of records of one collection, written and read back. *)
Definition JSON_items (items : list obj) : list obj := map JSON_props items.

(** ** localStorage: the catalog entries

    One entry per collection of the catalog, holding the parsed array of
    records (an absent entry is the empty array), and the entry of the
    logged-in user ([None] when absent or not parsable).  The gateway also
    names the collections [users], [categories] and [logs]; the catalog
    services use these three.  The entries [supermall_logs] and
    [supermall_server_logs], which the Logger writes on every call, are not
    among them. *)
Inductive collection : Type := shops | products | offers.

Record LocalStorage : Type := mkLocalStorage {
  supermall_shops : list obj;
  supermall_products : list obj;
  supermall_offers : list obj;
  supermall_current_user : option value
}.

Definition getItem (c : collection) (ls : LocalStorage) : list obj :=
  match c with
  | shops => supermall_shops ls
  | products => supermall_products ls
  | offers => supermall_offers ls
  end.

Definition setItem (c : collection) (items : list obj) (ls : LocalStorage)
  : LocalStorage :=
  match c with
  | shops =>
      mkLocalStorage items (supermall_products ls) (supermall_offers ls)
        (supermall_current_user ls)
  | products =>
      mkLocalStorage (supermall_shops ls) items (supermall_offers ls)
        (supermall_current_user ls)
  | offers =>
      mkLocalStorage (supermall_shops ls) (supermall_products ls) items
        (supermall_current_user ls)
  end.

(** An operation runs on the storage and either returns or throws; what it
    wrote before throwing stays written. *)
Definition M (A : Type) : Type := LocalStorage -> result A * LocalStorage.

Definition ret {A} (a : A) : M A := fun ls => (Ok a, ls).
Definition throw {A} (e : exn) : M A := fun ls => (Throw e, ls).
Definition lift {A} (r : result A) : M A := fun ls => (r, ls).

Definition bind {A B} (m : M A) (k : A -> M B) : M B :=
  fun ls =>
    match m ls with
    | (Ok a, ls') => k a ls'
    | (Throw e, ls') => (Throw e, ls')
    end.

Definition try_catch {A} (m : M A) (handler : exn -> M A) : M A :=
  fun ls =>
    match m ls with
    | (Ok a, ls') => (Ok a, ls')
    | (Throw e, ls') => handler e ls'
    end.

Declare Scope js_scope.
Delimit Scope js_scope with js.
Notation "x <- m ;; k" := (bind m (fun x => k))
  (at level 61, m at next level, right associativity) : js_scope.
Notation "m ;;; k" := (bind m (fun _ => k))
  (at level 61, right associativity) : js_scope.
Notation "x <~ r ;; k" := (rbind r (fun x => k))
  (at level 61, r at next level, right associativity) : js_scope.
Local Open Scope js_scope.

(** ** FirebaseService (localStorage branch)

    Each method on the catalog entries.  What its [Logger.info] and
    [Logger.error] calls append to the two log entries is left out, as said
    at the top: where a method below returns the [LocalStorage] it was
    given, the catalog entries are unchanged, not the logs. *)

Section Gateway.
Variable rt : Runtime.

(** [create(collection, data)]; [newId] is [this.generateId()]. *)
Definition create (c : collection) (data : obj) (newId : string) (now : Z)
  : M value :=
  fun ls =>
    let items := getItem c ls in
    let newItem :=
      spread data [("id", VStr newId);
                   ("createdAt", VStr (toISOString rt now))] in
    (Ok (lookup "id" newItem),
     setItem c (JSON_items (items ++ [newItem])) ls).

(** [read(collection)] *)
Definition read_all (c : collection) : M (list obj) :=
  fun ls => (Ok (getItem c ls), ls).

(** [read(collection, id)]: a falsy [id] returns the whole array. *)
Definition read (c : collection) (id : value) : M value :=
  items <- read_all c ;;
  if truthy id then
    match find (fun item => strict_eq (lookup "id" item) id) items with
    | Some item => ret (VObj item)
    | None => ret VNull
    end
  else ret (VArr (map VObj items)).

(** [items[index] = {...items[index], ...patch}] at the first index whose
    record has the identifier. *)
Fixpoint update_first (id : value) (patch : obj) (items : list obj)
  : option (list obj) :=
  match items with
  | [] => None
  | item :: rest =>
      if strict_eq (lookup "id" item) id then Some (spread item patch :: rest)
      else match update_first id patch rest with
           | Some rest' => Some (item :: rest')
           | None => None
           end
  end.

(** [update(collection, id, data)] *)
Definition update (c : collection) (id : value) (data : obj) (now : Z)
  : M unit :=
  fun ls =>
    let items := getItem c ls in
    let patch := spread data [("updatedAt", VStr (toISOString rt now))] in
    match update_first id patch items with
    | Some items' => (Ok tt, setItem c (JSON_items items') ls)
    | None => (Throw (Error "Document not found"), ls)
    end.

Definition filter_given (v : value) : bool :=
  negb (strict_eq v VUndef) && negb (strict_eq v VNull)
  && negb (strict_eq v (VStr "")).

(** The predicate of one filter key on one record. *)
Definition matches (key : string) (fv : value) (item : obj) : bool :=
  if String.eqb key "priceRange" then
    let min := get_prop fv "min" in
    let max := get_prop fv "max" in
    (negb (truthy min) || ge rt (lookup "price" item) min)
    && (negb (truthy max) || le rt (lookup "price" item) max)
  else strict_eq (lookup key item) fv.

Definition apply_filters (filters : obj) (items : list obj) : list obj :=
  fold_left
    (fun acc key =>
       if filter_given (lookup key filters)
       then filter (matches key (lookup key filters)) acc
       else acc)
    (map fst filters) items.

(** [query(collection, filters)] *)
Definition query (c : collection) (filters : obj) : M (list obj) :=
  items <- read_all c ;;
  ret (apply_filters filters items).

End Gateway.

(** ** Array.prototype.sort

    A stable insertion sort.  The comparator result is a number; [NaN] counts
    as zero, and an exception of the comparator ends the sort.  For a
    consistent comparator the language fixes the outcome (the stable sorted
    permutation), which is what this computes. *)
Definition positive (n : num) : bool :=
  match n with
  | NaN => false
  | Fin q => Qltb 0 q
  end.

Section Sort.
Variable comparefn : obj -> obj -> result num.

Fixpoint sort_insert (x : obj) (l : list obj) : result (list obj) :=
  match l with
  | [] => Ok [x]
  | y :: l' =>
      c <~ comparefn x y ;;
      if positive c then (r <~ sort_insert x l' ;; Ok (y :: r))
      else Ok (x :: y :: l')
  end.

Fixpoint Array_sort (l : list obj) : result (list obj) :=
  match l with
  | [] => Ok []
  | x :: l' => s <~ Array_sort l' ;; sort_insert x s
  end.
End Sort.

(** ** String helpers (js/utils/helpers.js and String.prototype) *)

(** White space and line terminators among the code units below 256. *)
Definition is_white (c : ascii) : bool :=
  let n := nat_of_ascii c in
  ((9 <=? n) && (n <=? 13) || (n =? 32) || (n =? 160))%nat.

Fixpoint drop_white (cs : list ascii) : list ascii :=
  match cs with
  | [] => []
  | c :: cs' => if is_white c then drop_white cs' else cs
  end.

(** [s.trim()] *)
Definition trim (s : string) : string :=
  string_of_list_ascii
    (rev (drop_white (rev (drop_white (list_ascii_of_string s))))).

Definition is_digit (c : ascii) : bool :=
  let n := nat_of_ascii c in ((48 <=? n) && (n <=? 57))%nat.

Fixpoint split_at (sep : ascii) (cs : list ascii)
  : option (list ascii * list ascii) :=
  match cs with
  | [] => None
  | c :: cs' =>
      if Ascii.eqb c sep then Some ([], cs')
      else match split_at sep cs' with
           | Some (l, r) => Some (c :: l, r)
           | None => None
           end
  end.

(** A dot with at least one unit before it and one after it. *)
Fixpoint has_inner_dot (cs : list ascii) : bool :=
  match cs with
  | _ :: ((c :: (_ :: _)) as cs') =>
      Ascii.eqb c "." || has_inner_dot cs'
  | _ => false
  end.

Definition email_unit (c : ascii) : bool :=
  negb (is_white c) && negb (Ascii.eqb c "@").

(** [/^[^\s@]+@[^\s@]+\.[^\s@]+$/.test(email)] *)
Definition isValidEmail (email : string) : bool :=
  match split_at "@" (list_ascii_of_string email) with
  | Some (local, domain) =>
      negb (Nat.eqb (List.length local) 0)
      && forallb email_unit local
      && forallb email_unit domain
      && has_inner_dot domain
  | None => false
  end.

Definition phone_noise (c : ascii) : bool :=
  is_white c || Ascii.eqb c "-" || Ascii.eqb c "(" || Ascii.eqb c ")".

Definition phone_digits (cs : list ascii) : bool :=
  match cs with
  | d :: ds =>
      is_digit d && negb (Ascii.eqb d "0")
      && forallb is_digit ds && (List.length ds <=? 15)%nat
  | [] => false
  end.

(** [/^[\+]?[1-9][\d]{0,15}$/.test(phone.replace(/[\s\-\(\)]/g, ''))] *)
Definition isValidPhone (phone : string) : bool :=
  let cs := filter (fun c => negb (phone_noise c)) (list_ascii_of_string phone) in
  match cs with
  | c :: cs' => if Ascii.eqb c "+" then phone_digits cs' else phone_digits cs
  | [] => false
  end.

(** [v.trim().length < n] for a truthy [v]: only a string has [trim]. *)
Definition trimmed_shorter (v : value) (n : nat) : result bool :=
  match v with
  | VStr s => Ok (String.length (trim s) <? n)%nat
  | _ => Throw TypeError
  end.

(** [if (cond) throw new Error(message)] *)
Definition throw_if (cond : bool) (message : string) : result unit :=
  if cond then Throw (Error message) else Ok tt.

(** [for (const field of requiredFields) if (missing(data[field])) throw ...] *)
Fixpoint require_fields (missing : value -> bool) (fields : list string)
  (data : obj) : result unit :=
  match fields with
  | [] => Ok tt
  | field :: fields' =>
      if missing (lookup field data)
      then Throw (Error (field ++ " is required")%string)
      else require_fields missing fields' data
  end.

(** [data[field] && data[field].trim().length < n] followed by the throw *)
Definition check_min_length (v : value) (n : nat) (message : string)
  : result unit :=
  if truthy v then (short <~ trimmed_shorter v n ;; throw_if short message)
  else Ok tt.

(** [localStorage.getItem('supermall_current_user')] parsed, then
    [user.uid || 'anonymous'], with ['anonymous'] on any exception. *)
Definition getCurrentUserId (ls : LocalStorage) : value :=
  match supermall_current_user ls with
  | Some VNull | Some VUndef | None => VStr "anonymous"
  | Some user => or_else (get_prop user "uid") (VStr "anonymous")
  end.

Definition currentUserId : M value := fun ls => (Ok (getCurrentUserId ls), ls).

Notation "r ;;> k" := (rbind r (fun _ => k))
  (at level 61, right associativity) : js_scope.

Definition zero : value := num_of_Z 0.
Definition one : value := num_of_Z 1.

(** [switch (sortBy) { case 'k': ... }] compares with [===]. *)
Definition is_case (sortBy : value) (k : string) : bool :=
  strict_eq sortBy (VStr k).

Section Comparators.
Variable rt : Runtime.

(** [(a, b) => a.k.localeCompare(b.k)]: the receiver must be a string, the
    argument is converted to one. *)
Definition by_locale (k : string) (a b : obj) : result num :=
  match lookup k a with
  | VStr s =>
      Ok (Fin (inject_Z (localeCompare rt s (ToString rt (lookup k b)))))
  | _ => Throw TypeError
  end.

(** [(a, b) => a.k - b.k] and [(a, b) => b.k - a.k] *)
Definition by_number_asc (k : string) (a b : obj) : result num :=
  Ok (js_sub rt (lookup k a) (lookup k b)).
Definition by_number_desc (k : string) (a b : obj) : result num :=
  Ok (js_sub rt (lookup k b) (lookup k a)).

(** [(a, b) => new Date(a.k) - new Date(b.k)] and its reverse *)
Definition by_date_asc (k : string) (a b : obj) : result num :=
  Ok (date_sub (new_Date rt (lookup k a)) (new_Date rt (lookup k b))).
Definition by_date_desc (k : string) (a b : obj) : result num :=
  Ok (date_sub (new_Date rt (lookup k b)) (new_Date rt (lookup k a))).

(** [(a, b) => (b.stats?.k || 0) - (a.stats?.k || 0)] *)
Definition stat (k : string) (a : obj) : value :=
  or_else (opt_chain (lookup "stats" a) k) zero.
Definition by_stat_desc (k : string) (a b : obj) : result num :=
  Ok (js_sub rt (stat k b) (stat k a)).
End Comparators.

(** The patch of a soft delete. *)
Definition deletion_patch (rt : Runtime) (now : Z) (uid : value) : obj :=
  [("isActive", VBool false);
   ("deletedAt", VStr (toISOString rt now));
   ("deletedBy", uid)].

(** The patch of a view-count increment, as the services write it. *)
Definition views_patch (rt : Runtime) (now : Z) (record : value) : obj :=
  let currentViews := or_else (opt_chain (get_prop record "stats") "views") zero in
  [("stats.views", js_add rt currentViews one);
   ("stats.lastViewed", VStr (toISOString rt now))].

(** [isActive: filters.includeInactive ? undefined : true] spread after
    [...filters]. *)
Definition with_isActive (filters : obj) : obj :=
  spread filters
    [("isActive",
      if truthy (lookup "includeInactive" filters) then VUndef else VBool true)].

(** ** ShopService

    The methods of the three services on the catalog entries; their Logger
    calls ([info], [error], [performance], [userAction]) write the log
    entries only and are left out. *)
Module ShopService.
Section Service.
Variable rt : Runtime.

Definition validateShopData (shopData : obj) (isUpdate : bool) : result unit :=
  let requiredFields :=
    if isUpdate then []
    else ["name"; "description"; "category"; "floor"; "contact"] in
  require_fields (fun v => negb (truthy v)) requiredFields shopData ;;>
  check_min_length (lookup "name" shopData) 2
    "Shop name must be at least 2 characters long" ;;>
  check_min_length (lookup "description" shopData) 10
    "Shop description must be at least 10 characters long" ;;>
  let floor := lookup "floor" shopData in
  throw_if (truthy floor
            && (lt rt floor (num_of_Z 1) || gt rt floor (num_of_Z 10)))
    "Floor must be between 1 and 10" ;;>
  let contact := lookup "contact" shopData in
  if truthy contact then
    let email := get_prop contact "email" in
    let phone := get_prop contact "phone" in
    throw_if (truthy email && negb (isValidEmail (ToString rt email)))
      "Invalid email format" ;;>
    if truthy phone then
      match phone with
      | VStr p => throw_if (negb (isValidPhone p)) "Invalid phone number format"
      | _ => Throw TypeError
      end
    else Ok tt
  else Ok tt.

Definition initial_stats : value :=
  VObj [("totalProducts", zero); ("totalOffers", zero); ("views", zero);
        ("rating", zero); ("reviews", zero)].

Definition createShop (shopData : obj) (newId : string) (now : Z) : M value :=
  lift (validateShopData shopData false) ;;;
  uid <- currentUserId ;;
  create rt shops
    (spread shopData [("isActive", VBool true); ("createdBy", uid);
                      ("stats", initial_stats)])
    newId now.

Definition sortShops (found : list obj) (sortBy : value) : result (list obj) :=
  if is_case sortBy "name" then Array_sort (by_locale rt "name") found
  else if is_case sortBy "category" then Array_sort (by_locale rt "category") found
  else if is_case sortBy "floor" then Array_sort (by_number_asc rt "floor") found
  else if is_case sortBy "newest" then Array_sort (by_date_desc rt "createdAt") found
  else if is_case sortBy "oldest" then Array_sort (by_date_asc rt "createdAt") found
  else if is_case sortBy "views" then Array_sort (by_stat_desc rt "views") found
  else if is_case sortBy "rating" then Array_sort (by_stat_desc rt "rating") found
  else Ok found.

Definition getShops (filters : obj) : M (list obj) :=
  found <- query rt shops (with_isActive filters) ;;
  lift (sortShops found (or_else (lookup "sortBy" filters) (VStr "name"))).

(** The exception of the increment is caught and not thrown again. *)
Definition incrementShopViews (shopId : value) (now : Z) : M unit :=
  try_catch
    (shop <- read shops shopId ;;
     if truthy shop then update rt shops shopId (views_patch rt now shop) now
     else ret tt)
    (fun _ => ret tt).

Definition getShopById (shopId : value) (now : Z) : M value :=
  shop <- read shops shopId ;;
  if negb (truthy shop) then throw (Error "Shop not found")
  else incrementShopViews shopId now ;;; ret shop.


Definition deleteShop (shopId : value) (now : Z) : M unit :=
  found <- query rt products [("shopId", shopId)] ;;
  if (0 <? List.length found)%nat then
    throw (Error "Cannot delete shop with existing products. Please remove all products first.")
  else
    uid <- currentUserId ;;
    update rt shops shopId (deletion_patch rt now uid) now.

End Service.
End ShopService.

(** ** ProductService *)

Definition num_min (a b : num) : num :=
  match a, b with
  | Fin x, Fin y => Fin (if Qle_bool x y then x else y)
  | _, _ => NaN
  end.

Definition num_max (a b : num) : num :=
  match a, b with
  | Fin x, Fin y => Fin (if Qle_bool x y then y else x)
  | _, _ => NaN
  end.

(** SameValueZero, the equality of [Set]. *)
Definition same_value_zero (a b : value) : bool :=
  match a, b with
  | VNum NaN, VNum NaN => true
  | _, _ => strict_eq a b
  end.

(** [[...new Set(l)]]: first occurrences, in order. *)
Fixpoint distinct (l : list value) : list value :=
  match l with
  | [] => []
  | x :: l' => x :: filter (fun y => negb (same_value_zero x y)) (distinct l')
  end.

(** Names every object literal inherits from [Object.prototype]; reading one
    of them on an object that has no such own property yields the inherited
    function (for [__proto__], the prototype object). *)
Definition Object_prototype_names : list string :=
  ["constructor"; "__defineGetter__"; "__defineSetter__"; "hasOwnProperty";
   "__lookupGetter__"; "__lookupSetter__"; "isPrototypeOf";
   "propertyIsEnumerable"; "toString"; "valueOf"; "__proto__";
   "toLocaleString"].

Definition inherited (k : string) : bool :=
  existsb (String.eqb k) Object_prototype_names.

Record Feature : Type := mkFeature {
  productId : value;
  productName : value;
  feature_value : value
}.

Record PriceRange : Type := mkPriceRange {
  min : num;
  max : num;
  average : num
}.

Record Availability : Type := mkAvailability {
  inStock : nat;
  outOfStock : nat
}.

Record Comparison : Type := mkComparison {
  compared : list value;
  priceRange : PriceRange;
  features : list (string * list Feature);
  categories : list value;
  shopRefs : list value;
  availability : Availability;
  comparedAt : string;
  comparedBy : value
}.

Module ProductService.
Section Service.
Variable rt : Runtime.

Definition validateProductData (productData : obj) (isUpdate : bool)
  : result unit :=
  let requiredFields :=
    if isUpdate then []
    else ["name"; "description"; "price"; "category"; "shopId"; "stock"] in
  let price := lookup "price" productData in
  let stock := lookup "stock" productData in
  require_fields (fun v => strict_eq v VUndef || strict_eq v VNull)
    requiredFields productData ;;>
  check_min_length (lookup "name" productData) 2
    "Product name must be at least 2 characters long" ;;>
  check_min_length (lookup "description" productData) 10
    "Product description must be at least 10 characters long" ;;>
  throw_if (negb (strict_eq price VUndef)
            && (lt rt price zero || isNaN rt price))
    "Price must be a valid positive number" ;;>
  throw_if (negb (strict_eq stock VUndef)
            && (lt rt stock zero || negb (Number_isInteger stock)))
    "Stock must be a valid non-negative integer".

Definition initial_stats : value :=
  VObj [("views", zero); ("purchases", zero); ("rating", zero);
        ("reviews", zero)].

Definition createProduct (productData : obj) (newId : string) (now : Z)
  : M value :=
  lift (validateProductData productData false) ;;;
  uid <- currentUserId ;;
  create rt products
    (spread productData [("isActive", VBool true); ("createdBy", uid);
                         ("stats", initial_stats)])
    newId now.

Definition sortProducts (found : list obj) (sortBy : value)
  : result (list obj) :=
  if is_case sortBy "name" then Array_sort (by_locale rt "name") found
  else if is_case sortBy "price_low" then Array_sort (by_number_asc rt "price") found
  else if is_case sortBy "price_high" then Array_sort (by_number_desc rt "price") found
  else if is_case sortBy "category" then Array_sort (by_locale rt "category") found
  else if is_case sortBy "newest" then Array_sort (by_date_desc rt "createdAt") found
  else if is_case sortBy "oldest" then Array_sort (by_date_asc rt "createdAt") found
  else if is_case sortBy "stock" then Array_sort (by_number_desc rt "stock") found
  else if is_case sortBy "views" then Array_sort (by_stat_desc rt "views") found
  else if is_case sortBy "rating" then Array_sort (by_stat_desc rt "rating") found
  else Ok found.

Definition getProducts (filters : obj) : M (list obj) :=
  found <- query rt products (with_isActive filters) ;;
  lift (sortProducts found (or_else (lookup "sortBy" filters) (VStr "name"))).

Definition incrementProductViews (productId : value) (now : Z) : M unit :=
  try_catch
    (product <- read products productId ;;
     if truthy product
     then update rt products productId (views_patch rt now product) now
     else ret tt)
    (fun _ => ret tt).

Definition getProductById (productId : value) (now : Z) : M value :=
  product <- read products productId ;;
  if negb (truthy product) then throw (Error "Product not found")
  else incrementProductViews productId now ;;; ret product.

Definition updateProduct (productId : value) (updateData : obj) (now : Z)
  : M unit :=
  lift (validateProductData updateData true) ;;;
  uid <- currentUserId ;;
  update rt products productId (spread updateData [("updatedBy", uid)]) now.

Definition deleteProduct (productId : value) (now : Z) : M unit :=
  uid <- currentUserId ;;
  update rt products productId (deletion_patch rt now uid) now.

(** One step of the inner [forEach] of [extractCommonFeatures]:
    [if (!acc[key]) acc[key] = []; acc[key].push(entry)].  With no own
    property [key], [acc[key]] is either [undefined] or inherited; an
    inherited value is truthy and has no [push]. *)
Definition push_feature (key : string) (entry : Feature)
  (acc : list (string * list Feature))
  : result (list (string * list Feature)) :=
  if existsb (fun kv => String.eqb key (fst kv)) acc then
    Ok (map (fun kv => if String.eqb key (fst kv)
                       then (fst kv, snd kv ++ [entry]) else kv) acc)
  else if inherited key then Throw TypeError
  else Ok (acc ++ [(key, [entry])]).

Fixpoint push_features (product : value) (specifications : value)
  (keys : list string) (acc : list (string * list Feature))
  : result (list (string * list Feature)) :=
  match keys with
  | [] => Ok acc
  | key :: keys' =>
      acc' <~ push_feature key
                (mkFeature (get_prop product "id") (get_prop product "name")
                   (get_prop specifications key)) acc ;;
      push_features product specifications keys' acc'
  end.

Fixpoint allFeatures (found : list value) (acc : list (string * list Feature))
  : result (list (string * list Feature)) :=
  match found with
  | [] => Ok acc
  | product :: rest =>
      let specifications := get_prop product "specifications" in
      acc' <~ (if truthy specifications
               then push_features product specifications
                      (Object_keys specifications) acc
               else Ok acc) ;;
      allFeatures rest acc'
  end.

Definition extractCommonFeatures (found : list value)
  : result (list (string * list Feature)) :=
  all <~ allFeatures found [] ;;
  Ok (filter (fun kv => (2 <=? List.length (snd kv))%nat) all).

(** [Math.min(...xs)] and [Math.max(...xs)] on at least one argument
    (without arguments the results are infinite, outside the model). *)
Definition Math_min (xs : list value) : num :=
  match xs with
  | [] => NaN
  | x :: xs' => fold_left (fun m v => num_min m (ToNumber rt v)) xs' (ToNumber rt x)
  end.

Definition Math_max (xs : list value) : num :=
  match xs with
  | [] => NaN
  | x :: xs' => fold_left (fun m v => num_max m (ToNumber rt v)) xs' (ToNumber rt x)
  end.

Fixpoint read_each (ids : list value) : M (list value) :=
  match ids with
  | [] => ret []
  | id :: ids' =>
      p <- read products id ;;
      ps <- read_each ids' ;;
      ret (p :: ps)
  end.

Definition prices (found : list value) : list value :=
  map (fun p => get_prop p "price") found.

Definition compareProducts (productIds : list value) (now : Z)
  : M Comparison :=
  if (List.length productIds <? 2)%nat then
    throw (Error "At least 2 products are required for comparison")
  else if (4 <? List.length productIds)%nat then
    throw (Error "Maximum 4 products can be compared at once")
  else
    found <- read_each productIds ;;
    let validProducts := filter (fun p => negb (strict_eq p VNull)) found in
    if (List.length validProducts <? 2)%nat then
      throw (Error "At least 2 valid products are required for comparison")
    else
      common <- lift (extractCommonFeatures validProducts) ;;
      uid <- currentUserId ;;
      ret (mkComparison validProducts
             (mkPriceRange
                (Math_min (prices validProducts))
                (Math_max (prices validProducts))
                (num_div
                   (ToNumber rt
                      (fold_left (fun sum p => js_add rt sum (get_prop p "price"))
                         validProducts zero))
                   (Fin (inject_Z (Z.of_nat (List.length validProducts))))))
             common
             (distinct (map (fun p => get_prop p "category") validProducts))
             (distinct (map (fun p => get_prop p "shopId") validProducts))
             (mkAvailability
                (List.length
                   (filter (fun p => gt rt (get_prop p "stock") zero)
                      validProducts))
                (List.length
                   (filter (fun p => strict_eq (get_prop p "stock") zero)
                      validProducts)))
             (toISOString rt now)
             uid).

End Service.
End ProductService.

(** ** OfferService *)
Module OfferService.
Section Service.
Variable rt : Runtime.

Definition validateOfferData (offerData : obj) (isUpdate : bool) (now : Z)
  : result unit :=
  let requiredFields :=
    if isUpdate then []
    else ["title"; "description"; "discount"; "shopId"; "validFrom"; "validTo"] in
  let discount := lookup "discount" offerData in
  require_fields (fun v => negb (truthy v)) requiredFields offerData ;;>
  check_min_length (lookup "title" offerData) 3
    "Offer title must be at least 3 characters long" ;;>
  check_min_length (lookup "description" offerData) 10
    "Offer description must be at least 10 characters long" ;;>
  throw_if (negb (strict_eq discount VUndef)
            && (lt rt discount zero || gt rt discount (num_of_Z 100)))
    "Discount must be between 0 and 100 percent" ;;>
  if truthy (lookup "validFrom" offerData) && truthy (lookup "validTo" offerData)
  then
    let validFrom := new_Date rt (lookup "validFrom" offerData) in
    let validTo := new_Date rt (lookup "validTo" offerData) in
    throw_if (date_cmp Z.geb validFrom validTo)
      "Valid from date must be before valid to date" ;;>
    throw_if (date_cmp Z.leb validTo (Some now))
      "Valid to date must be in the future"
  else Ok tt.

Definition initial_stats : value :=
  VObj [("views", zero); ("clicks", zero); ("conversions", zero)].

Definition createOffer (offerData : obj) (newId : string) (now : Z) : M value :=
  lift (validateOfferData offerData false now) ;;;
  uid <- currentUserId ;;
  create rt offers
    (spread offerData [("isActive", VBool true); ("createdBy", uid);
                       ("stats", initial_stats)])
    newId now.

Definition sortOffers (found : list obj) (sortBy : value) : result (list obj) :=
  if is_case sortBy "title" then Array_sort (by_locale rt "title") found
  else if is_case sortBy "discount_high" then Array_sort (by_number_desc rt "discount") found
  else if is_case sortBy "discount_low" then Array_sort (by_number_asc rt "discount") found
  else if is_case sortBy "newest" then Array_sort (by_date_desc rt "createdAt") found
  else if is_case sortBy "oldest" then Array_sort (by_date_asc rt "createdAt") found
  else if is_case sortBy "expiry" then Array_sort (by_date_asc rt "validTo") found
  else if is_case sortBy "views" then Array_sort (by_stat_desc rt "views") found
  else if is_case sortBy "clicks" then Array_sort (by_stat_desc rt "clicks") found
  else Ok found.

(** [now >= validFrom && now <= validTo] *)
Definition in_validity_window (now : Z) (offer : obj) : bool :=
  date_cmp Z.geb (Some now) (new_Date rt (lookup "validFrom" offer))
  && date_cmp Z.leb (Some now) (new_Date rt (lookup "validTo" offer)).

Definition getOffers (filters : obj) (now : Z) : M (list obj) :=
  found <- query rt offers (with_isActive filters) ;;
  let validOffers :=
    if truthy (lookup "includeExpired" filters) then found
    else filter (in_validity_window now) found in
  lift (sortOffers validOffers (or_else (lookup "sortBy" filters) (VStr "newest"))).

(** [validTo < now] *)
Definition expired (now : Z) (offer : obj) : bool :=
  date_cmp Z.ltb (new_Date rt (lookup "validTo" offer)) (Some now).

Definition getExpiredOffers (now : Z) : M (list obj) :=
  allOffers <- getOffers [("includeExpired", VBool true)] now ;;
  ret (filter (expired now) allOffers).

Definition incrementOfferViews (offerId : value) (now : Z) : M unit :=
  try_catch
    (offer <- read offers offerId ;;
     if truthy offer
     then update rt offers offerId (views_patch rt now offer) now
     else ret tt)
    (fun _ => ret tt).

Definition getOfferById (offerId : value) (now : Z) : M value :=
  offer <- read offers offerId ;;
  if negb (truthy offer) then throw (Error "Offer not found")
  else incrementOfferViews offerId now ;;; ret offer.

Definition updateOffer (offerId : value) (updateData : obj) (now : Z) : M unit :=
  lift (validateOfferData updateData true now) ;;;
  uid <- currentUserId ;;
  update rt offers offerId (spread updateData [("updatedBy", uid)]) now.

Definition deleteOffer (offerId : value) (now : Z) : M unit :=
  uid <- currentUserId ;;
  update rt offers offerId (deletion_patch rt now uid) now.

End Service.
End OfferService.

(** ** A host for the examples

    Code-unit collation, dates in the format of [toISOString]
    ([YYYY-MM-DDTHH:mm:ss.sssZ], years 0000 to 9999), and numbers read and
    printed as decimal integers.  The theorems below hold for every
    [Runtime]; this one evaluates the examples. *)
Module ExampleHost.

Definition digits (n : N) : string := NilEmpty.string_of_uint (N.to_uint n).

Fixpoint zeros (k : nat) : string :=
  match k with
  | O => ""
  | S k' => String "0" (zeros k')
  end.

Definition pad (width : nat) (z : Z) : string :=
  let s := digits (Z.to_N z) in
  (zeros (width - String.length s) ++ s)%string.

Definition civil_from_days (days : Z) : Z * Z * Z :=
  let z := (days + 719468)%Z in
  let era := (z / 146097)%Z in
  let doe := (z - era * 146097)%Z in
  let yoe := ((doe - doe / 1460 + doe / 36524 - doe / 146096) / 365)%Z in
  let doy := (doe - (365 * yoe + yoe / 4 - yoe / 100))%Z in
  let mp := ((5 * doy + 2) / 153)%Z in
  let d := (doy - (153 * mp + 2) / 5 + 1)%Z in
  let m := (if mp <? 10 then mp + 3 else mp - 9)%Z in
  let y := (yoe + era * 400 + (if m <=? 2 then 1 else 0))%Z in
  (y, m, d).

Definition days_from_civil (y m d : Z) : Z :=
  let y' := (if m <=? 2 then y - 1 else y)%Z in
  let era := (y' / 400)%Z in
  let yoe := (y' - era * 400)%Z in
  let doy := ((153 * (if 2 <? m then m - 3 else m + 9) + 2) / 5 + d - 1)%Z in
  let doe := (yoe * 365 + yoe / 4 - yoe / 100 + doy)%Z in
  (era * 146097 + doe - 719468)%Z.

Definition toISOString (t : Z) : string :=
  let days := (t / 86400000)%Z in
  let ms := (t mod 86400000)%Z in
  let '(y, m, d) := civil_from_days days in
  (pad 4 y ++ "-" ++ pad 2 m ++ "-" ++ pad 2 d ++ "T"
   ++ pad 2 (ms / 3600000) ++ ":" ++ pad 2 (ms / 60000 mod 60) ++ ":"
   ++ pad 2 (ms / 1000 mod 60) ++ "." ++ pad 3 (ms mod 1000) ++ "Z")%string.

Definition digit_value (c : ascii) : option Z :=
  if is_digit c then Some (Z.of_nat (nat_of_ascii c) - 48)%Z else None.

Fixpoint number_of (acc : Z) (cs : list ascii) : option Z :=
  match cs with
  | [] => Some acc
  | c :: cs' =>
      match digit_value c with
      | Some d => number_of (acc * 10 + d)%Z cs'
      | None => None
      end
  end.

(** [k] digits, then the separator [sep]. *)
Definition field (k : nat) (sep : ascii) (cs : list ascii)
  : option (Z * list ascii) :=
  match number_of 0 (firstn k cs), skipn k cs with
  | Some z, c :: rest =>
      if (Nat.eqb (List.length (firstn k cs)) k && Ascii.eqb c sep)%bool
      then Some (z, rest) else None
  | _, _ => None
  end.

Definition Date_parse (s : string) : option Z :=
  match field 4 "-" (list_ascii_of_string s) with
  | Some (y, r1) =>
  match field 2 "-" r1 with
  | Some (m, r2) =>
  match field 2 "T" r2 with
  | Some (d, r3) =>
  match field 2 ":" r3 with
  | Some (hh, r4) =>
  match field 2 ":" r4 with
  | Some (mm, r5) =>
  match field 2 "." r5 with
  | Some (ss, r6) =>
  match field 3 "Z" r6 with
  | Some (ms, []) =>
      if ((1 <=? m) && (m <=? 12) && (1 <=? d) && (d <=? 31)
          && (hh <=? 23) && (mm <=? 59) && (ss <=? 59))%Z
      then Some (days_from_civil y m d * 86400000
                 + hh * 3600000 + mm * 60000 + ss * 1000 + ms)%Z
      else None
  | _ => None end
  | None => None end
  | None => None end
  | None => None end
  | None => None end
  | None => None end
  | None => None end.

Definition StringToNumber (s : string) : num :=
  match list_ascii_of_string (trim s) with
  | [] => Fin 0
  | c :: cs =>
      if Ascii.eqb c "-" then
        match cs, number_of 0 cs with
        | _ :: _, Some z => Fin (inject_Z (- z))
        | _, _ => NaN
        end
      else match number_of 0 (c :: cs) with
           | Some z => Fin (inject_Z z)
           | None => NaN
           end
  end.

Definition NumberToString (q : Q) : string :=
  let z := Z.quot (Qnum q) (Zpos (Qden q)) in
  if (z <? 0)%Z then ("-" ++ digits (Z.to_N (- z)))%string
  else digits (Z.to_N z).

Definition localeCompare (a b : string) : Z :=
  match String.compare a b with
  | Lt => (-1)%Z
  | Eq => 0%Z
  | Gt => 1%Z
  end.

Definition host : Runtime :=
  Build_Runtime localeCompare Date_parse toISOString StringToNumber
    NumberToString.
End ExampleHost.

(** ** Demo data

    The shops, products and offers that [initializeDemoData] stores when the
    collections are absent; [now] is the instant of seeding. *)
Section DemoData.
Variable rt : Runtime.
Variable now : Z.

Definition seededAt : value := VStr (toISOString rt now).

Definition demoShops : list obj :=
  [ [("id", VStr "1");
     ("name", VStr "Rural Electronics Hub");
     ("description", VStr "Best electronic devices from rural manufacturers");
     ("category", VStr "Electronics");
     ("floor", num_of_Z 1);
     ("location",
      VObj [("address", VStr "123 Main St, Rural Town");
            ("coordinates",
             VObj [("lat", VNum (Fin (407128 # 10000)));
                   ("lng", VNum (Fin (-74006 # 1000)))])]);
     ("contact",
      VObj [("phone", VStr "+1-555-0123");
            ("email", VStr "info@ruralelectronics.com")]);
     ("images",
      VArr [VStr "https://images.unsplash.com/photo-1441986300917-64674bd600d8?w=400"]);
     ("isActive", VBool true);
     ("createdAt", seededAt)];
    [("id", VStr "2");
     ("name", VStr "Village Textiles");
     ("description", VStr "Handwoven textiles and traditional clothing");
     ("category", VStr "Clothing");
     ("floor", num_of_Z 2);
     ("location",
      VObj [("address", VStr "456 Village Rd, Rural Town");
            ("coordinates",
             VObj [("lat", VNum (Fin (407589 # 10000)));
                   ("lng", VNum (Fin (-739851 # 10000)))])]);
     ("contact",
      VObj [("phone", VStr "+1-555-0456");
            ("email", VStr "orders@villagetextiles.com")]);
     ("images",
      VArr [VStr "https://images.unsplash.com/photo-1441984904996-e0b6ba687e04?w=400"]);
     ("isActive", VBool true);
     ("createdAt", seededAt)] ].

Definition demoProducts : list obj :=
  [ [("id", VStr "1");
     ("name", VStr "Organic Smartphone Case");
     ("description", VStr "Eco-friendly smartphone case made from bamboo fiber");
     ("price", VNum (Fin (2999 # 100)));
     ("category", VStr "Electronics");
     ("shopId", VStr "1");
     ("images",
      VArr [VStr "https://images.unsplash.com/photo-1601593346740-925612772716?w=300"]);
     ("specifications",
      VObj [("Material", VStr "Bamboo Fiber");
            ("Compatibility", VStr "iPhone/Android");
            ("Weight", VStr "50g")]);
     ("stock", num_of_Z 50);
     ("isActive", VBool true);
     ("createdAt", seededAt)];
    [("id", VStr "2");
     ("name", VStr "Handwoven Cotton Shirt");
     ("description", VStr "Traditional handwoven cotton shirt with modern design");
     ("price", num_of_Z 45);
     ("category", VStr "Clothing");
     ("shopId", VStr "2");
     ("images",
      VArr [VStr "https://images.unsplash.com/photo-1521572163474-6864f9cf17ab?w=300"]);
     ("specifications",
      VObj [("Material", VStr "100% Cotton");
            ("Size", VStr "M/L/XL");
            ("Care", VStr "Hand Wash")]);
     ("stock", num_of_Z 25);
     ("isActive", VBool true);
     ("createdAt", seededAt)] ].

Definition demoOffers : list obj :=
  [ [("id", VStr "1");
     ("title", VStr "Summer Sale - Electronics");
     ("description", VStr "20% off on all electronic items");
     ("discount", num_of_Z 20);
     ("shopId", VStr "1");
     ("productIds", VArr [VStr "1"]);
     ("validFrom", seededAt);
     ("validTo", VStr (toISOString rt (now + 30 * 24 * 60 * 60 * 1000)));
     ("isActive", VBool true);
     ("createdAt", seededAt)] ].

Definition demoStorage : LocalStorage :=
  mkLocalStorage demoShops demoProducts demoOffers None.
End DemoData.


(** ** Reading results and storage in statements *)

Definition ids (items : list obj) : list value := map (lookup "id") items.

(** The stored record [read] would return for a string identifier. *)
Definition stored (c : collection) (id : string) (ls : LocalStorage)
  : option obj :=
  find (fun item => strict_eq (lookup "id" item) (VStr id)) (getItem c ls).

Definition returned {A} (r : result A * LocalStorage) : result A := fst r.
Definition storage_after {A} (r : result A * LocalStorage) : LocalStorage :=
  snd r.

Definition result_map {A B} (f : A -> B) (r : result A) : result B :=
  match r with
  | Ok a => Ok (f a)
  | Throw e => Throw e
  end.

(** The storage holds what [JSON.parse] produced. *)
Definition parsed (ls : LocalStorage) : Prop :=
  forall c, JSON_items (getItem c ls) = getItem c ls.

(** No stored record of the collection has the identifier. *)
Definition fresh (c : collection) (id : string) (ls : LocalStorage) : Prop :=
  stored c id ls = None.

(** ** Names used in the statements *)

(** What [update] leaves in the collection: the same records in the same
    order, one of them merged with the patch. *)
Inductive patched (patch : obj) : list obj -> list obj -> Prop :=
| patched_here item rest :
    patched patch (item :: rest) (spread item patch :: rest)
| patched_later item rest rest' :
    patched patch rest rest' -> patched patch (item :: rest) (item :: rest').

Definition conflict : exn :=
  Error "Cannot delete shop with existing products. Please remove all products first.".

Definition discount_error : exn :=
  Error "Discount must be between 0 and 100 percent".

(** The record stored by [create] for [data]. *)
Definition created_record (rt : Runtime) (data : obj) (newId : string) (now : Z)
  : obj :=
  JSON_props
    (spread data [("id", VStr newId); ("createdAt", VStr (toISOString rt now))]).

Definition reserved_fields : list string :=
  ["id"; "createdAt"; "isActive"; "createdBy"; "stats"].

(** ** Resolved products and their prices *)

(** The stored records that a list of string identifiers resolves to. *)
Definition resolved (c : collection) (sids : list string) (ls : LocalStorage)
  : list obj :=
  flat_map (fun sid => match stored c sid ls with
                       | Some p => [p]
                       | None => []
                       end) sids.

Definition priced (p : obj) : Prop :=
  exists q, lookup "price" p = VNum (Fin q).

Definition price_of (p : obj) : Q :=
  match lookup "price" p with
  | VNum (Fin q) => q
  | _ => 0
  end.

Definition sum_prices (found : list obj) : Q :=
  fold_left (fun sum p => (sum + price_of p)%Q) found 0.

(** ** Common features, in the words of the specification

    A product carries a key when its specifications have it; the common
    features are the keys carried by at least two of the compared products,
    each with the entries of the products that carry it. *)

Definition carries (key : string) (p : obj) : bool :=
  truthy (lookup "specifications" p)
  && existsb (String.eqb key) (Object_keys (lookup "specifications" p)).

Definition feature_of (key : string) (p : obj) : Feature :=
  mkFeature (lookup "id" p) (lookup "name" p)
    (get_prop (lookup "specifications" p) key).

Definition pairs_carrying (key : string) (found : list obj) : list Feature :=
  map (feature_of key) (filter (carries key) found).

(** The specification keys of the product are distinct and none of them is
    a name inherited from [Object.prototype]. *)
Definition plain_specifications (p : obj) : Prop :=
  NoDup (Object_keys (lookup "specifications" p))
  /\ Forall (fun key => inherited key = false)
       (Object_keys (lookup "specifications" p)).

(** The entries accumulated under a key. *)
Fixpoint entries (key : string) (acc : list (string * list Feature))
  : list Feature :=
  match acc with
  | [] => []
  | (key', es) :: acc' => if String.eqb key key' then es else entries key acc'
  end.

(** Every key of the accumulator has at least one entry. *)
Definition filled (acc : list (string * list Feature)) : Prop :=
  forall key, In key (map fst acc) -> entries key acc <> [].

Definition too_few : exn :=
  Error "At least 2 products are required for comparison".
Definition too_many : exn :=
  Error "Maximum 4 products can be compared at once".
Definition too_few_valid : exn :=
  Error "At least 2 valid products are required for comparison".

(** ** Orders on records *)

(** [a.price <= b.price], both prices being numbers. *)
Definition price_le (rt : Runtime) (a b : obj) : Prop :=
  match ToNumber rt (lookup "price" a), ToNumber rt (lookup "price" b) with
  | Fin x, Fin y => (x <= y)%Q
  | _, _ => False
  end.

(** [a] was created no earlier than [b], both creation times being dates. *)
Definition created_ge (rt : Runtime) (a b : obj) : Prop :=
  match new_Date rt (lookup "createdAt" a), new_Date rt (lookup "createdAt" b) with
  | Some x, Some y => (y <= x)%Z
  | _, _ => False
  end.

Definition has_price (rt : Runtime) (p : obj) : Prop :=
  exists q, ToNumber rt (lookup "price" p) = Fin q.

Definition has_creation_time (rt : Runtime) (p : obj) : Prop :=
  exists t, new_Date rt (lookup "createdAt" p) = Some t.

(** ** Scenarios on the demo data *)
Module Scenario.
Definition host : Runtime := ExampleHost.host.

(** 2024-01-01T00:00:00.000Z *)
Definition t0 : Z := 1704067200000.
Definition day : Z := 86400000.

Definition seeded : LocalStorage := demoStorage host t0.

Definition bookshop : obj :=
  [("name", VStr "Corner Books");
   ("description", VStr "Second-hand books and maps");
   ("category", VStr "Books");
   ("floor", num_of_Z 3);
   ("contact",
    VObj [("phone", VStr "+1-555-0199");
          ("email", VStr "books@corner.example")])].

Definition lamp : obj :=
  [("name", VStr "Solar Lamp");
   ("description", VStr "Rechargeable lamp with a solar panel");
   ("price", VNum (Fin (1250 # 100)));
   ("category", VStr "Electronics");
   ("shopId", VStr "1");
   ("stock", num_of_Z 8);
   ("specifications", VObj [("Weight", VStr "300g")])].

(** Two products whose specification sheets name a "constructor". *)
Definition kit (name : string) (maker : string) : obj :=
  [("name", VStr name);
   ("description", VStr "Model kit, assembly required");
   ("price", num_of_Z 20);
   ("category", VStr "Toys");
   ("shopId", VStr "2");
   ("stock", num_of_Z 3);
   ("specifications", VObj [("constructor", VStr maker)])].

Definition sale (discount : value) : obj :=
  [("title", VStr "Winter Sale");
   ("description", VStr "Discount on all winter items");
   ("discount", discount);
   ("shopId", VStr "2");
   ("validFrom", VStr (toISOString host t0));
   ("validTo", VStr (toISOString host (t0 + 10 * day)))].

(** Three stored products that carry a [sortBy] property of their own. *)
Definition tagged (id : string) (price : Q) (created : Z) (tag : string) : obj :=
  [("id", VStr id); ("name", VStr id); ("price", VNum (Fin price));
   ("isActive", VBool true); ("sortBy", VStr tag);
   ("createdAt", VStr (toISOString host created))].

Definition tagged_storage (tag : string) : LocalStorage :=
  mkLocalStorage []
    [tagged "a" (45 # 1) t0 tag;
     tagged "b" (25 # 2) (t0 + 2 * day) tag;
     tagged "c" (2999 # 100) (t0 + day) tag]
    [] None.


Definition vstr_ids (l : list string) : list value := map VStr l.
End Scenario.

(** * Further methods of the services, and the helpers around them

    As before, the methods are modelled on the catalog entries; their Logger
    calls, which write the two log entries only, are left out. *)

(** ** String.prototype.toLowerCase, includes and substring *)

(** The lower-case unit of a code unit below 256. *)
Definition lower_unit (c : ascii) : ascii :=
  let n := nat_of_ascii c in
  if ((65 <=? n) && (n <=? 90)
      || (192 <=? n) && (n <=? 222) && negb (n =? 215))%nat
  then ascii_of_nat (n + 32) else c.

(** [s.toLowerCase()] *)
Definition toLowerCase (s : string) : string :=
  string_of_list_ascii (map lower_unit (list_ascii_of_string s)).

Fixpoint starts_with (t s : list ascii) : bool :=
  match t, s with
  | [], _ => true
  | _ :: _, [] => false
  | c :: t', d :: s' => Ascii.eqb c d && starts_with t' s'
  end.

Fixpoint includes_units (s t : list ascii) : bool :=
  starts_with t s
  || match s with
     | [] => false
     | _ :: s' => includes_units s' t
     end.

(** [s.includes(t)] *)
Definition includes (s t : string) : bool :=
  includes_units (list_ascii_of_string s) (list_ascii_of_string t).

(** [text.substring(0, n)] for an integer [n] *)
Definition substring_to (text : string) (n : Z) : string :=
  string_of_list_ascii (firstn (Z.to_nat n) (list_ascii_of_string text)).

(** [truncateText(text, maxLength, suffix)] of js/utils/helpers.js, on a
    string and an integer length. *)
Definition truncateText (text : string) (maxLength : Z) (suffix : string)
  : string :=
  if negb (truthy (VStr text))
     || (Z.of_nat (String.length text) <=? maxLength)%Z
  then text
  else (substring_to text (maxLength - Z.of_nat (String.length suffix))
        ++ suffix)%string.

(** ** Array.prototype.filter with a callback that may throw *)

Fixpoint filter_throwing (f : obj -> result bool) (l : list obj)
  : result (list obj) :=
  match l with
  | [] => Ok []
  | x :: l' =>
      keep <~ f x ;;
      rest <~ filter_throwing f l' ;;
      Ok (if keep then x :: rest else rest)
  end.

(** [a || b] where evaluating [a] may throw and a truthy [a] skips [b] *)
Definition or_lazy (a b : result bool) : result bool :=
  x <~ a ;; if x then Ok true else b.

(** [v.toLowerCase().includes(term)]: only a string has [toLowerCase]. *)
Definition lowered_includes (v : value) (term : string) : result bool :=
  match v with
  | VStr s => Ok (includes (toLowerCase s) term)
  | _ => Throw TypeError
  end.

(** [!query || query.trim() === ''] for a string [query] *)
Definition blank (query : string) : bool :=
  negb (truthy (VStr query)) || String.eqb (trim query) "".

(** [Object.values(v)] for a truthy [v] *)
Definition Object_values (v : value) : list value :=
  match v with
  | VObj o => map snd o
  | VArr l => l
  | VStr s => map (fun c => VStr (String c EmptyString)) (string_units s)
  | _ => []
  end.

(** ** ShopService, continued *)

Record ShopStats : Type := mkShopStats {
  totalProducts : nat;
  totalOffers : nat;
  activeProducts : nat;
  outOfStockProducts : nat;
  averagePrice : num;
  totalValue : value;
  views : value;
  rating : value;
  reviews : value
}.

Module ShopQueries.
Section Service.
Variable rt : Runtime.

Definition getShopsByCategory (category : value) : M (list obj) :=
  ShopService.getShops rt [("category", category)].

Definition getShopsByFloor (floor : value) : M (list obj) :=
  ShopService.getShops rt [("floor", floor)].

(** The callback of the filter in [searchShops]. *)
Definition shop_matches (searchTerm : string) (shop : obj) : result bool :=
  or_lazy (lowered_includes (lookup "name" shop) searchTerm)
    (or_lazy (lowered_includes (lookup "description" shop) searchTerm)
       (or_lazy (lowered_includes (lookup "category" shop) searchTerm)
          (if truthy (lookup "contact" shop)
           then lowered_includes (get_prop (lookup "contact" shop) "email")
                  searchTerm
           else Ok false))).

Definition searchShops (query : string) (filters : obj) : M (list obj) :=
  allShops <- ShopService.getShops rt filters ;;
  if blank query then ret allShops
  else lift (filter_throwing (shop_matches (trim (toLowerCase query))) allShops).

(** [a * b] *)
Definition js_mul (a b : value) : num :=
  match ToNumber rt a, ToNumber rt b with
  | Fin x, Fin y => Fin (x * y)
  | _, _ => NaN
  end.

Definition getShopStats (shopId : value) : M ShopStats :=
  shop <- read shops shopId ;;
  found <- query rt products [("shopId", shopId); ("isActive", VBool true)] ;;
  foundOffers <- query rt offers [("shopId", shopId); ("isActive", VBool true)] ;;
  if negb (truthy shop) then throw (Error "Shop not found")
  else
    let stats := get_prop shop "stats" in
    ret (mkShopStats
           (List.length found)
           (List.length foundOffers)
           (List.length (filter (fun p => gt rt (lookup "stock" p) zero) found))
           (List.length (filter (fun p => strict_eq (lookup "stock" p) zero) found))
           (if (0 <? List.length found)%nat
            then num_div
                   (ToNumber rt
                      (fold_left (fun sum p => js_add rt sum (lookup "price" p))
                         found zero))
                   (Fin (inject_Z (Z.of_nat (List.length found))))
            else Fin 0)
           (fold_left
              (fun sum p =>
                 js_add rt sum (VNum (js_mul (lookup "price" p) (lookup "stock" p))))
              found zero)
           (or_else (opt_chain stats "views") zero)
           (or_else (opt_chain stats "rating") zero)
           (or_else (opt_chain stats "reviews") zero)).

End Service.
End ShopQueries.

(** ** ProductService, continued *)
Module ProductQueries.
Section Service.
Variable rt : Runtime.

Definition getProductsByCategory (category : value) : M (list obj) :=
  ProductService.getProducts rt [("category", category)].

Definition getProductsByShop (shopId : value) : M (list obj) :=
  ProductService.getProducts rt [("shopId", shopId)].

Definition getProductsByPriceRange (minPrice maxPrice : value) : M (list obj) :=
  ProductService.getProducts rt
    [("priceRange", VObj [("min", minPrice); ("max", maxPrice)])].

(** [spec.toString()] of a specification value: [null] and [undefined] have
    no methods, and an object with an own property [toString] has no callable
    one. *)
Definition spec_toString (spec : value) : result string :=
  match spec with
  | VUndef | VNull => Throw TypeError
  | VObj o => if has_key "toString" o then Throw TypeError
              else Ok (ToString rt spec)
  | _ => Ok (ToString rt spec)
  end.

(** [values.some(spec => spec.toString().toLowerCase().includes(term))] *)
Fixpoint some_spec_includes (values : list value) (searchTerm : string)
  : result bool :=
  match values with
  | [] => Ok false
  | spec :: rest =>
      s <~ spec_toString spec ;;
      if includes (toLowerCase s) searchTerm then Ok true
      else some_spec_includes rest searchTerm
  end.

(** The callback of the filter in [searchProducts]. *)
Definition product_matches (searchTerm : string) (product : obj) : result bool :=
  or_lazy (lowered_includes (lookup "name" product) searchTerm)
    (or_lazy (lowered_includes (lookup "description" product) searchTerm)
       (or_lazy (lowered_includes (lookup "category" product) searchTerm)
          (if truthy (lookup "specifications" product)
           then some_spec_includes
                  (Object_values (lookup "specifications" product)) searchTerm
           else Ok false))).

Definition searchProducts (query : string) (filters : obj) : M (list obj) :=
  allProducts <- ProductService.getProducts rt filters ;;
  if blank query then ret allProducts
  else lift (filter_throwing (product_matches (trim (toLowerCase query)))
               allProducts).

Definition updateStock (productId quantity : value) (now : Z) : M unit :=
  if lt rt quantity zero then throw (Error "Stock quantity cannot be negative")
  else
    uid <- currentUserId ;;
    update rt products productId
      [("stock", quantity);
       ("stockUpdatedAt", VStr (toISOString rt now));
       ("stockUpdatedBy", uid)]
      now.

(** [product.stock <= threshold && product.stock > 0] *)
Definition low_stock (threshold : value) (product : obj) : bool :=
  le rt (lookup "stock" product) threshold
  && gt rt (lookup "stock" product) zero.

(** [getLowStockProducts(threshold = 10)]: an [undefined] argument is the
    default. *)
Definition getLowStockProducts (threshold : value) : M (list obj) :=
  let threshold := if strict_eq threshold VUndef then num_of_Z 10 else threshold in
  allProducts <- ProductService.getProducts rt [] ;;
  ret (filter (low_stock threshold) allProducts).

Definition getOutOfStockProducts : M (list obj) :=
  allProducts <- ProductService.getProducts rt [] ;;
  ret (filter (fun product => strict_eq (lookup "stock" product) zero) allProducts).

End Service.
End ProductQueries.

(** ** OfferService, continued *)
Module OfferQueries.
Section Service.
Variable rt : Runtime.
(** [d = new Date(); d.setDate(d.getDate() + days)]: the time value of [d],
    which depends on the local time zone. *)
Variable plusDays : Z -> value -> option Z.

(** [getActiveOffers(shopId = null)] *)
Definition getActiveOffers (shopId : value) (now : Z) : M (list obj) :=
  let shopId := if strict_eq shopId VUndef then VNull else shopId in
  let filters :=
    if truthy shopId then [("isActive", VBool true); ("shopId", shopId)]
    else [("isActive", VBool true)] in
  OfferService.getOffers rt filters now.

Definition getOffersByShop (shopId : value) (now : Z) : M (list obj) :=
  OfferService.getOffers rt [("shopId", shopId)] now.

(** [getExpiringOffers(days = 7)] *)
Definition getExpiringOffers (days : value) (now : Z) : M (list obj) :=
  let days := if strict_eq days VUndef then num_of_Z 7 else days in
  allOffers <- getActiveOffers VUndef now ;;
  let expiryThreshold := plusDays now days in
  ret (filter
         (fun offer =>
            date_cmp Z.leb (new_Date rt (lookup "validTo" offer)) expiryThreshold)
         allOffers).

Definition applyOfferToProducts (offerId : value) (productIds : list value)
  (now : Z) : M unit :=
  uid <- currentUserId ;;
  update rt offers offerId
    [("productIds", VArr productIds);
     ("appliedAt", VStr (toISOString rt now));
     ("appliedBy", uid)]
    now.



End Service.
End OfferQueries.

(** ** Logger (js/utils/helpers.js)

    The logger on its own two storage entries.  The level is one of the four
    names its convenience methods pass.  The calls the services make to it
    are still left out of their models: they write to these entries only. *)

Inductive logLevel : Type := DEBUG | INFO | WARN | ERROR.

Definition level_name (level : logLevel) : string :=
  match level with
  | DEBUG => "DEBUG"
  | INFO => "INFO"
  | WARN => "WARN"
  | ERROR => "ERROR"
  end.

Record LogStorage : Type := mkLogStorage {
  supermall_logs : list obj;
  supermall_server_logs : list obj
}.

(** What the page supplies to a log entry. *)
Record Page : Type := mkPage {
  userAgent : string;
  href : string
}.

Module Logger.
Section Logger.
Variable rt : Runtime.
Variable page : Page.
(** [Logger.currentLevel], initially [Logger.logLevels.INFO] *)
Variable currentLevel : value.

Definition logLevels : obj :=
  [("DEBUG", num_of_Z 0); ("INFO", num_of_Z 1); ("WARN", num_of_Z 2);
   ("ERROR", num_of_Z 3)].

Definition maxLogs : nat := 100.

(** [Logger.logLevels[level] || Logger.logLevels.INFO] *)
Definition levelValue (level : logLevel) : value :=
  or_else (lookup (level_name level) logLevels) (lookup "INFO" logLevels).

Definition logEntry (level : logLevel) (message : string) (data : value)
  (now : Z) (ls : LocalStorage) : obj :=
  [("timestamp", VStr (toISOString rt now));
   ("level", VStr (level_name level));
   ("message", VStr message);
   ("data", data);
   ("userAgent", VStr (userAgent page));
   ("url", VStr (href page));
   ("userId", getCurrentUserId ls)].

(** [logs.push(entry); if (logs.length > maxLogs) logs.splice(0, logs.length
    - maxLogs)], then the array is written. *)
Definition storeLog (entry : obj) (logs : LogStorage) : LogStorage :=
  let pushed := supermall_logs logs ++ [entry] in
  let kept :=
    if (maxLogs <? List.length pushed)%nat
    then skipn (List.length pushed - maxLogs) pushed
    else pushed in
  mkLogStorage (JSON_items kept) (supermall_server_logs logs).

Definition shouldSendToServer (level : logLevel) : bool :=
  match level with
  | ERROR | WARN => true
  | _ => false
  end.

Definition sendToServer (entry : obj) (logs : LogStorage) : LogStorage :=
  mkLogStorage (supermall_logs logs)
    (JSON_items (supermall_server_logs logs ++ [entry])).

(** [Logger.log(level, message, data)] *)
Definition log (level : logLevel) (message : string) (data : value)
  (now : Z) (ls : LocalStorage) (logs : LogStorage) : LogStorage :=
  if lt rt (levelValue level) currentLevel then logs
  else
    let entry := logEntry level message data now ls in
    let logs' := storeLog entry logs in
    if shouldSendToServer level then sendToServer entry logs' else logs'.

Definition getLogs (logs : LogStorage) : list obj := supermall_logs logs.

(** [clearLogs()]: both entries are removed, then the removal is logged. *)
Definition clearLogs (now : Z) (ls : LocalStorage) (logs : LogStorage)
  : LogStorage :=
  log INFO "Logs cleared successfully" (VObj []) now ls (mkLogStorage [] []).

End Logger.
End Logger.

(** ** AuthService (localStorage branch)

    The service holds the current user in memory ([null] when nobody is
    logged in) and mirrors it in the storage entry that the catalog services
    read.  Listeners are not modelled. *)

Record Session : Type := mkSession {
  currentUser : value;
  storage : LocalStorage
}.

Definition setCurrentUserItem (user : option value) (ls : LocalStorage)
  : LocalStorage :=
  mkLocalStorage (supermall_shops ls) (supermall_products ls)
    (supermall_offers ls) user.

(** [{...v}] for a value [v] *)
Definition own_properties (v : value) : obj :=
  match v with
  | VObj o => o
  | VArr l => combine (map index_key (seq 0 (List.length l))) l
  | VStr s =>
      combine (map index_key (seq 0 (String.length s)))
        (map (fun c => VStr (String c EmptyString)) (string_units s))
  | _ => []
  end.

Module AuthService.
Section Service.
Variable rt : Runtime.

Definition Auth (A : Type) : Type := Session -> result A * Session.

(** [this.currentUser = user; localStorage.setItem(..., JSON.stringify(user))] *)
Definition signIn (user : obj) (s : Session) : Session :=
  mkSession (VObj user)
    (setCurrentUserItem (Some (JSON_value (VObj user))) (storage s)).

(** [this.currentUser = null; localStorage.removeItem(...)] *)
Definition signOut (s : Session) : Session :=
  mkSession VNull (setCurrentUserItem None (storage s)).

(** [initializeAuth()]: the stored session, if any, becomes the current
    user. *)
Definition initializeAuth (ls : LocalStorage) : Session :=
  match supermall_current_user ls with
  | Some user => mkSession user ls
  | None => mkSession VNull ls
  end.

(** [getAuthErrorMessage(error)] for an error without a [code] *)
Definition getAuthErrorMessage (message : string) : string :=
  if String.eqb message "auth/user-not-found"
  then "No account found with this email address."
  else if String.eqb message "auth/wrong-password"
  then "Incorrect password. Please try again."
  else if String.eqb message "auth/email-already-in-use"
  then "An account with this email already exists."
  else if String.eqb message "auth/weak-password"
  then "Password should be at least 6 characters long."
  else if String.eqb message "auth/invalid-email"
  then "Please enter a valid email address."
  else if String.eqb message "auth/user-disabled"
  then "This account has been disabled."
  else if String.eqb message "auth/too-many-requests"
  then "Too many failed attempts. Please try again later."
  else if String.eqb message "auth/network-request-failed"
  then "Network error. Please check your connection."
  else if String.eqb message "" then "An error occurred. Please try again."
  else message.

(** [throw new Error(this.getAuthErrorMessage(error))] *)
Definition authError {A} (message : string) (s : Session) : result A * Session :=
  (Throw (Error (getAuthErrorMessage message)), s).

Definition demoAdmin (email : value) : obj :=
  [("uid", VStr "demo-admin-uid"); ("email", email);
   ("displayName", VStr "Admin User"); ("role", VStr "admin");
   ("profile", VObj [("name", VStr "Admin User"); ("phone", VStr "+1-555-0000")])].

Definition demoUser (email : value) : obj :=
  [("uid", VStr "demo-user-uid"); ("email", email);
   ("displayName", VStr "Demo User"); ("role", VStr "user");
   ("profile", VObj [("name", VStr "Demo User"); ("phone", VStr "+1-555-0001")])].

Definition login (email password : value) : Auth value :=
  fun s =>
    if strict_eq email (VStr "admin@supermall.com")
       && strict_eq password (VStr "admin123")
    then (Ok (VObj (demoAdmin email)), signIn (demoAdmin email) s)
    else if strict_eq email (VStr "user@supermall.com")
            && strict_eq password (VStr "user123")
    then (Ok (VObj (demoUser email)), signIn (demoUser email) s)
    else authError "Invalid email or password" s.

(** [password && password.length >= 6] *)
Definition isValidPassword (password : value) : value :=
  if truthy password
  then VBool (ge rt (get_prop password "length") (num_of_Z 6))
  else password.

Definition registered (email : value) (userData : obj) (now : Z) : obj :=
  [("uid", js_add rt (VStr "demo-") (num_of_Z now));
   ("email", email);
   ("displayName", lookup "name" userData);
   ("role", or_else (lookup "role" userData) (VStr "user"));
   ("profile",
    VObj [("name", lookup "name" userData);
          ("phone", lookup "phone" userData)])].

Definition register (email password : value) (userData : obj) (now : Z)
  : Auth value :=
  fun s =>
    if negb (isValidEmail (ToString rt email))
    then authError "Invalid email format" s
    else if negb (truthy (isValidPassword password))
    then authError "Password must be at least 6 characters long" s
    else (Ok (VObj (registered email userData now)),
          signIn (registered email userData now) s).

Definition logout : Auth unit := fun s => (Ok tt, signOut s).

Definition resetPassword (email : value) : Auth unit :=
  authError "Password reset not available in demo mode".

Definition updateProfile (profileData : obj) : Auth unit :=
  fun s =>
    if negb (truthy (currentUser s)) then (Throw (Error "No user logged in"), s)
    else
      let user := currentUser s in
      let updated :=
        spread (own_properties user)
          [("displayName",
            or_else (lookup "displayName" profileData) (get_prop user "displayName"));
           ("profile",
            VObj (spread (own_properties (get_prop user "profile")) profileData))] in
      (Ok tt, signIn updated s).

Definition changePassword (currentPassword newPassword : value) : Auth unit :=
  fun s =>
    if negb (truthy (currentUser s)) then authError "No user logged in" s
    else if negb (truthy (isValidPassword newPassword))
    then authError "New password must be at least 6 characters long" s
    else authError "Password change not available in demo mode" s.

Definition deleteAccount : Auth unit :=
  fun s =>
    if negb (truthy (currentUser s)) then (Throw (Error "No user logged in"), s)
    else (Throw (Error "Account deletion not available in demo mode"), s).

Definition getCurrentUser (s : Session) : value := currentUser s.

Definition isAuthenticated (s : Session) : bool :=
  negb (strict_eq (currentUser s) VNull).

(** [this.currentUser && this.currentUser.role === role] *)
Definition hasRole (role : value) (s : Session) : value :=
  if truthy (currentUser s)
  then VBool (strict_eq (get_prop (currentUser s) "role") role)
  else currentUser s.

Definition isAdmin (s : Session) : value := hasRole (VStr "admin") s.

End Service.
End AuthService.

(** ** Names used in the further statements *)

(** The record passes every filter that is given. *)
Definition passes (rt : Runtime) (filters : obj) (item : obj) : bool :=
  forallb
    (fun key =>
       negb (filter_given (lookup key filters))
       || matches rt key (lookup key filters) item)
    (map fst filters).

(** Some stored record of the collection has the identifier. *)
Definition has_id (c : collection) (id : value) (ls : LocalStorage) : bool :=
  existsb (fun item => strict_eq (lookup "id" item) id) (getItem c ls).

Definition not_found : exn := Error "Document not found".

(** [getShopById], [getProductById] and [getOfferById], by collection, and
    the error each throws for a record it does not find. *)
Definition getById (rt : Runtime) (c : collection) : value -> Z -> M value :=
  match c with
  | shops => ShopService.getShopById rt
  | products => ProductService.getProductById rt
  | offers => OfferService.getOfferById rt
  end.

Definition missing (c : collection) : exn :=
  match c with
  | shops => Error "Shop not found"
  | products => Error "Product not found"
  | offers => Error "Offer not found"
  end.

(** The whole collection, as an array value. *)
Definition all_records (c : collection) (ls : LocalStorage) : value :=
  VArr (map VObj (getItem c ls)).

(** The list an operation returned ([[]] if it threw). *)
Definition listed (r : result (list obj) * LocalStorage) : list obj :=
  match fst r with
  | Ok l => l
  | Throw _ => []
  end.

(** [record.isActive === true] *)
Definition active (record : obj) : bool :=
  strict_eq (lookup "isActive" record) (VBool true).

(** The callback returned [true]. *)
Definition hit (r : result bool) : bool :=
  match r with
  | Ok b => b
  | Throw _ => false
  end.

(** The form of a query that the searches compare with. *)
Definition searchTerm (query : string) : string := trim (toLowerCase query).

(** A shop with a contact that has no e-mail address. *)
Definition kiosk : obj :=
  [("name", VStr "Key Kiosk");
   ("description", VStr "Keys cut while you wait");
   ("category", VStr "Services");
   ("floor", num_of_Z 1);
   ("contact", VObj [("phone", VStr "+1-555-0142")])].

(** A host clock in UTC: [days] whole days after [now]. *)
Definition utcPlusDays (rt : Runtime) (now : Z) (days : value) : option Z :=
  match ToNumber rt days with
  | Fin q =>
      match TimeClip q with
      | Some n => Some (now + n * 86400000)%Z
      | None => None
      end
  | NaN => None
  end.

(** ** The patterns of the validators, read as patterns

    [^[^\s@]+@[^\s@]+\.[^\s@]+$]: three non-empty runs of units that are
    neither white space nor "@", the first two separated by "@" and the last
    two by a dot. *)
Definition plain_run (cs : list ascii) : Prop :=
  cs <> [] /\ Forall (fun c => email_unit c = true) cs.

Definition matches_email_pattern (cs : list ascii) : Prop :=
  exists local domain tld,
    cs = local ++ "@"%char :: domain ++ "."%char :: tld
    /\ plain_run local /\ plain_run domain /\ plain_run tld.

(** [^[\+]?[1-9][\d]{0,15}$]: an optional plus sign, a digit from 1 to 9,
    and at most 15 further digits. *)
Definition matches_phone_pattern (cs : list ascii) : Prop :=
  exists sign first rest,
    cs = sign ++ first :: rest
    /\ (sign = [] \/ sign = ["+"%char])
    /\ is_digit first = true /\ first <> "0"%char
    /\ Forall (fun c => is_digit c = true) rest
    /\ (List.length rest <= 15)%nat.

(** [phone.replace(/[\s\-\(\)]/g, '')] *)
Definition stripped (phone : string) : list ascii :=
  filter (fun c => negb (phone_noise c)) (list_ascii_of_string phone).

(** The storage entry of the session mirrors the user held in memory. *)
Definition mirrored (s : Session) : Prop :=
  supermall_current_user (storage s)
  = match currentUser s with
    | VNull => None
    | user => Some (JSON_value user)
    end.

Definition invalid_login : exn := Error "Invalid email or password".

(** An active record whose property [key] is [v], if [v] is given at all. *)
Definition active_with (key : string) (v : value) (record : obj) : bool :=
  active record && (negb (filter_given v) || strict_eq (lookup key record) v).

(** ** The catalog entries

    The three collections and the current-user entry are as before.  (The
    Logger calls of the methods write [supermall_logs] and
    [supermall_server_logs] only, which are no part of [LocalStorage].) *)
Definition same_catalog (ls ls' : LocalStorage) : Prop :=
  (forall c, getItem c ls' = getItem c ls)
  /\ supermall_current_user ls' = supermall_current_user ls.

(** ** Offer payloads that are valid but for their discount

    The title and the description are strings of at least 3 and 10
    characters once trimmed, the shop is named, the two dates are given, and
    where they are dates the end is after the start and after now. *)
Definition otherwise_valid (rt : Runtime) (now : Z) (offerData : obj) : Prop :=
  (exists title,
      lookup "title" offerData = VStr title
      /\ (3 <= String.length (trim title))%nat)
  /\ (exists description,
         lookup "description" offerData = VStr description
         /\ (10 <= String.length (trim description))%nat)
  /\ truthy (lookup "shopId" offerData) = true
  /\ truthy (lookup "validFrom" offerData) = true
  /\ truthy (lookup "validTo" offerData) = true
  /\ (forall validFrom validTo,
        new_Date rt (lookup "validFrom" offerData) = Some validFrom ->
        new_Date rt (lookup "validTo" offerData) = Some validTo ->
        (validFrom < validTo)%Z)
  /\ (forall validTo,
        new_Date rt (lookup "validTo" offerData) = Some validTo ->
        (now < validTo)%Z).

(** ** Payloads of the scenarios *)

(** The lamp with a rating that is not a number and an undefined note. *)
Definition rated_lamp : obj :=
  Scenario.lamp ++ [("rating", VNum NaN); ("note", VUndef)].

(** A lamp of the given price that carries [sortBy = 'price_low'] itself. *)
Definition listed_lamp (price : Z) : obj :=
  obj_set "price" (num_of_Z price)
    (Scenario.lamp ++ [("sortBy", VStr "price_low")]).

(** The active stored products that carry the sort key themselves: the
    records [getProducts({sortBy: key})] selects. *)
Definition selected (key : string) (ls : LocalStorage) : list obj :=
  filter (active_with "sortBy" (VStr key)) (getItem products ls).
(** * Properties *)

(** ** Objects *)

Lemma lookup_obj_set_same (k : string) (v : value) (o : obj) :
  lookup k (obj_set k v o) = v.
Proof.
  induction o as [|[k' v'] o IH]; simpl.
  - now rewrite String.eqb_refl.
  - destruct (String.eqb k k') eqn:E; simpl.
    + now rewrite String.eqb_refl.
    + now rewrite E.
Qed.

Lemma lookup_obj_set_other (k k' : string) (v : value) (o : obj) :
  String.eqb k k' = false -> lookup k (obj_set k' v o) = lookup k o.
Proof.
  intros Hk. induction o as [|[k2 v2] o IH]; simpl.
  - now rewrite Hk.
  - destruct (String.eqb k' k2) eqn:E; simpl.
    + apply String.eqb_eq in E. subst k2. now rewrite Hk.
    + destruct (String.eqb k k2); [reflexivity | exact IH].
Qed.

Lemma obj_set_absent (k : string) (v : value) (o : obj) :
  has_key k o = false -> obj_set k v o = o ++ [(k, v)].
Proof.
  unfold has_key. induction o as [|[k' v'] o IH]; simpl; intros H.
  - reflexivity.
  - apply orb_false_iff in H. destruct H as [H1 H2].
    rewrite H1. now rewrite IH.
Qed.

Lemma has_key_app (k : string) (o1 o2 : obj) :
  has_key k (o1 ++ o2) = has_key k o1 || has_key k o2.
Proof. unfold has_key. apply existsb_app. Qed.

Lemma lookup_app_absent (k : string) (o1 o2 : obj) :
  has_key k o1 = false -> lookup k (o1 ++ o2) = lookup k o2.
Proof.
  unfold has_key. induction o1 as [|[k' v'] o1 IH]; simpl; intros H.
  - reflexivity.
  - apply orb_false_iff in H. destruct H as [H1 H2]. rewrite H1. now apply IH.
Qed.

Lemma lookup_app_present (k : string) (o1 o2 : obj) :
  has_key k o1 = true -> lookup k (o1 ++ o2) = lookup k o1.
Proof.
  unfold has_key. induction o1 as [|[k' v'] o1 IH]; simpl; intros H.
  - discriminate.
  - destruct (String.eqb k k'); [reflexivity | now apply IH].
Qed.

Lemma lookup_absent (k : string) (o : obj) :
  has_key k o = false -> lookup k o = VUndef.
Proof.
  unfold has_key. induction o as [|[k' v'] o IH]; simpl; intros H.
  - reflexivity.
  - apply orb_false_iff in H. destruct H as [H1 H2]. rewrite H1. now apply IH.
Qed.

(** ** JSON *)

Lemma JSON_value_obj (o : obj) : JSON_value (VObj o) = VObj (JSON_props o).
Proof. reflexivity. Qed.

Lemma JSON_props_app (o1 o2 : obj) :
  JSON_props (o1 ++ o2) = JSON_props o1 ++ JSON_props o2.
Proof.
  induction o1 as [|[k x] o1 IH]; simpl.
  - reflexivity.
  - rewrite IH. now destruct x.
Qed.

Lemma JSON_items_app (l1 l2 : list obj) :
  JSON_items (l1 ++ l2) = JSON_items l1 ++ JSON_items l2.
Proof. apply map_app. Qed.

(** A property that is present with a defined value survives the round
    trip, its value converted. *)
Lemma lookup_JSON_props (k : string) (o : obj) :
  lookup k o <> VUndef -> lookup k (JSON_props o) = JSON_value (lookup k o).
Proof.
  induction o as [|[k' x] o IH]; simpl; intros H.
  - congruence.
  - destruct (String.eqb k k') eqn:E.
    + destruct x; try congruence; simpl; rewrite E; reflexivity.
    + destruct x; simpl; try rewrite E; now apply IH.
Qed.

(** ** The gateway *)

Lemma query_run (rt : Runtime) (c : collection) (filters : obj)
  (ls : LocalStorage) :
  query rt c filters ls = (Ok (apply_filters rt filters (getItem c ls)), ls).
Proof. reflexivity. Qed.

Lemma getItem_setItem_same (c : collection) (items : list obj)
  (ls : LocalStorage) :
  getItem c (setItem c items ls) = items.
Proof. now destruct c. Qed.

Lemma getItem_setItem_other (c c' : collection) (items : list obj)
  (ls : LocalStorage) :
  c <> c' -> getItem c (setItem c' items ls) = getItem c ls.
Proof. destruct c, c'; simpl; congruence. Qed.

Lemma current_user_setItem (c : collection) (items : list obj)
  (ls : LocalStorage) :
  supermall_current_user (setItem c items ls) = supermall_current_user ls.
Proof. now destruct c. Qed.


Lemma update_first_patched (id : value) (patch : obj) (items items' : list obj) :
  update_first id patch items = Some items' -> patched patch items items'.
Proof.
  revert items'. induction items as [|item rest IH]; simpl; intros items' H.
  - discriminate.
  - destruct (strict_eq (lookup "id" item) id).
    + injection H as <-. constructor.
    + destruct (update_first id patch rest) as [rest'|]; [|discriminate].
      injection H as <-. constructor. now apply IH.
Qed.

Lemma patched_length (patch : obj) (items items' : list obj) :
  patched patch items items' -> List.length items' = List.length items.
Proof. induction 1; simpl; congruence. Qed.

(** A record property that the patch does not name is kept by [update],
    when its value is a string. *)
Lemma spread_keeps (k : string) (o patch : obj) :
  has_key k patch = false -> lookup k (spread o patch) = lookup k o.
Proof.
  unfold spread, has_key. revert o.
  induction patch as [|[k' v'] patch IH]; simpl; intros o H.
  - reflexivity.
  - apply orb_false_iff in H. destruct H as [H1 H2].
    rewrite IH by assumption. now apply lookup_obj_set_other.
Qed.

Lemma patched_keeps_string (k s : string) (patch : obj) (items items' : list obj) :
  has_key k patch = false ->
  patched patch items items' ->
  (exists p, In p items /\ lookup k p = VStr s) ->
  exists p, In p (JSON_items items') /\ lookup k p = VStr s.
Proof.
  intros Hk Hp [p [Hin Hp_k]].
  assert (Hjson : forall q, lookup k q = VStr s ->
                            lookup k (JSON_props q) = VStr s).
  { intros q Hq. rewrite lookup_JSON_props; rewrite Hq; [reflexivity | discriminate]. }
  induction Hp as [item rest | item rest rest' Hp IH].
  - destruct Hin as [<- | Hin].
    + exists (JSON_props (spread item patch)). split; [now left|].
      apply Hjson. now rewrite spread_keeps.
    + exists (JSON_props p). split; [|now apply Hjson].
      right. now apply in_map.
  - destruct Hin as [<- | Hin].
    + exists (JSON_props item). split; [now left | now apply Hjson].
    + destruct (IH Hin) as [q [Hq1 Hq2]]. exists q. split; [now right | assumption].
Qed.

(** ** ShopService.deleteShop *)


Lemma deleteShop_guard (rt : Runtime) (shopId : value) (now : Z)
  (ls : LocalStorage) :
  apply_filters rt [("shopId", shopId)] (getItem products ls) <> [] ->
  ShopService.deleteShop rt shopId now ls = (Throw conflict, ls).
Proof.
  intros H. unfold ShopService.deleteShop, bind. rewrite query_run.
  destruct (apply_filters rt [("shopId", shopId)] (getItem products ls));
    [congruence | reflexivity].
Qed.

Lemma shopId_filter_finds (rt : Runtime) (sid : string) (items : list obj) :
  (exists p, In p items /\ lookup "shopId" p = VStr sid) ->
  apply_filters rt [("shopId", VStr sid)] items <> [].
Proof.
  intros [p [Hin Hp]]. unfold apply_filters. simpl.
  destruct (filter_given (VStr sid)).
  - intros Hnil.
    assert (Hf : In p (filter (matches rt "shopId" (VStr sid)) items)).
    { apply filter_In. split; [assumption|].
      unfold matches. simpl. rewrite Hp. simpl. apply String.eqb_refl. }
    rewrite Hnil in Hf. exact Hf.
  - intros Hnil. rewrite Hnil in Hin. exact Hin.
Qed.

Lemma update_run (rt : Runtime) (c : collection) (id : value) (data : obj)
  (now : Z) (ls : LocalStorage) :
  update rt c id data now ls
  = match update_first id (spread data [("updatedAt", VStr (toISOString rt now))])
            (getItem c ls) with
    | Some items' => (Ok tt, setItem c (JSON_items items') ls)
    | None => (Throw (Error "Document not found"), ls)
    end.
Proof. reflexivity. Qed.

Lemma deleteProduct_run (rt : Runtime) (productId : value) (now : Z)
  (ls : LocalStorage) :
  ProductService.deleteProduct rt productId now ls
  = update rt products productId (deletion_patch rt now (getCurrentUserId ls))
      now ls.
Proof. reflexivity. Qed.

Ltac lookups :=
  repeat (rewrite lookup_obj_set_same
          || rewrite lookup_obj_set_other by reflexivity).

Ltac lookups_in H :=
  repeat (rewrite lookup_obj_set_same in H
          || rewrite lookup_obj_set_other in H by reflexivity).

(** ** create *)

Lemma create_run (rt : Runtime) (c : collection) (data : obj) (newId : string)
  (now : Z) (ls : LocalStorage) :
  create rt c data newId now ls
  = (Ok (VStr newId),
     setItem c
       (JSON_items
          (getItem c ls
           ++ [spread data [("id", VStr newId);
                            ("createdAt", VStr (toISOString rt now))]]))
       ls).
Proof.
  unfold create. f_equal. f_equal. unfold spread. simpl. now lookups.
Qed.

Lemma createOffer_run (rt : Runtime) (offerData : obj) (newId : string)
  (now : Z) (ls : LocalStorage) :
  OfferService.createOffer rt offerData newId now ls
  = match OfferService.validateOfferData rt offerData false now with
    | Ok _ =>
        create rt offers
          (spread offerData
             [("isActive", VBool true); ("createdBy", getCurrentUserId ls);
              ("stats", OfferService.initial_stats)])
          newId now ls
    | Throw e => (Throw e, ls)
    end.
Proof.
  unfold OfferService.createOffer, bind, lift, currentUserId.
  now destruct (OfferService.validateOfferData rt offerData false now).
Qed.

Lemma createProduct_run (rt : Runtime) (productData : obj) (newId : string)
  (now : Z) (ls : LocalStorage) :
  ProductService.createProduct rt productData newId now ls
  = match ProductService.validateProductData rt productData false with
    | Ok _ =>
        create rt products
          (spread productData
             [("isActive", VBool true); ("createdBy", getCurrentUserId ls);
              ("stats", ProductService.initial_stats)])
          newId now ls
    | Throw e => (Throw e, ls)
    end.
Proof.
  unfold ProductService.createProduct, bind, lift, currentUserId.
  now destruct (ProductService.validateProductData rt productData false).
Qed.


(** ** The current user *)

Lemma or_else_truthy (a b : value) : truthy b = true -> truthy (or_else a b) = true.
Proof. unfold or_else. now destruct (truthy a) eqn:E. Qed.

Lemma getCurrentUserId_truthy (ls : LocalStorage) :
  truthy (getCurrentUserId ls) = true.
Proof.
  unfold getCurrentUserId.
  destruct (supermall_current_user ls) as [[]|];
    try reflexivity; now apply or_else_truthy.
Qed.

Lemma truthy_defined (v : value) : truthy v = true -> v <> VUndef.
Proof. intros H ->. discriminate. Qed.

(** ** What [create] stores *)


Lemma create_stores (rt : Runtime) (c : collection) (data : obj)
  (newId : string) (now : Z) (ls : LocalStorage) :
  getItem c (storage_after (create rt c data newId now ls))
  = JSON_items (getItem c ls) ++ [created_record rt data newId now].
Proof.
  rewrite create_run. unfold storage_after. cbn [snd].
  rewrite getItem_setItem_same, JSON_items_app. reflexivity.
Qed.

Lemma created_record_id (rt : Runtime) (data : obj) (newId : string) (now : Z) :
  lookup "id" (created_record rt data newId now) = VStr newId.
Proof.
  unfold created_record, spread. simpl.
  rewrite lookup_JSON_props; lookups; [reflexivity | discriminate].
Qed.


(** A property that the service sets survives the gateway, converted. *)
Lemma created_record_keeps (rt : Runtime) (k : string) (data : obj)
  (newId : string) (now : Z) :
  String.eqb k "id" = false -> String.eqb k "createdAt" = false ->
  lookup k data <> VUndef ->
  lookup k (created_record rt data newId now) = JSON_value (lookup k data).
Proof.
  intros H1 H2 Hdef. unfold created_record, spread. simpl.
  rewrite lookup_JSON_props;
    rewrite !lookup_obj_set_other by assumption; [reflexivity | assumption].
Qed.

(** ** read and the view counters *)

Lemma read_run (c : collection) (id : value) (ls : LocalStorage) :
  read c id ls
  = (Ok (if truthy id then
           match find (fun item => strict_eq (lookup "id" item) id) (getItem c ls) with
           | Some item => VObj item
           | None => VNull
           end
         else VArr (map VObj (getItem c ls))),
     ls).
Proof.
  unfold read, bind, read_all, ret.
  destruct (truthy id); [|reflexivity].
  now destruct (find _ (getItem c ls)).
Qed.

Lemma read_stored (c : collection) (sid : string) (ls : LocalStorage) :
  sid <> "" ->
  read c (VStr sid) ls
  = (Ok (match stored c sid ls with Some item => VObj item | None => VNull end),
     ls).
Proof.
  intros Hsid. rewrite read_run. unfold stored. simpl.
  apply String.eqb_neq in Hsid. now rewrite Hsid.
Qed.

(** The increment never throws. *)
Lemma try_catch_ret_ok (m : M unit) (ls : LocalStorage) :
  returned (try_catch m (fun _ => ret tt) ls) = Ok tt.
Proof.
  unfold try_catch, returned, ret.
  destruct (m ls) as [[[]|e] ls']; reflexivity.
Qed.

Lemma getProductById_found (rt : Runtime) (sid : string) (now : Z)
  (ls : LocalStorage) (item : obj) :
  sid <> "" -> stored products sid ls = Some item ->
  returned (ProductService.getProductById rt (VStr sid) now ls) = Ok (VObj item).
Proof.
  intros Hsid Hst. unfold ProductService.getProductById, bind at 1.
  rewrite read_stored, Hst by assumption. cbn [truthy negb].
  unfold bind.
  pose proof (try_catch_ret_ok
                (product <- read products (VStr sid) ;;
                 (if truthy product
                  then update rt products (VStr sid) (views_patch rt now product) now
                  else ret tt)) ls) as Hinc.
  unfold ProductService.incrementProductViews.
  unfold returned in *.
  destruct (try_catch _ _ ls) as [[[]|e] ls']; [reflexivity | discriminate Hinc].
Qed.

Lemma find_app {A} (f : A -> bool) (l1 l2 : list A) :
  find f (l1 ++ l2)
  = match find f l1 with Some x => Some x | None => find f l2 end.
Proof.
  induction l1 as [|x l1 IH]; simpl; [reflexivity|].
  now destruct (f x).
Qed.

Lemma JSON_props_cons_defined (k : string) (v : value) (o : obj) :
  v <> VUndef -> JSON_props ((k, v) :: o) = (k, JSON_value v) :: JSON_props o.
Proof. intros H. destruct v; try reflexivity. congruence. Qed.

(** ** Array.prototype.sort with a consistent comparator *)

Section SortSorted.
Variable comparefn : obj -> obj -> result num.
(** the records the comparator is consistent on, and the order it decides *)
Variable typed : obj -> Prop.
Variable before : obj -> obj -> Prop.

Hypothesis comparefn_decides :
  forall x y, typed x -> typed y ->
    exists n, comparefn x y = Ok n
              /\ (positive n = true -> before y x)
              /\ (positive n = false -> before x y).

Lemma sort_insert_sorted (x : obj) (l : list obj) :
  typed x -> Forall typed l -> Sorted before l ->
  exists s, sort_insert comparefn x l = Ok s
            /\ Sorted before s
            /\ Forall typed s
            /\ Permutation (x :: l) s
            /\ (forall z, before z x -> HdRel before z l -> HdRel before z s).
Proof.
  intros Hx. induction l as [|y l IH]; intros Hl Hs.
  - exists [x]. repeat split; auto.
  - simpl. inversion Hl as [|? ? Hy Hl']; subst.
    destruct (comparefn_decides x y Hx Hy) as [n [Hn [Hpos Hneg]]].
    rewrite Hn. cbn [rbind].
    destruct (positive n) eqn:Hp.
    + apply Sorted_inv in Hs. destruct Hs as [Hs Hhd].
      destruct (IH Hl' Hs) as [s [Hs1 [Hs2 [Hs3 [Hs4 Hs5]]]]].
      rewrite Hs1. cbn [rbind]. exists (y :: s). repeat split.
      * constructor; [assumption|]. apply Hs5; auto.
      * constructor; assumption.
      * rewrite perm_swap. now constructor.
      * intros z _ Hz. apply HdRel_inv in Hz. now constructor.
    + exists (x :: y :: l). repeat split; auto.
Qed.

Lemma Array_sort_sorted (l : list obj) :
  Forall typed l ->
  exists s, Array_sort comparefn l = Ok s
            /\ Sorted before s /\ Forall typed s /\ Permutation l s.
Proof.
  induction l as [|x l IH]; intros Hl.
  - exists []. repeat split; auto.
  - inversion Hl as [|? ? Hx Hl']; subst. simpl.
    destruct (IH Hl') as [s [Hs1 [Hs2 [Hs3 Hs4]]]].
    rewrite Hs1. cbn [rbind].
    destruct (sort_insert_sorted x s Hx Hs3 Hs2) as [s' [H1 [H2 [H3 [H4 _]]]]].
    exists s'. repeat split; auto.
    transitivity (x :: s); [now constructor | assumption].
Qed.
End SortSorted.

(** ** query returns stored records *)

Lemma apply_filters_incl (rt : Runtime) (filters : obj) (items : list obj) :
  incl (apply_filters rt filters items) items.
Proof.
  unfold apply_filters. generalize (map fst filters). intros keys.
  revert items. induction keys as [|key keys IH]; intros items; simpl.
  - apply incl_refl.
  - destruct (filter_given (lookup key filters)).
    + eapply incl_tran; [apply IH|]. apply incl_filter.
    + apply IH.
Qed.

Lemma Qltb_0_lt (q : Q) : Qltb 0 q = true <-> (0 < q)%Q.
Proof.
  unfold Qltb. rewrite negb_true_iff.
  split; intros H.
  - apply Qnot_le_lt. intros Hle. apply Qle_bool_iff in Hle. congruence.
  - destruct (Qle_bool q 0) eqn:E; [|reflexivity].
    apply Qle_bool_iff in E. exfalso. now apply (Qlt_not_le 0 q).
Qed.

Lemma Qltb_0_le (q : Q) : Qltb 0 q = false <-> (q <= 0)%Q.
Proof.
  unfold Qltb. rewrite negb_false_iff. apply Qle_bool_iff.
Qed.

(** ** What a listing can contain *)

(** Every record that [query] returns is stored and passes every given
    filter. *)
Lemma apply_filters_sound (rt : Runtime) (filters : obj) (items : list obj)
  (p : obj) :
  In p (apply_filters rt filters items) ->
  In p items
  /\ forall key, In key (map fst filters) ->
       filter_given (lookup key filters) = true ->
       matches rt key (lookup key filters) p = true.
Proof.
  unfold apply_filters. generalize (map fst filters). intros keys.
  revert items. induction keys as [|k keys IH]; intros items Hp; simpl in *.
  - split; [assumption | intros key []].
  - destruct (filter_given (lookup k filters)) eqn:Hg.
    + apply IH in Hp. destruct Hp as [Hin Hall].
      apply filter_In in Hin. destruct Hin as [Hin Hk].
      split; [assumption|]. intros key [<-|Hkey] Hgiven; auto.
    + apply IH in Hp. destruct Hp as [Hin Hall].
      split; [assumption|]. intros key [<-|Hkey] Hgiven; auto. congruence.
Qed.

(** Whatever the comparator, a sort that returns has permuted its input. *)
Lemma sort_insert_perm (comparefn : obj -> obj -> result num) (x : obj)
  (l s : list obj) :
  sort_insert comparefn x l = Ok s -> Permutation (x :: l) s.
Proof.
  revert s. induction l as [|y l IH]; simpl; intros s H.
  - injection H as <-. reflexivity.
  - destruct (comparefn x y) as [n|e]; [|discriminate]. cbn [rbind] in H.
    destruct (positive n).
    + destruct (sort_insert comparefn x l) as [r|e]; [|discriminate].
      cbn [rbind] in H. injection H as <-.
      rewrite perm_swap. constructor. now apply IH.
    + injection H as <-. reflexivity.
Qed.

Lemma Array_sort_perm (comparefn : obj -> obj -> result num) (l s : list obj) :
  Array_sort comparefn l = Ok s -> Permutation l s.
Proof.
  revert s. induction l as [|x l IH]; simpl; intros s H.
  - injection H as <-. reflexivity.
  - destruct (Array_sort comparefn l) as [r|e]; [|discriminate].
    cbn [rbind] in H. apply sort_insert_perm in H.
    transitivity (x :: r); [constructor; now apply IH | assumption].
Qed.

Ltac sort_cases H :=
  repeat match type of H with
         | (if ?c then _ else _) = Ok _ => destruct c
         end;
  first [ now apply Array_sort_perm in H
        | injection H as <-; reflexivity ].

Lemma sortShops_perm (rt : Runtime) (found s : list obj) (sortBy : value) :
  ShopService.sortShops rt found sortBy = Ok s -> Permutation found s.
Proof. unfold ShopService.sortShops. intros H. sort_cases H. Qed.

Lemma sortProducts_perm (rt : Runtime) (found s : list obj) (sortBy : value) :
  ProductService.sortProducts rt found sortBy = Ok s -> Permutation found s.
Proof. unfold ProductService.sortProducts. intros H. sort_cases H. Qed.

Lemma sortOffers_perm (rt : Runtime) (found s : list obj) (sortBy : value) :
  OfferService.sortOffers rt found sortBy = Ok s -> Permutation found s.
Proof. unfold OfferService.sortOffers. intros H. sort_cases H. Qed.

Lemma strict_eq_true_bool (v : value) (b : bool) :
  strict_eq v (VBool b) = true -> v = VBool b.
Proof.
  destruct v as [| |b'|[|q]|s|l|o]; simpl; try discriminate.
  intros H. apply Bool.eqb_prop in H. now subst.
Qed.

(** [getShops(filters)] lists stored records that pass every given key of
    [{...filters, isActive: ...}], the option keys among them. *)
Lemma getShops_sound (rt : Runtime) (filters : obj) (ls : LocalStorage)
  (l : list obj) (p : obj) :
  returned (ShopService.getShops rt filters ls) = Ok l -> In p l ->
  In p (getItem shops ls)
  /\ forall key, In key (map fst (with_isActive filters)) ->
       filter_given (lookup key (with_isActive filters)) = true ->
       matches rt key (lookup key (with_isActive filters)) p = true.
Proof.
  intros H Hp. change (returned (ShopService.getShops rt filters ls))
    with (ShopService.sortShops rt
            (apply_filters rt (with_isActive filters) (getItem shops ls))
            (or_else (lookup "sortBy" filters) (VStr "name"))) in H.
  apply sortShops_perm in H. apply Permutation_sym in H.
  apply (Permutation_in _ H) in Hp. now apply apply_filters_sound in Hp.
Qed.

(** The default listing holds active records only. *)
Lemma getShops_default_lists_active_only (rt : Runtime) (ls : LocalStorage)
  (l : list obj) (p : obj) :
  returned (ShopService.getShops rt [] ls) = Ok l -> In p l ->
  In p (getItem shops ls) /\ lookup "isActive" p = VBool true.
Proof.
  intros H Hp. destruct (getShops_sound rt [] ls l p H Hp) as [Hin Hall].
  split; [assumption|].
  specialize (Hall "isActive" (or_introl eq_refl) eq_refl).
  now apply strict_eq_true_bool in Hall.
Qed.

(** With [{includeInactive: true}] the listing holds only records that
    have an own property [includeInactive] equal to [true]. *)
Lemma getShops_includeInactive_lists_flagged_only (rt : Runtime)
  (ls : LocalStorage) (l : list obj) (p : obj) :
  returned (ShopService.getShops rt [("includeInactive", VBool true)] ls) = Ok l ->
  In p l ->
  lookup "includeInactive" p = VBool true.
Proof.
  intros H Hp.
  destruct (getShops_sound rt [("includeInactive", VBool true)] ls l p H Hp)
    as [_ Hall].
  specialize (Hall "includeInactive" (or_introl eq_refl) eq_refl).
  now apply strict_eq_true_bool in Hall.
Qed.

(** [getOffers(filters)] likewise; without [includeExpired] every listed
    offer is inside its validity window. *)
Lemma getOffers_sound (rt : Runtime) (filters : obj) (now : Z)
  (ls : LocalStorage) (l : list obj) (p : obj) :
  returned (OfferService.getOffers rt filters now ls) = Ok l -> In p l ->
  In p (getItem offers ls)
  /\ (truthy (lookup "includeExpired" filters) = false ->
      OfferService.in_validity_window rt now p = true)
  /\ forall key, In key (map fst (with_isActive filters)) ->
       filter_given (lookup key (with_isActive filters)) = true ->
       matches rt key (lookup key (with_isActive filters)) p = true.
Proof.
  intros H Hp.
  change (returned (OfferService.getOffers rt filters now ls))
    with (OfferService.sortOffers rt
            (if truthy (lookup "includeExpired" filters)
             then apply_filters rt (with_isActive filters) (getItem offers ls)
             else filter (OfferService.in_validity_window rt now)
                    (apply_filters rt (with_isActive filters) (getItem offers ls)))
            (or_else (lookup "sortBy" filters) (VStr "newest"))) in H.
  apply sortOffers_perm in H. apply Permutation_sym in H.
  apply (Permutation_in _ H) in Hp.
  destruct (truthy (lookup "includeExpired" filters)).
  - apply apply_filters_sound in Hp. destruct Hp as [Hin Hall].
    repeat split; [assumption | discriminate | assumption].
  - apply filter_In in Hp. destruct Hp as [Hp Hw].
    apply apply_filters_sound in Hp. destruct Hp as [Hin Hall].
    repeat split; auto.
Qed.

(** An offer inside its validity window is not expired. *)
Lemma in_validity_window_not_expired (rt : Runtime) (now : Z) (p : obj) :
  OfferService.in_validity_window rt now p = true ->
  OfferService.expired rt now p = false.
Proof.
  unfold OfferService.in_validity_window, OfferService.expired, date_cmp.
  destruct (new_Date rt (lookup "validTo" p)) as [t|];
    destruct (new_Date rt (lookup "validFrom" p)) as [f|];
    try reflexivity; rewrite andb_true_iff; intros [_ H];
    apply Z.leb_le in H; apply Z.ltb_ge; assumption.
Qed.

(** The default listing of offers holds no expired offer. *)
Lemma getOffers_default_excludes_expired (rt : Runtime) (now : Z)
  (ls : LocalStorage) (l : list obj) (p : obj) :
  returned (OfferService.getOffers rt [] now ls) = Ok l -> In p l ->
  OfferService.expired rt now p = false.
Proof.
  intros H Hp. destruct (getOffers_sound rt [] now ls l p H Hp) as [_ [Hw _]].
  apply in_validity_window_not_expired. now apply Hw.
Qed.

(** With [{includeExpired: true}] the listing holds only offers that have
    an own property [includeExpired] equal to [true]; [getExpiredOffers]
    selects among these. *)
Lemma getOffers_includeExpired_lists_flagged_only (rt : Runtime) (now : Z)
  (ls : LocalStorage) (l : list obj) (p : obj) :
  returned (OfferService.getOffers rt [("includeExpired", VBool true)] now ls)
  = Ok l ->
  In p l ->
  lookup "includeExpired" p = VBool true.
Proof.
  intros H Hp.
  destruct (getOffers_sound rt [("includeExpired", VBool true)] now ls l p H Hp)
    as [_ [_ Hall]].
  specialize (Hall "includeExpired" (or_introl eq_refl) eq_refl).
  now apply strict_eq_true_bool in Hall.
Qed.

(** ** Soft delete *)

Lemma strict_eq_true_str (v : value) (s : string) :
  strict_eq v (VStr s) = true -> v = VStr s.
Proof.
  destruct v as [| |b|[|q]|s'|l|o]; simpl; try discriminate.
  intros H. apply String.eqb_eq in H. now subst.
Qed.

Lemma map_fixed_In {A} (f : A -> A) (l : list A) :
  map f l = l -> forall x, In x l -> f x = x.
Proof.
  induction l as [|y l IH]; simpl; intros H x Hx; [contradiction|].
  injection H as H1 H2. destruct Hx as [<-|Hx]; auto.
Qed.

(** No write of the gateway removes a record. *)
Lemma update_keeps_count (rt : Runtime) (c : collection) (id : value)
  (data : obj) (now : Z) (ls : LocalStorage) (c' : collection) :
  List.length (getItem c' (storage_after (update rt c id data now ls)))
  = List.length (getItem c' ls).
Proof.
  rewrite update_run.
  destruct (update_first id _ (getItem c ls)) as [items'|] eqn:E;
    unfold storage_after; cbn [snd]; [|reflexivity].
  destruct c, c'; simpl; try reflexivity;
    unfold JSON_items; rewrite length_map;
    now apply patched_length with (patch := spread data [("updatedAt", VStr (toISOString rt now))]),
              update_first_patched with (id := id).
Qed.

Lemma create_adds_one (rt : Runtime) (c : collection) (data : obj)
  (newId : string) (now : Z) (ls : LocalStorage) :
  List.length (getItem c (storage_after (create rt c data newId now ls)))
  = S (List.length (getItem c ls)).
Proof.
  rewrite create_stores, length_app. unfold JSON_items. rewrite length_map.
  simpl. lia.
Qed.

(** After a successful [update] of a parsed collection with a patch that
    has no [id], [read] of the identifier finds the patched record. *)
Lemma update_first_stored (sid : string) (patch : obj) (items items' : list obj) :
  has_key "id" patch = false ->
  JSON_items items = items ->
  update_first (VStr sid) patch items = Some items' ->
  exists item,
    find (fun p => strict_eq (lookup "id" p) (VStr sid)) items = Some item
    /\ find (fun p => strict_eq (lookup "id" p) (VStr sid)) (JSON_items items')
       = Some (JSON_props (spread item patch)).
Proof.
  intros Hid. revert items'.
  induction items as [|q rest IH]; simpl; intros items' Hparsed H; [discriminate|].
  injection Hparsed as Hq Hrest.
  destruct (strict_eq (lookup "id" q) (VStr sid)) eqn:E.
  - injection H as <-. exists q. split; [reflexivity|]. simpl.
    apply strict_eq_true_str in E.
    rewrite lookup_JSON_props; rewrite spread_keeps by assumption; rewrite E;
      [|discriminate].
    simpl. now rewrite String.eqb_refl.
  - destruct (update_first (VStr sid) patch rest) as [rest'|] eqn:E'; [|discriminate].
    injection H as <-. destruct (IH rest' Hrest eq_refl) as [item [H1 H2]].
    exists item. split; [assumption|]. simpl. rewrite Hq, E. assumption.
Qed.

Lemma deleteShop_run (rt : Runtime) (shopId : value) (now : Z)
  (ls : LocalStorage) :
  ShopService.deleteShop rt shopId now ls
  = if (0 <? List.length
               (apply_filters rt [("shopId", shopId)] (getItem products ls)))%nat
    then (Throw conflict, ls)
    else update rt shops shopId (deletion_patch rt now (getCurrentUserId ls))
           now ls.
Proof.
  unfold ShopService.deleteShop, bind at 1. rewrite query_run.
  now destruct (0 <? _)%nat.
Qed.

(** A successful [deleteShop] on a parsed collection keeps every record
    and leaves the shop stored with [isActive = false]. *)
Lemma deleteShop_soft (rt : Runtime) (sid : string) (now : Z)
  (ls : LocalStorage) :
  JSON_items (getItem shops ls) = getItem shops ls ->
  returned (ShopService.deleteShop rt (VStr sid) now ls) = Ok tt ->
  let ls' := storage_after (ShopService.deleteShop rt (VStr sid) now ls) in
  List.length (getItem shops ls') = List.length (getItem shops ls)
  /\ exists record,
       stored shops sid ls' = Some record
       /\ lookup "isActive" record = VBool false.
Proof.
  intros Hparsed. rewrite deleteShop_run.
  destruct (0 <? _)%nat; [discriminate|].
  intros Hok ls'. subst ls'. split; [apply update_keeps_count|].
  revert Hok. rewrite update_run.
  set (patch := spread (deletion_patch rt now (getCurrentUserId ls)) _).
  destruct (update_first (VStr sid) patch (getItem shops ls)) as [items'|] eqn:E;
    [intros _ | discriminate].
  destruct (update_first_stored sid patch _ _ eq_refl Hparsed E) as [item [_ H2]].
  exists (JSON_props (spread item patch)). split.
  - unfold stored, storage_after. cbn [snd]. now rewrite getItem_setItem_same.
  - rewrite lookup_JSON_props; subst patch; unfold spread; simpl; lookups;
      [reflexivity | discriminate].
Qed.

(** ** The view counter *)

Lemma length_JSON_props_le (o : obj) :
  (List.length (JSON_props o) <= List.length o)%nat.
Proof.
  induction o as [|[k x] o IH]; simpl; [lia|].
  destruct x; simpl; lia.
Qed.

(** Parsed objects have no property whose value is [undefined]. *)
Lemma parsed_lookup_undefined (o : obj) (k : string) :
  JSON_props o = o -> lookup k o = VUndef -> has_key k o = false.
Proof.
  unfold has_key. induction o as [|[k' x] o IH]; simpl; intros Hp Hk.
  - reflexivity.
  - assert (Htl : tl (JSON_props ((k', x) :: o)) = o)
      by (simpl; now rewrite Hp).
    destruct x;
      try (simpl in Htl; destruct (String.eqb k k');
           [discriminate Hk | now apply IH]).
    pose proof (length_JSON_props_le o) as Hlen. rewrite Hp in Hlen.
    simpl in Hlen. lia.
Qed.

Lemma has_key_obj_set_other (k k' : string) (v : value) (o : obj) :
  String.eqb k k' = false -> has_key k (obj_set k' v o) = has_key k o.
Proof.
  unfold has_key. intros Hk. induction o as [|[k2 v2] o IH]; simpl.
  - now rewrite Hk.
  - destruct (String.eqb k' k2) eqn:E; simpl.
    + apply String.eqb_eq in E. subst k2. now rewrite Hk.
    + now rewrite IH.
Qed.

Lemma has_key_spread (k : string) (o patch : obj) :
  has_key k patch = false -> has_key k (spread o patch) = has_key k o.
Proof.
  unfold spread. revert o.
  induction patch as [|[k' v'] patch IH]; simpl; intros o H.
  - reflexivity.
  - unfold has_key in H. simpl in H. apply orb_false_iff in H.
    destruct H as [H1 H2]. rewrite IH by exact H2.
    now apply has_key_obj_set_other.
Qed.

Lemma has_key_JSON_props_false (k : string) (o : obj) :
  has_key k o = false -> has_key k (JSON_props o) = false.
Proof.
  unfold has_key. induction o as [|[k' x] o IH]; simpl; intros H.
  - reflexivity.
  - apply orb_false_iff in H. destruct H as [H1 H2].
    destruct x; simpl; try rewrite H1; now apply IH.
Qed.

(** A property that the patch does not name reads the same after [update]
    as before, on a parsed record. *)
Lemma patched_record_keeps (k : string) (q patch : obj) :
  has_key k patch = false -> JSON_props q = q ->
  lookup k (JSON_props (spread q patch)) = lookup k q.
Proof.
  intros Hk Hq. destruct (lookup k q) eqn:E;
    try (rewrite lookup_JSON_props; rewrite spread_keeps by assumption;
         rewrite E; [|discriminate];
         rewrite <- E, <- lookup_JSON_props by (rewrite E; discriminate);
         now rewrite Hq).
  apply lookup_absent, has_key_JSON_props_false.
  rewrite has_key_spread by assumption. now apply parsed_lookup_undefined.
Qed.

Lemma patched_keeps_lookup (k : string) (patch : obj) (items items' : list obj) :
  has_key k patch = false -> JSON_items items = items ->
  patched patch items items' ->
  map (lookup k) (JSON_items items') = map (lookup k) items.
Proof.
  intros Hk Hparsed Hp. unfold JSON_items in *.
  induction Hp as [q rest | q rest rest' Hp IH];
    simpl in *; injection Hparsed as Hq Hrest.
  - f_equal; [now apply patched_record_keeps | now rewrite Hrest].
  - f_equal; [now rewrite Hq | now apply IH].
Qed.

(** [update] with the patch of the increment leaves every record's [stats]
    as it was. *)
Lemma update_views_keeps_stats (rt : Runtime) (c : collection) (id record : value)
  (now : Z) (ls : LocalStorage) :
  JSON_items (getItem c ls) = getItem c ls ->
  map (lookup "stats")
    (getItem c (storage_after (update rt c id (views_patch rt now record) now ls)))
  = map (lookup "stats") (getItem c ls).
Proof.
  intros Hparsed. rewrite update_run.
  set (patch := spread (views_patch rt now record) _).
  destruct (update_first id patch (getItem c ls)) as [items'|] eqn:E;
    unfold storage_after; cbn [snd]; [|reflexivity].
  rewrite getItem_setItem_same.
  apply patched_keeps_lookup with (patch := patch);
    [reflexivity | assumption | now apply update_first_patched in E].
Qed.

(** [getShopById] leaves the [stats] of every stored shop as it was: the
    nested view counter is never incremented. *)
Lemma getShopById_keeps_stats (rt : Runtime) (shopId : value) (now : Z)
  (ls : LocalStorage) :
  JSON_items (getItem shops ls) = getItem shops ls ->
  map (lookup "stats")
    (getItem shops (storage_after (ShopService.getShopById rt shopId now ls)))
  = map (lookup "stats") (getItem shops ls).
Proof.
  intros Hparsed.
  unfold ShopService.getShopById, bind at 1. rewrite read_run.
  set (shop := if truthy shopId then _ else _).
  destruct (negb (truthy shop)) eqn:Ht; [reflexivity|].
  unfold bind, ShopService.incrementShopViews, try_catch, bind.
  rewrite read_run. fold shop.
  apply negb_false_iff in Ht. rewrite Ht.
  pose proof (update_views_keeps_stats rt shops shopId shop now ls Hparsed) as Hu.
  unfold storage_after in *.
  destruct (update rt shops shopId (views_patch rt now shop) now ls)
    as [[[]|e] ls']; exact Hu.
Qed.

(** ** compareProducts on identifiers that are non-empty strings *)

Lemma read_each_run (sids : list string) (ls : LocalStorage) :
  Forall (fun sid => sid <> "") sids ->
  ProductService.read_each (map VStr sids) ls
  = (Ok (map (fun sid => match stored products sid ls with
                         | Some p => VObj p
                         | None => VNull
                         end) sids),
     ls).
Proof.
  induction 1 as [|sid sids Hsid _ IH]; simpl; [reflexivity|].
  unfold bind at 1. rewrite read_stored by assumption.
  unfold bind at 1. rewrite IH. reflexivity.
Qed.

Lemma valid_products_resolved (sids : list string) (ls : LocalStorage) :
  filter (fun p => negb (strict_eq p VNull))
    (map (fun sid => match stored products sid ls with
                     | Some p => VObj p
                     | None => VNull
                     end) sids)
  = map VObj (resolved products sids ls).
Proof.
  unfold resolved. induction sids as [|sid sids IH]; simpl; [reflexivity|].
  destruct (stored products sid ls); simpl; now rewrite IH.
Qed.

Lemma length_filter_map {A B} (f : B -> bool) (g : A -> B) (l : list A) :
  List.length (filter f (map g l))
  = List.length (filter (fun x => f (g x)) l).
Proof.
  induction l as [|x l IH]; simpl; [reflexivity|].
  destruct (f (g x)); simpl; now rewrite IH.
Qed.

Lemma priced_price (p : obj) : priced p -> lookup "price" p = VNum (Fin (price_of p)).
Proof. intros [q Hq]. unfold price_of. now rewrite Hq. Qed.

(** [Math.min] and [Math.max] of numbers: one of them, below (above) all. *)
Lemma fold_num_min (rt : Runtime) (found : list obj) (a : Q) :
  Forall priced found ->
  exists m,
    fold_left (fun m v => num_min m (ToNumber rt v)) (map (lookup "price") found) (Fin a)
    = Fin m
    /\ (m = a \/ In m (map price_of found))
    /\ (m <= a)%Q
    /\ Forall (fun q => (m <= q)%Q) (map price_of found).
Proof.
  intros H. revert a. induction H as [|p found Hp _ IH]; intros a; simpl.
  - exists a. repeat split; auto. apply Qle_refl.
  - rewrite (priced_price p Hp). cbn [ToNumber num_min].
    destruct (Qle_bool a (price_of p)) eqn:E.
    + apply Qle_bool_iff in E.
      destruct (IH a) as [m [H1 [H2 [H3 H4]]]]. exists m. repeat split; auto.
      * destruct H2; auto.
      * constructor; [|assumption]. now apply Qle_trans with a.
    + assert (Hlt : (price_of p <= a)%Q).
      { apply Qlt_le_weak, Qnot_le_lt. intros Hle.
        apply Qle_bool_iff in Hle. congruence. }
      destruct (IH (price_of p)) as [m [H1 [H2 [H3 H4]]]]. exists m.
      repeat split; auto.
      * destruct H2 as [->|H2]; auto.
      * now apply Qle_trans with (price_of p).
Qed.

Lemma fold_num_max (rt : Runtime) (found : list obj) (a : Q) :
  Forall priced found ->
  exists m,
    fold_left (fun m v => num_max m (ToNumber rt v)) (map (lookup "price") found) (Fin a)
    = Fin m
    /\ (m = a \/ In m (map price_of found))
    /\ (a <= m)%Q
    /\ Forall (fun q => (q <= m)%Q) (map price_of found).
Proof.
  intros H. revert a. induction H as [|p found Hp _ IH]; intros a; simpl.
  - exists a. repeat split; auto. apply Qle_refl.
  - rewrite (priced_price p Hp). cbn [ToNumber num_max].
    destruct (Qle_bool a (price_of p)) eqn:E.
    + apply Qle_bool_iff in E.
      destruct (IH (price_of p)) as [m [H1 [H2 [H3 H4]]]]. exists m.
      repeat split; auto.
      * destruct H2 as [->|H2]; auto.
      * now apply Qle_trans with (price_of p).
    + assert (Hlt : (price_of p <= a)%Q).
      { apply Qlt_le_weak, Qnot_le_lt. intros Hle.
        apply Qle_bool_iff in Hle. congruence. }
      destruct (IH a) as [m [H1 [H2 [H3 H4]]]]. exists m. repeat split; auto.
      * destruct H2; auto.
      * constructor; [|assumption]. now apply Qle_trans with a.
Qed.

Lemma Math_min_priced (rt : Runtime) (found : list obj) :
  found <> [] -> Forall priced found ->
  exists m,
    ProductService.Math_min rt (ProductService.prices (map VObj found)) = Fin m
    /\ In m (map price_of found)
    /\ Forall (fun q => (m <= q)%Q) (map price_of found).
Proof.
  intros Hne H. destruct H as [|p found Hp H]; [congruence|].
  unfold ProductService.Math_min, ProductService.prices. rewrite map_map.
  cbn [map get_prop]. rewrite (priced_price p Hp). cbn [ToNumber].
  destruct (fold_num_min rt found (price_of p) H) as [m [H1 [H2 [H3 H4]]]].
  exists m. split; [exact H1|]. split.
  - destruct H2 as [->|H2]; [now left | now right].
  - now constructor.
Qed.

Lemma Math_max_priced (rt : Runtime) (found : list obj) :
  found <> [] -> Forall priced found ->
  exists m,
    ProductService.Math_max rt (ProductService.prices (map VObj found)) = Fin m
    /\ In m (map price_of found)
    /\ Forall (fun q => (q <= m)%Q) (map price_of found).
Proof.
  intros Hne H. destruct H as [|p found Hp H]; [congruence|].
  unfold ProductService.Math_max, ProductService.prices. rewrite map_map.
  cbn [map get_prop]. rewrite (priced_price p Hp). cbn [ToNumber].
  destruct (fold_num_max rt found (price_of p) H) as [m [H1 [H2 [H3 H4]]]].
  exists m. split; [exact H1|]. split.
  - destruct H2 as [->|H2]; [now left | now right].
  - now constructor.
Qed.

(** The [reduce] that sums the prices. *)
Lemma sum_priced (rt : Runtime) (found : list obj) (a : Q) :
  Forall priced found ->
  fold_left (fun sum p => js_add rt sum (get_prop p "price")) (map VObj found)
    (VNum (Fin a))
  = VNum (Fin (fold_left (fun sum p => (sum + price_of p)%Q) found a)).
Proof.
  intros H. revert a. induction H as [|p found Hp _ IH]; intros a; simpl.
  - reflexivity.
  - rewrite (priced_price p Hp). unfold js_add. cbn [stringy orb ToNumber num_add].
    apply IH.
Qed.

Lemma count_not_zero (n : nat) :
  (2 <= n)%nat -> Qeq_bool (inject_Z (Z.of_nat n)) 0 = false.
Proof.
  intros H. destruct (Qeq_bool (inject_Z (Z.of_nat n)) 0) eqn:E; [|reflexivity].
  apply Qeq_bool_iff in E. unfold Qeq in E. simpl in E. lia.
Qed.

(** The size checks of [compareProducts], for every list of identifiers. *)
Lemma compareProducts_size (rt : Runtime) (productIds : list value) (now : Z)
  (ls : LocalStorage) :
  ((List.length productIds < 2)%nat ->
   ProductService.compareProducts rt productIds now ls = (Throw too_few, ls))
  /\ ((4 < List.length productIds)%nat ->
      ProductService.compareProducts rt productIds now ls = (Throw too_many, ls)).
Proof.
  unfold ProductService.compareProducts. split; intros H.
  - apply Nat.ltb_lt in H. now rewrite H.
  - destruct (List.length productIds <? 2)%nat eqn:E.
    + apply Nat.ltb_lt in E. lia.
    + apply Nat.ltb_lt in H. now rewrite H.
Qed.

(** [compareProducts] on two to four non-empty string identifiers. *)
Lemma compareProducts_resolved (rt : Runtime) (sids : list string) (now : Z)
  (ls : LocalStorage) :
  Forall (fun sid => sid <> "") sids ->
  (2 <= List.length sids <= 4)%nat ->
  let found := resolved products sids ls in
  ((List.length found < 2)%nat ->
   ProductService.compareProducts rt (map VStr sids) now ls
   = (Throw too_few_valid, ls))
  /\ ((2 <= List.length found)%nat ->
      Forall priced found ->
      forall common,
        ProductService.extractCommonFeatures (map VObj found) = Ok common ->
        exists c,
          ProductService.compareProducts rt (map VStr sids) now ls = (Ok c, ls)
          /\ compared c = map VObj found
          /\ (exists m, min (priceRange c) = Fin m
                        /\ In m (map price_of found)
                        /\ Forall (fun q => (m <= q)%Q) (map price_of found))
          /\ (exists m, max (priceRange c) = Fin m
                        /\ In m (map price_of found)
                        /\ Forall (fun q => (q <= m)%Q) (map price_of found))
          /\ average (priceRange c)
             = Fin (sum_prices found / inject_Z (Z.of_nat (List.length found)))
          /\ features c = common
          /\ categories c = distinct (map (lookup "category") found)
          /\ shopRefs c = distinct (map (lookup "shopId") found)
          /\ inStock (availability c)
             = List.length (filter (fun p => gt rt (lookup "stock" p) zero) found)
          /\ outOfStock (availability c)
             = List.length (filter (fun p => strict_eq (lookup "stock" p) zero) found)).
Proof.
  intros Hsids [Hlo Hhi] found.
  assert (Hrun : ProductService.compareProducts rt (map VStr sids) now ls
                 = if (List.length (map VObj found) <? 2)%nat
                   then (Throw too_few_valid, ls)
                   else
                     match ProductService.extractCommonFeatures (map VObj found) with
                     | Ok common =>
                         (Ok (mkComparison (map VObj found)
                                (mkPriceRange
                                   (ProductService.Math_min rt
                                      (ProductService.prices (map VObj found)))
                                   (ProductService.Math_max rt
                                      (ProductService.prices (map VObj found)))
                                   (num_div
                                      (ToNumber rt
                                         (fold_left
                                            (fun sum p => js_add rt sum (get_prop p "price"))
                                            (map VObj found) zero))
                                      (Fin (inject_Z (Z.of_nat
                                                        (List.length (map VObj found)))))))
                                common
                                (distinct (map (fun p => get_prop p "category")
                                             (map VObj found)))
                                (distinct (map (fun p => get_prop p "shopId")
                                             (map VObj found)))
                                (mkAvailability
                                   (List.length
                                      (filter (fun p => gt rt (get_prop p "stock") zero)
                                         (map VObj found)))
                                   (List.length
                                      (filter (fun p => strict_eq (get_prop p "stock") zero)
                                         (map VObj found))))
                                (toISOString rt now)
                                (getCurrentUserId ls)),
                          ls)
                     | Throw e => (Throw e, ls)
                     end).
  { unfold ProductService.compareProducts. rewrite length_map.
    destruct (List.length sids <? 2)%nat eqn:E1; [apply Nat.ltb_lt in E1; lia|].
    destruct (4 <? List.length sids)%nat eqn:E2; [apply Nat.ltb_lt in E2; lia|].
    unfold bind at 1. rewrite read_each_run by assumption.
    rewrite valid_products_resolved. fold found.
    destruct (List.length (map VObj found) <? 2)%nat; [reflexivity|].
    unfold bind, lift, currentUserId, ret.
    now destruct (ProductService.extractCommonFeatures (map VObj found)). }
  rewrite Hrun, length_map. unfold obj in *. split.
  - intros H. apply Nat.ltb_lt in H. now rewrite H.
  - intros H Hpriced common Hcommon.
    assert (E : (List.length found <? 2)%nat = false) by (apply Nat.ltb_ge; lia).
    rewrite E, Hcommon. eexists. split; [reflexivity|]. cbn.
    assert (Hne : found <> []) by (intros ->; simpl in H; lia).
    repeat split.
    + exact (Math_min_priced rt found Hne Hpriced).
    + exact (Math_max_priced rt found Hne Hpriced).
    + unfold zero, num_of_Z. rewrite (sum_priced rt found _ Hpriced).
      cbn [ToNumber num_div]. now rewrite count_not_zero.
    + now rewrite map_map.
    + now rewrite map_map.
    + now rewrite length_filter_map.
    + now rewrite length_filter_map.
Qed.

(** ** extractCommonFeatures against the wording of the specification *)

Lemma entries_app (key : string) (acc1 acc2 : list (string * list Feature)) :
  entries key (acc1 ++ acc2)
  = if existsb (fun kv => String.eqb key (fst kv)) acc1
    then entries key acc1 else entries key acc2.
Proof.
  induction acc1 as [|[k es] acc1 IH]; simpl; [reflexivity|].
  destruct (String.eqb key k); [reflexivity | exact IH].
Qed.

Lemma entries_absent (key : string) (acc : list (string * list Feature)) :
  existsb (fun kv => String.eqb key (fst kv)) acc = false -> entries key acc = [].
Proof.
  induction acc as [|[k es] acc IH]; simpl; [reflexivity|].
  destruct (String.eqb key k); [discriminate | exact IH].
Qed.

Lemma existsb_key_In (key : string) (acc : list (string * list Feature)) :
  existsb (fun kv => String.eqb key (fst kv)) acc = true <-> In key (map fst acc).
Proof.
  induction acc as [|[k es] acc IH]; simpl.
  - split; [discriminate | contradiction].
  - rewrite orb_true_iff, IH, String.eqb_eq. intuition congruence.
Qed.

Lemma push_feature_spec (key : string) (e : Feature)
  (acc : list (string * list Feature)) :
  inherited key = false -> NoDup (map fst acc) -> filled acc ->
  exists acc',
    ProductService.push_feature key e acc = Ok acc'
    /\ NoDup (map fst acc') /\ filled acc'
    /\ forall k, entries k acc'
                 = entries k acc ++ (if String.eqb k key then [e] else []).
Proof.
  intros Hinh Hnd Hfilled. unfold ProductService.push_feature.
  destruct (existsb (fun kv => String.eqb key (fst kv)) acc) eqn:Hex.
  - eexists. split; [reflexivity|].
    assert (Hfst : forall l : list (string * list Feature),
               map fst (map (fun kv => if String.eqb key (fst kv)
                                       then (fst kv, snd kv ++ [e]) else kv) l)
               = map fst l).
    { induction l as [|[k es] l IH]; simpl; [reflexivity|].
      rewrite IH. now destruct (String.eqb key k). }
    assert (Hent : forall k (l : list (string * list Feature)),
               existsb (fun kv => String.eqb k (fst kv)) l = true ->
               entries k (map (fun kv => if String.eqb key (fst kv)
                                         then (fst kv, snd kv ++ [e]) else kv) l)
               = entries k l ++ (if String.eqb k key then [e] else [])).
    { intros k l. induction l as [|[k' es] l IH]; simpl; [discriminate|].
      destruct (String.eqb key k') eqn:E1; simpl;
        destruct (String.eqb k k') eqn:E2; simpl; intros Hk.
      - apply String.eqb_eq in E1, E2. subst. now rewrite String.eqb_refl.
      - now apply IH.
      - apply String.eqb_eq in E2. subst k'.
        rewrite String.eqb_sym, E1. now rewrite app_nil_r.
      - now apply IH. }
    rewrite Hfst. split; [assumption|]. split.
    + intros k Hk. rewrite Hfst in Hk.
      rewrite Hent by now apply existsb_key_In.
      intros Heq. apply app_eq_nil in Heq. destruct Heq as [Heq _].
      now apply (Hfilled k).
    + intros k. destruct (existsb (fun kv => String.eqb k (fst kv)) acc) eqn:Hk.
      * now apply Hent.
      * assert (Hne : String.eqb k key = false).
        { destruct (String.eqb k key) eqn:E; [|reflexivity].
          apply String.eqb_eq in E. subst. congruence. }
        rewrite Hne, app_nil_r, !entries_absent; try reflexivity; [assumption|].
        destruct (existsb _ (map _ acc)) eqn:Hk'; [|reflexivity].
        apply existsb_key_In in Hk'. rewrite Hfst in Hk'.
        apply existsb_key_In in Hk'. congruence.
  - rewrite Hinh. eexists. split; [reflexivity|].
    assert (Hnot : ~ In key (map fst acc)).
    { intros Hin. apply existsb_key_In in Hin. congruence. }
    split; [|split].
    + rewrite map_app. simpl. apply NoDup_app.
      repeat split; auto.
      * constructor; [intros []| constructor].
      * intros k Hk [<-|[]]. contradiction.
    + intros k Hk. rewrite entries_app.
      destruct (existsb (fun kv => String.eqb k (fst kv)) acc) eqn:Hk'.
      * apply Hfilled. now apply existsb_key_In.
      * rewrite map_app in Hk. apply in_app_or in Hk.
        destruct Hk as [Hk|[<-|[]]].
        -- apply existsb_key_In in Hk. congruence.
        -- simpl. rewrite String.eqb_refl. discriminate.
    + intros k. rewrite entries_app.
      destruct (existsb (fun kv => String.eqb k (fst kv)) acc) eqn:Hk'.
      * assert (Hne : String.eqb k key = false).
        { destruct (String.eqb k key) eqn:E; [|reflexivity].
          apply String.eqb_eq in E. subst. congruence. }
        now rewrite Hne, app_nil_r.
      * rewrite (entries_absent k acc Hk'). simpl.
        now destruct (String.eqb k key).
Qed.

Lemma push_features_spec (product specifications : value) (keys : list string)
  (acc : list (string * list Feature)) :
  NoDup keys -> Forall (fun key => inherited key = false) keys ->
  NoDup (map fst acc) -> filled acc ->
  exists acc',
    ProductService.push_features product specifications keys acc = Ok acc'
    /\ NoDup (map fst acc') /\ filled acc'
    /\ forall k, entries k acc'
                 = entries k acc
                   ++ (if existsb (String.eqb k) keys
                       then [mkFeature (get_prop product "id")
                               (get_prop product "name")
                               (get_prop specifications k)]
                       else []).
Proof.
  intros Hnd Hinh. revert acc.
  induction keys as [|key keys IH]; intros acc Hacc Hfilled; simpl.
  - exists acc. repeat split; auto. intros k. now rewrite app_nil_r.
  - inversion Hnd as [|? ? Hnotin Hnd']; subst.
    inversion Hinh as [|? ? Hkey Hinh']; subst.
    destruct (push_feature_spec key
                (mkFeature (get_prop product "id") (get_prop product "name")
                   (get_prop specifications key)) acc Hkey Hacc Hfilled)
      as [acc1 [H1 [H2 [H3 H4]]]].
    rewrite H1. cbn [rbind].
    destruct (IH Hnd' Hinh' acc1 H2 H3) as [acc' [H5 [H6 [H7 H8]]]].
    exists acc'. repeat split; auto.
    intros k. rewrite H8, H4, <- app_assoc. f_equal.
    destruct (String.eqb k key) eqn:E; simpl.
    + apply String.eqb_eq in E. subst k.
      destruct (existsb (String.eqb key) keys) eqn:Hex; [|reflexivity].
      apply existsb_exists in Hex. destruct Hex as [k' [Hin Hk']].
      apply String.eqb_eq in Hk'. subst k'. contradiction.
    + reflexivity.
Qed.

Lemma allFeatures_spec (found : list obj) (acc : list (string * list Feature)) :
  Forall plain_specifications found ->
  NoDup (map fst acc) -> filled acc ->
  exists acc',
    ProductService.allFeatures (map VObj found) acc = Ok acc'
    /\ NoDup (map fst acc') /\ filled acc'
    /\ forall k, entries k acc' = entries k acc ++ pairs_carrying k found.
Proof.
  intros Hplain. revert acc.
  induction Hplain as [|p found [Hnd Hinh] _ IH]; intros acc Hacc Hfilled; simpl.
  - exists acc. repeat split; auto. intros k.
    unfold pairs_carrying. simpl. now rewrite app_nil_r.
  - destruct (truthy (lookup "specifications" p)) eqn:Ht.
    + destruct (push_features_spec (VObj p) (lookup "specifications" p)
                  (Object_keys (lookup "specifications" p)) acc
                  Hnd Hinh Hacc Hfilled) as [acc1 [H1 [H2 [H3 H4]]]].
      rewrite H1. cbn [rbind].
      destruct (IH acc1 H2 H3) as [acc' [H5 [H6 [H7 H8]]]].
      exists acc'. repeat split; auto.
      intros k. rewrite H8, H4, <- app_assoc. f_equal.
      unfold pairs_carrying, carries. simpl. rewrite Ht. simpl.
      now destruct (existsb (String.eqb k) (Object_keys (lookup "specifications" p))).
    + cbn [rbind]. destruct (IH acc Hacc Hfilled) as [acc' [H5 [H6 [H7 H8]]]].
      exists acc'. repeat split; auto.
      intros k. rewrite H8. f_equal.
      unfold pairs_carrying, carries. simpl. now rewrite Ht.
Qed.

Lemma In_entries (key : string) (es : list Feature)
  (acc : list (string * list Feature)) :
  NoDup (map fst acc) -> In (key, es) acc -> entries key acc = es.
Proof.
  induction acc as [|[k es'] acc IH]; simpl; intros Hnd Hin; [contradiction|].
  inversion Hnd as [|? ? Hnotin Hnd']; subst.
  destruct Hin as [Heq|Hin].
  - injection Heq as -> ->. now rewrite String.eqb_refl.
  - destruct (String.eqb key k) eqn:E.
    + apply String.eqb_eq in E. subst k. exfalso. apply Hnotin.
      change key with (fst (key, es)). now apply in_map.
    + now apply IH.
Qed.

Lemma entries_In (key : string) (acc : list (string * list Feature)) :
  entries key acc <> [] -> In (key, entries key acc) acc.
Proof.
  induction acc as [|[k es] acc IH]; simpl; intros H; [congruence|].
  destruct (String.eqb key k) eqn:E.
  - apply String.eqb_eq in E. subst. now left.
  - right. now apply IH.
Qed.

Lemma NoDup_filter_fst {A B} (f : A * B -> bool) (l : list (A * B)) :
  NoDup (map fst l) -> NoDup (map fst (filter f l)).
Proof.
  induction l as [|[k es] l IH]; cbn [filter map fst]; intros H; [constructor|].
  inversion H as [|? ? Hnotin Hnd]; subst.
  destruct (f (k, es)); cbn [map fst]; [|now apply IH].
  constructor; [|now apply IH].
  intros Hin. apply Hnotin. apply in_map_iff in Hin.
  destruct Hin as [[k' es'] [Hk Hin]]. cbn [fst] in Hk. subst k'.
  apply filter_In in Hin. destruct Hin as [Hin _].
  change k with (fst (k, es')). now apply in_map.
Qed.

(** On products with plain specifications, [extractCommonFeatures] returns
    the common features as the specification words them: the keys carried
    by at least two products, each once, with the entries of its carriers
    in the order of the products. *)
Lemma extractCommonFeatures_spec (found : list obj) :
  Forall plain_specifications found ->
  exists common,
    ProductService.extractCommonFeatures (map VObj found) = Ok common
    /\ NoDup (map fst common)
    /\ forall key es,
         In (key, es) common
         <-> es = pairs_carrying key found /\ (2 <= List.length es)%nat.
Proof.
  intros Hplain.
  destruct (allFeatures_spec found [] Hplain) as [all [H1 [H2 [H3 H4]]]];
    [constructor | intros key [] |].
  unfold ProductService.extractCommonFeatures. rewrite H1. cbn [rbind].
  eexists. split; [reflexivity|]. split.
  - now apply NoDup_filter_fst.
  - intros key es. rewrite filter_In. cbn [snd]. rewrite Nat.leb_le.
    split.
    + intros [Hin Hlen]. split; [|assumption].
      apply In_entries in Hin; [|assumption]. rewrite H4 in Hin. now simpl in Hin.
    + intros [Hes Hlen]. split; [|assumption].
      assert (Hent : entries key all = es) by (rewrite H4; now simpl).
      rewrite <- Hent. apply entries_In. rewrite Hent.
      intros ->. simpl in Hlen. lia.
Qed.

(** ** Listings as filters *)

Lemma filter_filter {A} (f g : A -> bool) (l : list A) :
  filter g (filter f l) = filter (fun x => f x && g x) l.
Proof.
  induction l as [|x l IH]; simpl; [reflexivity|].
  destruct (f x); simpl; [destruct (g x)|]; now rewrite IH.
Qed.

Lemma filter_ext_all {A} (f g : A -> bool) (l : list A) :
  (forall x, f x = g x) -> filter f l = filter g l.
Proof.
  intros H. induction l as [|x l IH]; simpl; [reflexivity|].
  now rewrite H, IH.
Qed.

Lemma filter_all_true {A} (l : list A) : filter (fun _ => true) l = l.
Proof. induction l as [|x l IH]; simpl; [reflexivity | now rewrite IH]. Qed.

Lemma apply_filters_passes (rt : Runtime) (filters : obj) (items : list obj) :
  apply_filters rt filters items = filter (passes rt filters) items.
Proof.
  unfold apply_filters, passes. generalize (map fst filters). intros keys.
  revert items. induction keys as [|key keys IH]; intros items; simpl.
  - now rewrite filter_all_true.
  - rewrite IH. destruct (filter_given (lookup key filters)); simpl.
    + apply filter_filter.
    + reflexivity.
Qed.

(** A listing that returns holds, in some order, the stored records that pass
    the filters (with [isActive] as the service sets it). *)
Lemma getShops_listing (rt : Runtime) (filters : obj) (ls : LocalStorage)
  (l : list obj) :
  returned (ShopService.getShops rt filters ls) = Ok l ->
  Permutation (filter (passes rt (with_isActive filters)) (getItem shops ls)) l.
Proof.
  unfold ShopService.getShops, bind. rewrite query_run, apply_filters_passes.
  unfold lift, returned. cbn [fst]. apply sortShops_perm.
Qed.

Lemma getProducts_listing (rt : Runtime) (filters : obj) (ls : LocalStorage)
  (l : list obj) :
  returned (ProductService.getProducts rt filters ls) = Ok l ->
  Permutation (filter (passes rt (with_isActive filters)) (getItem products ls)) l.
Proof.
  unfold ProductService.getProducts, bind. rewrite query_run, apply_filters_passes.
  unfold lift, returned. cbn [fst]. apply sortProducts_perm.
Qed.

Lemma getOffers_listing (rt : Runtime) (filters : obj) (now : Z)
  (ls : LocalStorage) (l : list obj) :
  returned (OfferService.getOffers rt filters now ls) = Ok l ->
  Permutation
    (filter (fun offer =>
               passes rt (with_isActive filters) offer
               && (truthy (lookup "includeExpired" filters)
                   || OfferService.in_validity_window rt now offer))
       (getItem offers ls)) l.
Proof.
  unfold OfferService.getOffers, bind. rewrite query_run, apply_filters_passes.
  unfold lift, returned. cbn [fst]. intros H. apply sortOffers_perm in H.
  destruct (truthy (lookup "includeExpired" filters)).
  - erewrite filter_ext; [exact H|]. intros o. cbn [orb]. apply andb_true_r.
  - rewrite filter_filter in H. exact H.
Qed.

Lemma active_true (record : obj) :
  active record = true <-> lookup "isActive" record = VBool true.
Proof.
  unfold active. split; [apply strict_eq_true_bool | now intros ->].
Qed.

Lemma passes_one_field (rt : Runtime) (key : string) (v : value) (p : obj) :
  String.eqb key "priceRange" = false ->
  String.eqb key "isActive" = false ->
  String.eqb key "includeInactive" = false ->
  passes rt (with_isActive [(key, v)]) p = active_with key v p.
Proof.
  intros Hrange Hactive Hinactive.
  assert (Hactive' : String.eqb "isActive" key = false)
    by now rewrite String.eqb_sym.
  assert (Hinactive' : String.eqb "includeInactive" key = false)
    by now rewrite String.eqb_sym.
  unfold passes, with_isActive, spread, active_with, active, matches.
  cbn [lookup fold_left fst snd]. rewrite Hinactive'. cbn [truthy obj_set].
  rewrite Hactive'. cbn [obj_set map fst forallb lookup].
  rewrite String.eqb_refl, Hactive', Hrange. cbn.
  rewrite andb_true_r. apply andb_comm.
Qed.


(** ** Offers that are valid but for their discount *)

Lemma trimmed_nonempty (s : string) (n : nat) :
  (S n <= String.length (trim s))%nat -> truthy (VStr s) = true.
Proof.
  intros H. destruct s; [cbn in H; lia | reflexivity].
Qed.

Lemma check_min_length_ok (s : string) (n : nat) (message : string) :
  (n <= String.length (trim s))%nat ->
  check_min_length (VStr s) n message = Ok tt.
Proof.
  intros H. unfold check_min_length.
  destruct (truthy (VStr s)); [|reflexivity].
  cbn [trimmed_shorter rbind].
  assert (E : (String.length (trim s) <? n)%nat = false) by now apply Nat.ltb_ge.
  now rewrite E.
Qed.

(** The validation of a payload that is valid but for its discount comes
    down to the rule on the discount. *)
Lemma validateOfferData_otherwise_valid (rt : Runtime) (now : Z)
  (offerData : obj) (discount : value) :
  otherwise_valid rt now offerData ->
  truthy discount = true ->
  OfferService.validateOfferData rt (obj_set "discount" discount offerData)
    false now
  = throw_if (lt rt discount zero || gt rt discount (num_of_Z 100))
      "Discount must be between 0 and 100 percent".
Proof.
  intros (Htitle & Hdescription & Hshop & Hfrom & Hto & Horder & Hfuture) Hd.
  destruct Htitle as [title [Htitle Hlen]].
  destruct Hdescription as [description [Hdescription Hlen']].
  assert (Hundef : strict_eq discount VUndef = false)
    by (destruct discount as [| |b|[|q]|s|l|o]; try reflexivity; discriminate Hd).
  unfold OfferService.validateOfferData. cbn [require_fields]. lookups.
  rewrite Htitle, Hdescription, Hd, Hshop, Hfrom, Hto, Hundef.
  rewrite (trimmed_nonempty title 2 Hlen), (trimmed_nonempty description 9 Hlen').
  cbn [negb andb rbind].
  rewrite (check_min_length_ok title 3 _ Hlen).
  rewrite (check_min_length_ok description 10 _ Hlen').
  cbn [rbind].
  assert (E1 : date_cmp Z.geb (new_Date rt (lookup "validFrom" offerData))
                 (new_Date rt (lookup "validTo" offerData)) = false).
  { destruct (new_Date rt (lookup "validFrom" offerData)) as [validFrom|];
      [|reflexivity].
    destruct (new_Date rt (lookup "validTo" offerData)) as [validTo|];
      [|reflexivity].
    cbn [date_cmp]. rewrite Z.geb_leb. apply Z.leb_gt.
    now apply Horder. }
  assert (E2 : date_cmp Z.leb (new_Date rt (lookup "validTo" offerData))
                 (Some now) = false).
  { destruct (new_Date rt (lookup "validTo" offerData)) as [validTo|];
      [|reflexivity].
    cbn [date_cmp]. apply Z.leb_gt. now apply Hfuture. }
  rewrite E1, E2.
  destruct (lt rt discount zero || gt rt discount (num_of_Z 100)); reflexivity.
Qed.

(** ** Orders that need a price *)

Lemma Sorted_neighbour {A} (R : A -> A -> Prop) (l : list A) (b : A) :
  Sorted R l -> In b l -> (2 <= List.length l)%nat ->
  exists x, In x l /\ (R b x \/ R x b).
Proof.
  induction 1 as [|a l Hs IH Hd]; intros Hin Hlen; [contradiction|].
  destruct Hin as [->|Hin].
  - destruct Hd as [|y l' Hy]; [cbn in Hlen; lia|].
    exists y. split; [right; now left | now left].
  - destruct l as [|y [|z l']]; [contradiction | |].
    + destruct Hin as [->|[]]. apply HdRel_inv in Hd.
      exists a. split; [now left | now right].
    + destruct (IH Hin) as [x [Hx HR]]; [cbn; lia|].
      exists x. split; [now right | exact HR].
Qed.

Lemma price_le_has_price (rt : Runtime) (a b : obj) :
  price_le rt a b -> has_price rt a /\ has_price rt b.
Proof.
  unfold price_le, has_price.
  destruct (ToNumber rt (lookup "price" a)) as [|x]; [contradiction|].
  destruct (ToNumber rt (lookup "price" b)) as [|y]; [contradiction|].
  intros _. split; eexists; reflexivity.
Qed.

(** A list of two or more records, one of them without a price, is in no
    order non-decreasing in price. *)
Lemma priceless_breaks_order (rt : Runtime) (l : list obj) (b : obj) :
  In b l -> lookup "price" b = VUndef -> (2 <= List.length l)%nat ->
  forall l', Permutation l l' -> ~ Sorted (price_le rt) l'.
Proof.
  intros Hin Hprice Hlen l' Hperm Hsorted.
  destruct (Sorted_neighbour (price_le rt) l' b Hsorted) as [x [_ HR]].
  - now apply (Permutation_in _ Hperm).
  - now rewrite <- (Permutation_length Hperm).
  - assert (Hb : has_price rt b)
      by (destruct HR as [HR|HR]; apply price_le_has_price in HR; tauto).
    destruct Hb as [q Hq]. rewrite Hprice in Hq. discriminate Hq.
Qed.

(** * The claims *)

Import Scenario.

(** ** C1: soft delete *)

(** C1 (soft-delete invariant), evaluated on the demo data.  A shop is
    created and then deleted through the service: its record stays stored
    with [isActive = false] and the default listing omits it, as claimed; but
    [getShops({includeInactive: true})] returns the empty list, so the
    deleted shop is not in it.  Likewise [getProducts] and [getOffers] with
    [{includeInactive: true}] return the empty list after product "1" and
    offer "1" of the demo data have been deleted. *)
Theorem C1_includeInactive_omits_deleted_records :
  let created := ShopService.createShop host bookshop "s1" t0 seeded in
  let deleted :=
    ShopService.deleteShop host (VStr "s1") (t0 + day) (storage_after created) in
  let ls := storage_after deleted in
  let deletedP := ProductService.deleteProduct host (VStr "1") (t0 + day) seeded in
  let deletedO := OfferService.deleteOffer host (VStr "1") (t0 + day) seeded in
  let all := [("includeInactive", VBool true)] in
  (returned created = Ok (VStr "s1")
   /\ returned deleted = Ok tt
   /\ option_map (lookup "isActive") (stored shops "s1" ls) = Some (VBool false)
   /\ ids (getItem shops ls) = vstr_ids ["1"; "2"; "s1"]
   /\ result_map ids (returned (ShopService.getShops host [] ls))
      = Ok (vstr_ids ["1"; "2"])
   /\ returned (ShopService.getShops host all ls) = Ok [])
  /\ (returned deletedP = Ok tt
      /\ option_map (lookup "isActive")
           (stored products "1" (storage_after deletedP)) = Some (VBool false)
      /\ result_map ids
           (returned (ProductService.getProducts host [] (storage_after deletedP)))
         = Ok (vstr_ids ["2"])
      /\ returned (ProductService.getProducts host all (storage_after deletedP))
         = Ok [])
  /\ (returned deletedO = Ok tt
      /\ option_map (lookup "isActive")
           (stored offers "1" (storage_after deletedO)) = Some (VBool false)
      /\ returned (OfferService.getOffers host [] (t0 + day) (storage_after deletedO))
         = Ok []
      /\ returned (OfferService.getOffers host all (t0 + day) (storage_after deletedO))
         = Ok []).
Proof. vm_compute. repeat split; reflexivity. Qed.

(** ** C2: referential guard *)

(** C2, last part, on the demo data: a shop is created, then a product
    with that shop's identifier as [shopId].  [deleteShop] fails, as claimed.
    After [deleteProduct] of the product has succeeded, [deleteShop] of the
    shop does not succeed: the product row is still stored, inactive, and
    the guard throws again. *)
Lemma C2_deleteShop_after_deleteProduct_fails :
  let createdS := ShopService.createShop host bookshop "s1" t0 seeded in
  let createdP :=
    ProductService.createProduct host (obj_set "shopId" (VStr "s1") lamp) "p1" t0
      (storage_after createdS) in
  let deletedP :=
    ProductService.deleteProduct host (VStr "p1") (t0 + day) (storage_after createdP) in
  let deletedS :=
    ShopService.deleteShop host (VStr "s1") (t0 + 2 * day) (storage_after deletedP) in
  returned createdS = Ok (VStr "s1")
  /\ returned createdP = Ok (VStr "p1")
  /\ returned (ShopService.deleteShop host (VStr "s1") (t0 + day)
                 (storage_after createdP)) = Throw conflict
  /\ returned deletedP = Ok tt
  /\ option_map (lookup "isActive") (stored products "p1" (storage_after deletedP))
     = Some (VBool false)
  /\ returned deletedS = Throw conflict
  /\ returned deletedS <> Ok tt.
Proof. vm_compute. repeat split; try reflexivity. discriminate. Qed.

(** C2 as amended: while some stored product row has [shopId] equal to the
    shop's identifier, whatever that row's [isActive] flag, [deleteShop]
    throws the conflict error and every stored shop is as it was; and since
    [deleteProduct] keeps the row, this is still so after any
    [deleteProduct] call, successful or not. *)
Theorem C2_deleteShop_blocked_while_row_present
  (rt : Runtime) (ls : LocalStorage) (sid : string) (now : Z)
  (Hrow : exists p, In p (getItem products ls) /\ lookup "shopId" p = VStr sid) :
  let blocked := ShopService.deleteShop rt (VStr sid) now ls in
  returned blocked = Throw conflict
  /\ getItem shops (storage_after blocked) = getItem shops ls
  /\ forall (productId : value) (now1 now2 : Z),
       let ls' := storage_after (ProductService.deleteProduct rt productId now1 ls) in
       let again := ShopService.deleteShop rt (VStr sid) now2 ls' in
       returned again = Throw conflict
       /\ getItem shops (storage_after again) = getItem shops ls.
Proof.
  intros blocked. subst blocked.
  rewrite (deleteShop_guard rt (VStr sid) now ls)
    by now apply shopId_filter_finds.
  split; [reflexivity|]. split; [reflexivity|].
  intros productId now1 now2 ls' again. subst again.
  assert (Hshops : getItem shops ls' = getItem shops ls).
  { subst ls'. rewrite deleteProduct_run, update_run.
    destruct (update_first productId _ (getItem products ls)) as [items'|];
      unfold storage_after; cbn [snd]; [|reflexivity].
    now rewrite getItem_setItem_other by discriminate. }
  rewrite (deleteShop_guard rt (VStr sid) now2 ls').
  - split; [reflexivity | exact Hshops].
  - apply shopId_filter_finds. subst ls'.
    rewrite deleteProduct_run, update_run.
    set (patch := spread (deletion_patch rt now1 (getCurrentUserId ls))
                    [("updatedAt", VStr (toISOString rt now1))]).
    destruct (update_first productId patch (getItem products ls))
      as [items'|] eqn:E; unfold storage_after; cbn [snd]; [|exact Hrow].
    rewrite getItem_setItem_same.
    apply patched_keeps_string with (items := getItem products ls) (patch := patch).
    + reflexivity.
    + now apply update_first_patched in E.
    + exact Hrow.
Qed.

(** The amended C2 on the demo data, where product "1" belongs to shop "1". *)
Lemma C2_deleteShop_blocked_witness :
  let blocked := ShopService.deleteShop host (VStr "1") (t0 + day) seeded in
  returned blocked = Throw conflict
  /\ getItem shops (storage_after blocked) = getItem shops seeded
  /\ forall (productId : value) (now1 now2 : Z),
       let ls' := storage_after
                    (ProductService.deleteProduct host productId now1 seeded) in
       let again := ShopService.deleteShop host (VStr "1") now2 ls' in
       returned again = Throw conflict
       /\ getItem shops (storage_after again) = getItem shops seeded.
Proof.
  apply (C2_deleteShop_blocked_while_row_present host seeded "1" (t0 + day)).
  exists (nth 0 (demoProducts host t0) []). split; [left|]; reflexivity.
Defined.

(** ** C3: view count *)

(** C3, evaluated on the demo data: a shop is created (its [stats.views] is
    0) and fetched twice with [getShopById].  Both calls return the record,
    but the stored record still has [stats.views = 0]; the patch of the
    increment was merged as an own property whose name is the text
    "stats.views", and that property is 1 after either call. *)
Theorem C3_getShopById_leaves_stats_views :
  let created := ShopService.createShop host bookshop "s1" t0 seeded in
  let first :=
    ShopService.getShopById host (VStr "s1") (t0 + day) (storage_after created) in
  let second :=
    ShopService.getShopById host (VStr "s1") (t0 + 2 * day) (storage_after first) in
  let views_of (ls : LocalStorage) :=
    option_map (fun shop => opt_chain (lookup "stats" shop) "views")
      (stored shops "s1" ls) in
  let dotted_of (ls : LocalStorage) :=
    option_map (lookup "stats.views") (stored shops "s1" ls) in
  result_map (fun shop => get_prop shop "id") (returned first) = Ok (VStr "s1")
  /\ result_map (fun shop => get_prop shop "id") (returned second) = Ok (VStr "s1")
  /\ views_of (storage_after created) = Some zero
  /\ views_of (storage_after first) = Some zero
  /\ views_of (storage_after second) = Some zero
  /\ dotted_of (storage_after created) = Some VUndef
  /\ dotted_of (storage_after first) = Some one
  /\ dotted_of (storage_after second) = Some one.
Proof. vm_compute. repeat split; reflexivity. Qed.

(** ** C4: create, then get *)

(** C4 at a payload with a [NaN] and an [undefined]: the lamp with
    [rating: NaN] and [note: undefined] passes the validation and has no
    reserved field, and [createProduct] returns its identifier; but the
    record [getProductById] then returns has [rating = null] and no
    property [note]. *)
Lemma C4_round_trip_changes_NaN_and_undefined :
  let created := ProductService.createProduct host rated_lamp "p1" t0 seeded in
  let fetched :=
    ProductService.getProductById host (VStr "p1") (t0 + day)
      (storage_after created) in
  ProductService.validateProductData host rated_lamp false = Ok tt
  /\ forallb (fun k => negb (has_key k rated_lamp)) reserved_fields = true
  /\ returned created = Ok (VStr "p1")
  /\ lookup "rating" rated_lamp = VNum NaN
  /\ has_key "note" rated_lamp = true
  /\ exists record,
       returned fetched = Ok (VObj record)
       /\ lookup "rating" record = VNull
       /\ has_key "note" record = false.
Proof.
  vm_compute. repeat split. eexists. repeat split.
Qed.

(** C4 as amended: let [X] be a payload of plain JSON data (written and
    read back, it is itself: no [undefined], no [NaN]) that passes validation
    and has none of the reserved fields, and let the generated identifier be
    non-empty and not yet in the collection.  Then [createProduct(X)]
    returns the identifier and [getProductById] of it returns [X] followed by
    [isActive = true], the creator, the zeroed stats, the identifier and the
    creation timestamp; every property of [X] reads back unchanged. *)
Theorem C4_create_then_get_round_trip
  (rt : Runtime) (ls : LocalStorage) (X : obj) (newId : string) (now now' : Z)
  (Hvalid : ProductService.validateProductData rt X false = Ok tt)
  (Hreserved : forallb (fun k => negb (has_key k X)) reserved_fields = true)
  (Hjson : JSON_props X = X)
  (Hparsed : JSON_items (getItem products ls) = getItem products ls)
  (Hid : newId <> "")
  (Hfresh : fresh products newId ls) :
  let created := ProductService.createProduct rt X newId now ls in
  let record :=
    X ++ [("isActive", VBool true);
          ("createdBy", JSON_value (getCurrentUserId ls));
          ("stats", ProductService.initial_stats);
          ("id", VStr newId);
          ("createdAt", VStr (toISOString rt now))] in
  returned created = Ok (VStr newId)
  /\ returned (ProductService.getProductById rt (VStr newId) now'
                 (storage_after created))
     = Ok (VObj record)
  /\ forall k, has_key k X = true -> lookup k record = lookup k X.
Proof.
  intros created record.
  simpl in Hreserved. rewrite !andb_true_iff, !negb_true_iff in Hreserved.
  destruct Hreserved as (Hk_id & Hk_at & Hk_active & Hk_by & Hk_stats & _).
  assert (Hstored : getItem products (storage_after created)
                    = getItem products ls ++ [record]).
  { subst created. rewrite createProduct_run, Hvalid.
    rewrite create_stores, Hparsed. f_equal. f_equal.
    unfold created_record, spread. simpl.
    rewrite (obj_set_absent "isActive") by assumption.
    rewrite (obj_set_absent "createdBy")
      by (rewrite has_key_app, Hk_by; reflexivity).
    rewrite (obj_set_absent "stats")
      by (rewrite !has_key_app, Hk_stats; reflexivity).
    rewrite (obj_set_absent "id")
      by (rewrite !has_key_app, Hk_id; reflexivity).
    rewrite (obj_set_absent "createdAt")
      by (rewrite !has_key_app, Hk_at; reflexivity).
    rewrite <- !app_assoc. simpl.
    rewrite JSON_props_app, Hjson. f_equal.
    rewrite JSON_props_cons_defined by discriminate.
    rewrite JSON_props_cons_defined
      by apply truthy_defined, getCurrentUserId_truthy.
    reflexivity. }
  repeat split.
  - subst created. now rewrite createProduct_run, Hvalid, create_run.
  - apply getProductById_found; [assumption|].
    unfold stored. rewrite Hstored, find_app.
    unfold fresh, stored in Hfresh. rewrite Hfresh. simpl.
    subst record. rewrite lookup_app_absent by assumption. simpl.
    now rewrite String.eqb_refl.
  - intros k Hk. subst record. now apply lookup_app_present.
Qed.

(** C4 for the payload [lamp] on the demo data. *)
Lemma C4_round_trip_witness :
  let created := ProductService.createProduct host lamp "p1" t0 seeded in
  let record :=
    lamp ++ [("isActive", VBool true);
             ("createdBy", JSON_value (getCurrentUserId seeded));
             ("stats", ProductService.initial_stats);
             ("id", VStr "p1");
             ("createdAt", VStr (toISOString host t0))] in
  returned created = Ok (VStr "p1")
  /\ returned (ProductService.getProductById host (VStr "p1") (t0 + day)
                 (storage_after created))
     = Ok (VObj record)
  /\ forall k, has_key k lamp = true -> lookup k record = lookup k lamp.
Proof.
  apply (C4_create_then_get_round_trip host seeded lamp "p1" t0 (t0 + day));
    try (vm_compute; reflexivity).
  discriminate.
Defined.

(** ** C5: expiry filter *)

(** C5, evaluated on the demo data 31 days after seeding: offer "1" is
    active and its [validTo] (30 days after seeding) lies in the past.  The
    default listing omits it, as claimed; but [getOffers({includeExpired:
    true})] and [getExpiredOffers()] both return the empty list. *)
Theorem C5_includeExpired_omits_expired_offer :
  let now := (t0 + 31 * day)%Z in
  option_map (lookup "isActive") (stored offers "1" seeded) = Some (VBool true)
  /\ option_map (OfferService.expired host now) (stored offers "1" seeded)
     = Some true
  /\ returned (OfferService.getOffers host [] now seeded) = Ok []
  /\ returned (OfferService.getOffers host [("includeExpired", VBool true)]
                 now seeded) = Ok []
  /\ returned (OfferService.getExpiredOffers host now seeded) = Ok [].
Proof. vm_compute. repeat split; reflexivity. Qed.

(** ** C6: comparison *)

(** C6, evaluated on the demo data.  (1) With the two identifiers [""] and
    [""], which resolve to no record, [compareProducts] does not fail:
    [read] answers a falsy identifier with the whole collection, both
    answers count as products, and the price range is [NaN].  (2) Two
    created products whose specifications both have the key "constructor":
    instead of listing it as a common feature, [compareProducts] throws a
    [TypeError]. *)
Theorem C6_compareProducts_edge_inputs :
  (stored products "" seeded = None
   /\ result_map compared
        (returned (ProductService.compareProducts host (vstr_ids [""; ""]) t0 seeded))
      = Ok [VArr (map VObj (demoProducts host t0));
            VArr (map VObj (demoProducts host t0))]
   /\ result_map (fun c => min (priceRange c))
        (returned (ProductService.compareProducts host (vstr_ids [""; ""]) t0 seeded))
      = Ok NaN)
  /\
  (let a := ProductService.createProduct host (kit "Windmill" "Acme") "k1" t0 seeded in
   let b := ProductService.createProduct host (kit "Watermill" "Brix") "k2" t0
              (storage_after a) in
   returned a = Ok (VStr "k1")
   /\ returned b = Ok (VStr "k2")
   /\ returned (ProductService.compareProducts host (vstr_ids ["k1"; "k2"])
                  (t0 + day) (storage_after b))
      = Throw TypeError).
Proof. vm_compute. repeat split; reflexivity. Qed.

(** What holds of C6: on two to four non-empty string identifiers of which
    at least two resolve, when the resolved products have numeric prices and
    plain specifications, [compareProducts] returns the minimum, maximum and
    average price, the distinct categories and shops, the stock counts and
    the common features as the specification words them. *)
Lemma compareProducts_on_plain_records (rt : Runtime) (sids : list string)
  (now : Z) (ls : LocalStorage) :
  Forall (fun sid => sid <> "") sids ->
  (2 <= List.length sids <= 4)%nat ->
  let found := resolved products sids ls in
  (2 <= List.length found)%nat ->
  Forall priced found ->
  Forall plain_specifications found ->
  exists c,
    ProductService.compareProducts rt (map VStr sids) now ls = (Ok c, ls)
    /\ compared c = map VObj found
    /\ (exists m, min (priceRange c) = Fin m
                  /\ In m (map price_of found)
                  /\ Forall (fun q => (m <= q)%Q) (map price_of found))
    /\ (exists m, max (priceRange c) = Fin m
                  /\ In m (map price_of found)
                  /\ Forall (fun q => (q <= m)%Q) (map price_of found))
    /\ average (priceRange c)
       = Fin (sum_prices found / inject_Z (Z.of_nat (List.length found)))
    /\ NoDup (map fst (features c))
    /\ (forall key es,
          In (key, es) (features c)
          <-> es = pairs_carrying key found /\ (2 <= List.length es)%nat)
    /\ categories c = distinct (map (lookup "category") found)
    /\ shopRefs c = distinct (map (lookup "shopId") found)
    /\ inStock (availability c)
       = List.length (filter (fun p => gt rt (lookup "stock" p) zero) found)
    /\ outOfStock (availability c)
       = List.length (filter (fun p => strict_eq (lookup "stock" p) zero) found).
Proof.
  intros Hsids Hsize found Hfound Hpriced Hplain.
  destruct (extractCommonFeatures_spec found Hplain) as [common [Hc [Hnd Hin]]].
  destruct (compareProducts_resolved rt sids now ls Hsids Hsize) as [_ Hok].
  fold found in Hok. unfold obj in *.
  destruct (Hok Hfound Hpriced common Hc)
    as (c & H1 & H2 & H3 & H4 & H5 & H6 & H7 & H8 & H9 & H10).
  exists c. rewrite H6.
  split; [exact H1|]. split; [exact H2|]. split; [exact H3|].
  split; [exact H4|]. split; [exact H5|]. split; [exact Hnd|].
  split; [exact Hin|]. split; [exact H7|]. split; [exact H8|].
  split; [exact H9 | exact H10].
Qed.

(** The comparison of the two demo products. *)
Example compareProducts_demo :
  result_map
    (fun c => (priceRange c, map fst (features c), categories c, availability c))
    (returned (ProductService.compareProducts host (vstr_ids ["1"; "2"]) t0 seeded))
  = Ok (mkPriceRange (Fin (2999 # 100)) (Fin (45 # 1)) (Fin (7499 # 200)),
        ["Material"],
        [VStr "Electronics"; VStr "Clothing"],
        mkAvailability 2 0).
Proof. vm_compute. reflexivity. Qed.

(** ** C7: discount boundary *)

(** C7: let a payload be valid but for its discount: its title and
    description are strings of at least 3 and 10 characters once trimmed,
    its shop is named, its two dates are given, and where they are dates the
    end is after the start and after now.  Then [createOffer] with discount 100
    returns the new identifier and appends to the offers a record with that
    identifier and the discount 100; with discount 101 or -1 it throws the
    error about the discount and the offers are as they were. *)
Theorem C7_discount_boundary
  (rt : Runtime) (ls : LocalStorage) (offerData : obj) (newId : string) (now : Z)
  (Hvalid : otherwise_valid rt now offerData) :
  let createOffer (discount : Z) :=
    OfferService.createOffer rt
      (obj_set "discount" (num_of_Z discount) offerData) newId now ls in
  (returned (createOffer 100%Z) = Ok (VStr newId)
   /\ exists record,
        getItem offers (storage_after (createOffer 100%Z))
        = JSON_items (getItem offers ls) ++ [record]
        /\ lookup "id" record = VStr newId
        /\ lookup "discount" record = num_of_Z 100)
  /\ (returned (createOffer 101%Z) = Throw discount_error
      /\ getItem offers (storage_after (createOffer 101%Z)) = getItem offers ls)
  /\ (returned (createOffer (-1)%Z) = Throw discount_error
      /\ getItem offers (storage_after (createOffer (-1)%Z)) = getItem offers ls).
Proof.
  intros createOffer. subst createOffer. cbv beta.
  rewrite !createOffer_run.
  rewrite !(validateOfferData_otherwise_valid rt now offerData _ Hvalid)
    by reflexivity.
  assert (H100 : lt rt (num_of_Z 100) zero || gt rt (num_of_Z 100) (num_of_Z 100)
                 = false) by reflexivity.
  assert (H101 : lt rt (num_of_Z 101) zero || gt rt (num_of_Z 101) (num_of_Z 100)
                 = true) by reflexivity.
  assert (Hneg : lt rt (num_of_Z (-1)) zero || gt rt (num_of_Z (-1)) (num_of_Z 100)
                 = true) by reflexivity.
  rewrite H100, H101, Hneg. cbn [throw_if].
  split; [|split; split; reflexivity].
  split; [now rewrite create_run|].
  rewrite create_stores. eexists. split; [reflexivity|]. split.
  - apply created_record_id.
  - rewrite created_record_keeps; try reflexivity.
    + rewrite spread_keeps by reflexivity. now rewrite lookup_obj_set_same.
    + rewrite spread_keeps by reflexivity. rewrite lookup_obj_set_same.
      discriminate.
Qed.

(** C7 for the payload [sale] on the demo data. *)
Lemma C7_discount_boundary_witness :
  let createOffer (discount : Z) :=
    OfferService.createOffer host
      (obj_set "discount" (num_of_Z discount) (sale VUndef)) "o1" t0 seeded in
  (returned (createOffer 100%Z) = Ok (VStr "o1")
   /\ exists record,
        getItem offers (storage_after (createOffer 100%Z))
        = JSON_items (getItem offers seeded) ++ [record]
        /\ lookup "id" record = VStr "o1"
        /\ lookup "discount" record = num_of_Z 100)
  /\ (returned (createOffer 101%Z) = Throw discount_error
      /\ getItem offers (storage_after (createOffer 101%Z)) = getItem offers seeded)
  /\ (returned (createOffer (-1)%Z) = Throw discount_error
      /\ getItem offers (storage_after (createOffer (-1)%Z)) = getItem offers seeded).
Proof.
  apply (C7_discount_boundary host seeded (sale VUndef) "o1" t0).
  unfold otherwise_valid. split; [|split; [|split; [|split; [|split; [|split]]]]].
  - exists "Winter Sale". split; [reflexivity | vm_compute; lia].
  - exists "Discount on all winter items". split; [reflexivity | vm_compute; lia].
  - reflexivity.
  - reflexivity.
  - reflexivity.
  - intros validFrom validTo Hfrom Hto. vm_compute in Hfrom, Hto.
    injection Hfrom as <-. injection Hto as <-. reflexivity.
  - intros validTo Hto. vm_compute in Hto. injection Hto as <-. reflexivity.
Defined.

(** ** C8: sort order *)

Lemma getProducts_run (rt : Runtime) (filters : obj) (ls : LocalStorage) :
  returned (ProductService.getProducts rt filters ls)
  = ProductService.sortProducts rt
      (apply_filters rt (with_isActive filters) (getItem products ls))
      (or_else (lookup "sortBy" filters) (VStr "name")).
Proof. reflexivity. Qed.

Lemma by_price_decides (rt : Runtime) (x y : obj) :
  has_price rt x -> has_price rt y ->
  exists n, by_number_asc rt "price" x y = Ok n
            /\ (positive n = true -> price_le rt y x)
            /\ (positive n = false -> price_le rt x y).
Proof.
  intros [a Ha] [b Hb]. unfold by_number_asc, js_sub, price_le.
  rewrite Ha, Hb. exists (Fin (a - b)). cbn [num_sub positive].
  split; [reflexivity|]. split; intros H.
  - apply Qltb_0_lt in H. apply Qlt_le_weak.
    apply (Qplus_lt_l _ _ (- b)). now rewrite Qplus_opp_r.
  - apply Qltb_0_le in H.
    apply (Qplus_le_l _ _ (- b)). now rewrite Qplus_opp_r.
Qed.

Lemma by_creation_decides (rt : Runtime) (x y : obj) :
  has_creation_time rt x -> has_creation_time rt y ->
  exists n, by_date_desc rt "createdAt" x y = Ok n
            /\ (positive n = true -> created_ge rt y x)
            /\ (positive n = false -> created_ge rt x y).
Proof.
  intros [a Ha] [b Hb]. unfold by_date_desc, created_ge.
  rewrite Ha, Hb. exists (Fin (inject_Z (b - a))). cbn [date_sub positive].
  split; [reflexivity|]. split; intros H.
  - apply Qltb_0_lt in H. change 0%Q with (inject_Z 0) in H.
    rewrite <- Zlt_Qlt in H. lia.
  - apply Qltb_0_le in H. change 0%Q with (inject_Z 0) in H.
    rewrite <- Zle_Qle in H. lia.
Qed.

(** C8 at a product without a price: three lamps that carry the sort
    key are created with the prices 3, 2 and 1, and [updateProduct] of the
    second one with [{price: undefined}] succeeds and removes its price.  The
    listing by 'price_low' then holds all three, the price 3 before the
    price 1; and in whatever order a sort returned the three, the list would
    not be non-decreasing in price. *)
Lemma C8_price_order_broken_by_missing_price :
  let a := ProductService.createProduct host (listed_lamp 3) "a" t0 seeded in
  let b := ProductService.createProduct host (listed_lamp 2) "b" t0 (storage_after a) in
  let c := ProductService.createProduct host (listed_lamp 1) "c" t0 (storage_after b) in
  let cleared :=
    ProductService.updateProduct host (VStr "b") [("price", VUndef)] (t0 + day)
      (storage_after c) in
  let listing :=
    ProductService.getProducts host [("sortBy", VStr "price_low")]
      (storage_after cleared) in
  returned a = Ok (VStr "a")
  /\ returned b = Ok (VStr "b")
  /\ returned c = Ok (VStr "c")
  /\ returned cleared = Ok tt
  /\ result_map ids (returned listing) = Ok (vstr_ids ["a"; "b"; "c"])
  /\ result_map (map (lookup "price")) (returned listing)
     = Ok [num_of_Z 3; VUndef; num_of_Z 1]
  /\ forall l, Permutation (listed listing) l -> ~ Sorted (price_le host) l.
Proof.
  cbv zeta. repeat split; try (vm_compute; reflexivity).
  match goal with |- forall l, Permutation ?l0 l -> _ => set (found := l0) end.
  apply (priceless_breaks_order host found (nth 1 found [])).
  - vm_compute. right. left. reflexivity.
  - vm_compute. reflexivity.
  - vm_compute. lia.
Qed.

(** C8 as amended: [getProducts({sortBy: 'price_low'})] selects the active
    stored products that carry the sort key themselves; when these all have
    a numeric price, it returns them, each once, in an order in which each
    record's price is at most the next one's.  Likewise, when the products
    selected under 'newest' all have a creation date, the call returns them
    in an order in which each record was created no earlier than the next
    one. *)
Theorem C8_sort_order (rt : Runtime) (ls : LocalStorage) :
  (Forall (has_price rt) (selected "price_low" ls) ->
   exists l,
     returned (ProductService.getProducts rt [("sortBy", VStr "price_low")] ls)
     = Ok l
     /\ Permutation (selected "price_low" ls) l
     /\ Sorted (price_le rt) l)
  /\
  (Forall (has_creation_time rt) (selected "newest" ls) ->
   exists l,
     returned (ProductService.getProducts rt [("sortBy", VStr "newest")] ls)
     = Ok l
     /\ Permutation (selected "newest" ls) l
     /\ Sorted (created_ge rt) l).
Proof.
  assert (Hsel : forall key,
             apply_filters rt (with_isActive [("sortBy", VStr key)])
               (getItem products ls)
             = selected key ls).
  { intros key. rewrite apply_filters_passes. apply filter_ext_all.
    intros p. now apply passes_one_field. }
  split; intros Htyped; rewrite getProducts_run, Hsel.
  - destruct (Array_sort_sorted (by_number_asc rt "price") (has_price rt)
                (price_le rt) (by_price_decides rt) _ Htyped)
      as [s [Hs [Hsorted [_ Hperm]]]].
    exists s. split; [exact Hs|]. split; assumption.
  - destruct (Array_sort_sorted (by_date_desc rt "createdAt")
                (has_creation_time rt) (created_ge rt)
                (by_creation_decides rt) _ Htyped)
      as [s [Hs [Hsorted [_ Hperm]]]].
    exists s. split; [exact Hs|]. split; assumption.
Qed.

(** The amended C8 on three stored products that carry the sort key
    'price_low', and on three that carry 'newest': each listing holds the
    three. *)
Lemma C8_sort_order_witness :
  (exists l,
      returned (ProductService.getProducts host [("sortBy", VStr "price_low")]
                  (tagged_storage "price_low"))
      = Ok l
      /\ Permutation (selected "price_low" (tagged_storage "price_low")) l
      /\ Sorted (price_le host) l)
  /\
  (exists l,
      returned (ProductService.getProducts host [("sortBy", VStr "newest")]
                  (tagged_storage "newest"))
      = Ok l
      /\ Permutation (selected "newest" (tagged_storage "newest")) l
      /\ Sorted (created_ge host) l)
  /\ List.length (selected "price_low" (tagged_storage "price_low")) = 3%nat
  /\ List.length (selected "newest" (tagged_storage "newest")) = 3%nat.
Proof.
  split; [|split; [|split; reflexivity]].
  - apply (proj1 (C8_sort_order host (tagged_storage "price_low"))).
    repeat constructor; eexists; vm_compute; reflexivity.
  - apply (proj2 (C8_sort_order host (tagged_storage "newest"))).
    repeat constructor; eexists; vm_compute; reflexivity.
Defined.

(** The order computed on three products that carry the sort key as a
    property of their own, and on the demo data, whose products do not. *)
Example getProducts_price_low_order :
  result_map ids
    (returned (ProductService.getProducts host [("sortBy", VStr "price_low")]
                 (tagged_storage "price_low")))
  = Ok (vstr_ids ["b"; "c"; "a"])
  /\ result_map ids
       (returned (ProductService.getProducts host [("sortBy", VStr "newest")]
                    (tagged_storage "newest")))
     = Ok (vstr_ids ["b"; "c"; "a"])
  /\ returned (ProductService.getProducts host [("sortBy", VStr "price_low")] seeded)
     = Ok [].
Proof. vm_compute. repeat split; reflexivity. Qed.

(** ** C9: required fields that are falsy *)

(** C9, first part, at the payload [{discount: 0}]: [createOffer] fails, but
    the message names the title, the first required field that is missing. *)
Lemma C9_discount_zero_reports_title_first :
  returned (OfferService.createOffer host [("discount", zero)] "o1" t0 seeded)
  = Throw (Error "title is required")
  /\ returned (OfferService.createOffer host [("discount", zero)] "o1" t0 seeded)
     <> Throw (Error "discount is required").
Proof. vm_compute. split; [reflexivity | discriminate]. Qed.

(** C9 as amended.  Offers: when the title and the description of the payload
    are truthy (they are required before the discount) and the discount is
    the number 0, [createOffer] throws "discount is required" and stores
    nothing.  Products: a payload that is valid stays valid when its price
    and stock are set to 0, and [createProduct] then returns the new
    identifier. *)
Theorem C9_required_field_checks
  (rt : Runtime) (ls : LocalStorage) (newId : string) (now : Z)
  (offerData : obj) (q : Q) (productData : obj)
  (Htitle : truthy (lookup "title" offerData) = true)
  (Hdescription : truthy (lookup "description" offerData) = true)
  (Hdiscount : lookup "discount" offerData = VNum (Fin q))
  (Hzero : (q == 0)%Q)
  (Hproduct : ProductService.validateProductData rt productData false = Ok tt) :
  OfferService.createOffer rt offerData newId now ls
  = (Throw (Error "discount is required"), ls)
  /\ let zeroed := obj_set "stock" zero (obj_set "price" zero productData) in
     ProductService.validateProductData rt zeroed false = Ok tt
     /\ returned (ProductService.createProduct rt zeroed newId now ls)
        = Ok (VStr newId).
Proof.
  split.
  - rewrite createOffer_run. unfold OfferService.validateOfferData.
    cbn [require_fields]. rewrite Htitle, Hdescription, Hdiscount.
    cbn [negb truthy]. apply Qeq_bool_iff in Hzero. rewrite Hzero. reflexivity.
  - intros zeroed.
    assert (Hz : ProductService.validateProductData rt zeroed false = Ok tt).
    { subst zeroed. unfold ProductService.validateProductData in *.
      cbn [require_fields] in *. lookups.
      destruct (strict_eq (lookup "name" productData) VUndef
                || strict_eq (lookup "name" productData) VNull);
        [discriminate Hproduct|].
      destruct (strict_eq (lookup "description" productData) VUndef
                || strict_eq (lookup "description" productData) VNull);
        [discriminate Hproduct|].
      destruct (strict_eq (lookup "price" productData) VUndef
                || strict_eq (lookup "price" productData) VNull);
        [discriminate Hproduct|].
      destruct (strict_eq (lookup "category" productData) VUndef
                || strict_eq (lookup "category" productData) VNull);
        [discriminate Hproduct|].
      destruct (strict_eq (lookup "shopId" productData) VUndef
                || strict_eq (lookup "shopId" productData) VNull);
        [discriminate Hproduct|].
      destruct (strict_eq (lookup "stock" productData) VUndef
                || strict_eq (lookup "stock" productData) VNull);
        [discriminate Hproduct|].
      cbn [strict_eq zero num_of_Z orb rbind] in *.
      destruct (check_min_length (lookup "name" productData) 2 _) as [[]|e];
        [|discriminate Hproduct].
      cbn [rbind] in *.
      destruct (check_min_length (lookup "description" productData) 10 _) as [[]|e];
        [|discriminate Hproduct].
      reflexivity. }
    split; [exact Hz|].
    rewrite createProduct_run, Hz, create_run. reflexivity.
Qed.

(** The amended C9 for the payloads [sale] with discount 0 and [lamp]. *)
Lemma C9_required_field_checks_witness :
  OfferService.createOffer host (sale zero) "o1" t0 seeded
  = (Throw (Error "discount is required"), seeded)
  /\ let zeroed := obj_set "stock" zero (obj_set "price" zero lamp) in
     ProductService.validateProductData host zeroed false = Ok tt
     /\ returned (ProductService.createProduct host zeroed "p1" t0 seeded)
        = Ok (VStr "p1").
Proof.
  pose proof (C9_required_field_checks host seeded "o1" t0 (sale zero) 0 lamp
                eq_refl eq_refl eq_refl (Qeq_refl 0) eq_refl) as [Ho _].
  pose proof (C9_required_field_checks host seeded "p1" t0 (sale zero) 0 lamp
                eq_refl eq_refl eq_refl (Qeq_refl 0) eq_refl) as [_ Hp].
  exact (conj Ho Hp).
Defined.

(** ** C10: reserved fields on create *)




(** * Further properties of the code *)

(** ** FirebaseService *)

Lemma same_catalog_refl (ls : LocalStorage) : same_catalog ls ls.
Proof. split; reflexivity. Qed.

Lemma lookup_permutation (k : string) (o1 o2 : obj) :
  Permutation o1 o2 -> NoDup (map fst o1) -> lookup k o1 = lookup k o2.
Proof.
  induction 1 as [|[k' v] l1 l2 Hp IH|[k1 v1] [k2 v2] l|l1 l2 l3 H12 IH12 H23 IH23];
    intros Hnd.
  - reflexivity.
  - cbn [lookup]. inversion Hnd; subst.
    destruct (String.eqb k k'); [reflexivity | now apply IH].
  - cbn [lookup]. cbn [map fst] in Hnd. inversion Hnd as [|? ? Hnotin _]; subst.
    destruct (String.eqb k k2) eqn:E2, (String.eqb k k1) eqn:E1; try reflexivity.
    apply String.eqb_eq in E1, E2. subst k1 k2. exfalso. apply Hnotin. now left.
  - rewrite IH12 by assumption. apply IH23.
    apply (Permutation_NoDup (l := map fst l1)); [|assumption].
    now apply Permutation_map.
Qed.

Lemma forallb_permutation {A} (f : A -> bool) (l1 l2 : list A) :
  Permutation l1 l2 -> forallb f l1 = forallb f l2.
Proof.
  induction 1 as [|x l1 l2 Hp IH|x y l|l1 l2 l3 H12 IH12 H23 IH23];
    cbn [forallb].
  - reflexivity.
  - now rewrite IH.
  - destruct (f x), (f y); reflexivity.
  - now rewrite IH12.
Qed.

(** X1: [query] returns, in storage order, exactly the stored records that
    pass every filter whose value is given (not [undefined], [null] or the
    empty string); it leaves the three collections and the current-user
    entry as they were; and the order in which the filter object lists its
    keys does not change the result. *)
Theorem X1_query_is_the_conjunction_of_its_filters
  (rt : Runtime) (c : collection) (filters : obj) (ls : LocalStorage) :
  returned (query rt c filters ls)
  = Ok (filter (passes rt filters) (getItem c ls))
  /\ same_catalog ls (storage_after (query rt c filters ls))
  /\ forall filters',
       NoDup (map fst filters) -> Permutation filters filters' ->
       returned (query rt c filters' ls) = returned (query rt c filters ls).
Proof.
  split; [rewrite query_run; now rewrite apply_filters_passes|].
  split; [rewrite query_run; apply same_catalog_refl|].
  intros filters' Hnd Hp. rewrite !query_run, !apply_filters_passes.
  unfold returned. cbn [fst].
  f_equal. apply filter_ext_all. intros p. unfold passes.
  rewrite (forallb_permutation _ (map fst filters') (map fst filters))
    by (apply Permutation_sym; now apply Permutation_map).
  generalize (map fst filters). intros keys.
  induction keys as [|key keys IH]; cbn [forallb]; [reflexivity|].
  now rewrite IH, (lookup_permutation key filters filters').
Qed.

(** X1 on the demo data: the active products of shop "1", with the two
    filter keys in either order. *)
Lemma X1_query_witness :
  let filters := [("shopId", VStr "1"); ("isActive", VBool true)] in
  let swapped := [("isActive", VBool true); ("shopId", VStr "1")] in
  returned (query host products filters seeded)
  = Ok (filter (passes host filters) (getItem products seeded))
  /\ same_catalog seeded (storage_after (query host products filters seeded))
  /\ returned (query host products swapped seeded)
     = returned (query host products filters seeded)
  /\ List.length (listed (query host products filters seeded)) = 1%nat.
Proof.
  destruct (X1_query_is_the_conjunction_of_its_filters host products
              [("shopId", VStr "1"); ("isActive", VBool true)] seeded)
    as [Hreturned [Hsame Horder]].
  split; [exact Hreturned|]. split; [exact Hsame|]. split; [|reflexivity].
  apply Horder.
  - repeat constructor; cbn; intuition discriminate.
  - apply perm_swap.
Defined.

Lemma update_first_some (id : value) (patch : obj) (items : list obj) :
  (exists items', update_first id patch items = Some items')
  <-> existsb (fun item => strict_eq (lookup "id" item) id) items = true.
Proof.
  induction items as [|item rest IH]; simpl.
  - split; [intros [? H]; discriminate | discriminate].
  - destruct (strict_eq (lookup "id" item) id); simpl.
    + split; [reflexivity | intros _; eexists; reflexivity].
    + rewrite <- IH. destruct (update_first id patch rest) as [rest'|].
      * split; intros _; eexists; reflexivity.
      * split; intros [? H]; discriminate.
Qed.

Lemma update_absent (rt : Runtime) (c : collection) (id : value) (data : obj)
  (now : Z) (ls : LocalStorage) :
  has_id c id ls = false ->
  update rt c id data now ls = (Throw not_found, ls).
Proof.
  intros Habs. rewrite update_run. unfold has_id in Habs.
  set (patch := spread data _).
  pose proof (update_first_some id patch (getItem c ls)) as H.
  destruct (update_first id patch (getItem c ls)) as [items'|]; [|reflexivity].
  assert (Hex : existsb (fun item => strict_eq (lookup "id" item) id) (getItem c ls) = true)
    by (apply H; eexists; reflexivity).
  congruence.
Qed.

(** X2: [update] succeeds exactly when some stored record of the collection
    has the identifier; otherwise it throws "Document not found" and the
    three collections and the current-user entry are as they were. *)
Theorem X2_update_needs_a_stored_record
  (rt : Runtime) (c : collection) (id : value) (data : obj) (now : Z)
  (ls : LocalStorage) :
  (returned (update rt c id data now ls) = Ok tt <-> has_id c id ls = true)
  /\ (has_id c id ls = false ->
      returned (update rt c id data now ls) = Throw not_found
      /\ same_catalog ls (storage_after (update rt c id data now ls))).
Proof.
  rewrite update_run. unfold has_id.
  set (patch := spread data _).
  pose proof (update_first_some id patch (getItem c ls)) as H.
  destruct (update_first id patch (getItem c ls)) as [items'|]; unfold returned; simpl.
  - assert (Hex : existsb (fun item => strict_eq (lookup "id" item) id) (getItem c ls) = true)
      by (apply H; eexists; reflexivity).
    split; [split; auto | congruence].
  - split; [|intros _; split; [reflexivity | apply same_catalog_refl]].
    split; [discriminate|]. intros Hex. apply H in Hex. destruct Hex as [? Hex].
    discriminate.
Qed.

(** X2 on the demo data: product "1" is stored, no product "nope" is. *)
Lemma X2_update_witness :
  let data := [("stock", num_of_Z 7)] in
  returned (update host products (VStr "1") data (t0 + day) seeded) = Ok tt
  /\ returned (update host products (VStr "nope") data (t0 + day) seeded)
     = Throw not_found
  /\ same_catalog seeded
       (storage_after (update host products (VStr "nope") data (t0 + day) seeded)).
Proof.
  split.
  - apply (proj1 (X2_update_needs_a_stored_record host products (VStr "1")
                    [("stock", num_of_Z 7)] (t0 + day) seeded)).
    reflexivity.
  - apply (proj2 (X2_update_needs_a_stored_record host products (VStr "nope")
                    [("stock", num_of_Z 7)] (t0 + day) seeded)).
    reflexivity.
Defined.

(** X3: what the writes keep of the catalog.  Among the collections of
    shops, products and offers, [update], whether it succeeds or throws,
    keeps the number of records of each, [create] adds one record to its own
    collection, and both leave the other two collections and the
    current-user entry as they were; and an [update] whose data names no
    [id] keeps the identifiers of its collection, record by record. *)
Theorem X3_writes_keep_the_catalog_records
  (rt : Runtime) (c c' : collection) (id : value) (data : obj) (newId : string)
  (now : Z) (ls : LocalStorage) :
  let updated := storage_after (update rt c id data now ls) in
  let created := storage_after (create rt c data newId now ls) in
  List.length (getItem c' updated) = List.length (getItem c' ls)
  /\ List.length (getItem c created) = S (List.length (getItem c ls))
  /\ (c' <> c ->
      getItem c' updated = getItem c' ls /\ getItem c' created = getItem c' ls)
  /\ supermall_current_user updated = supermall_current_user ls
  /\ supermall_current_user created = supermall_current_user ls
  /\ (JSON_items (getItem c ls) = getItem c ls -> has_key "id" data = false ->
      map (lookup "id") (getItem c updated) = map (lookup "id") (getItem c ls)).
Proof.
  intros updated created. split; [apply update_keeps_count|].
  split; [apply create_adds_one|].
  subst updated created. rewrite update_run, create_run.
  set (patch := spread data _).
  destruct (update_first id patch (getItem c ls)) as [items'|] eqn:E;
    unfold storage_after; cbn [snd];
    repeat split;
    try (rewrite getItem_setItem_other by assumption; reflexivity);
    try (rewrite current_user_setItem; reflexivity);
    try reflexivity.
  intros Hparsed Hid. rewrite getItem_setItem_same.
  apply patched_keeps_lookup with (patch := patch).
  - subst patch. unfold spread. cbn [fold_left fst snd].
    now rewrite has_key_obj_set_other.
  - exact Hparsed.
  - now apply update_first_patched in E.
Qed.

(** X3 on the demo data: product "1" is updated, a product is created, and
    the shops are looked at. *)
Lemma X3_writes_witness :
  let data := [("stock", num_of_Z 7)] in
  let updated := storage_after (update host products (VStr "1") data (t0 + day) seeded) in
  let created := storage_after (create host products data "p1" (t0 + day) seeded) in
  List.length (getItem shops updated) = List.length (getItem shops seeded)
  /\ List.length (getItem products created)
     = S (List.length (getItem products seeded))
  /\ getItem shops updated = getItem shops seeded
  /\ getItem shops created = getItem shops seeded
  /\ supermall_current_user updated = supermall_current_user seeded
  /\ supermall_current_user created = supermall_current_user seeded
  /\ map (lookup "id") (getItem products updated)
     = map (lookup "id") (getItem products seeded).
Proof.
  destruct (X3_writes_keep_the_catalog_records host products shops (VStr "1")
              [("stock", num_of_Z 7)] "p1" (t0 + day) seeded)
    as (H1 & H2 & H3 & H4 & H5 & H6).
  destruct H3 as [H3 H3']; [discriminate|].
  split; [exact H1|]. split; [exact H2|]. split; [exact H3|].
  split; [exact H3'|]. split; [exact H4|]. split; [exact H5|].
  apply H6; reflexivity.
Defined.

Lemma has_key_In (k : string) (o : obj) :
  has_key k o = true <-> In k (map fst o).
Proof.
  unfold has_key. induction o as [|[k' v] o IH]; simpl.
  - split; [discriminate | contradiction].
  - rewrite orb_true_iff, IH, String.eqb_eq. intuition congruence.
Qed.

Lemma has_key_not_In (k : string) (o : obj) :
  ~ In k (map fst o) -> has_key k o = false.
Proof.
  intros H. destruct (has_key k o) eqn:E; [|reflexivity].
  apply has_key_In in E. contradiction.
Qed.

(** A key of the patch reads, after the spread, as in the patch. *)
Lemma lookup_spread_present (k : string) (o patch : obj) :
  NoDup (map fst patch) -> has_key k patch = true ->
  lookup k (spread o patch) = lookup k patch.
Proof.
  unfold spread. revert o.
  induction patch as [|[k' v'] patch IH]; intros o Hnd Hk.
  - discriminate.
  - inversion Hnd as [|? ? Hnotin Hnd']; subst. cbn [fold_left fst snd lookup].
    destruct (String.eqb k k') eqn:E.
    + apply String.eqb_eq in E. subst k'.
      change (fold_left _ patch (obj_set k v' o)) with (spread (obj_set k v' o) patch).
      rewrite spread_keeps by now apply has_key_not_In.
      apply lookup_obj_set_same.
    + apply IH; [assumption|].
      unfold has_key in *. cbn [existsb fst] in Hk. now rewrite E in Hk.
Qed.

Lemma has_key_obj_set_same (k : string) (v : value) (o : obj) :
  has_key k (obj_set k v o) = true.
Proof.
  unfold has_key. induction o as [|[k' v'] o IH]; simpl.
  - now rewrite String.eqb_refl.
  - destruct (String.eqb k k') eqn:E; simpl.
    + now rewrite String.eqb_refl.
    + now rewrite E.
Qed.

Lemma NoDup_obj_set (k : string) (v : value) (o : obj) :
  NoDup (map fst o) -> NoDup (map fst (obj_set k v o)).
Proof.
  induction o as [|[k' v'] o IH]; simpl; intros Hnd.
  - constructor; [intros []|constructor].
  - inversion Hnd as [|? ? Hnotin Hnd']; subst.
    destruct (String.eqb k k') eqn:E; simpl.
    + apply String.eqb_eq in E. subst k'. now constructor.
    + constructor; [|now apply IH].
      intros Hin. apply has_key_In in Hin.
      rewrite has_key_obj_set_other in Hin by (rewrite String.eqb_sym; exact E).
      apply has_key_In in Hin. contradiction.
Qed.

Lemma stored_find (c : collection) (sid : string) (ls : LocalStorage) :
  stored c sid ls
  = find (fun p => strict_eq (lookup "id" p) (VStr sid)) (getItem c ls).
Proof. reflexivity. Qed.

Lemma parsed_In (items : list obj) (item : obj) :
  JSON_items items = items -> In item items -> JSON_props item = item.
Proof.
  unfold JSON_items. induction items as [|q items IH]; simpl; intros Hp Hin.
  - contradiction.
  - injection Hp as Hq Hrest. destruct Hin as [<-|Hin]; auto.
Qed.

(** After a successful [update] of a parsed collection by a patch without
    [id], the record stored under the identifier is the old one merged with
    the patch. *)
Lemma update_stored (rt : Runtime) (c : collection) (sid : string) (data : obj)
  (now : Z) (ls : LocalStorage) (item : obj) :
  JSON_items (getItem c ls) = getItem c ls ->
  has_key "id" data = false ->
  stored c sid ls = Some item ->
  update rt c (VStr sid) data now ls
  = (Ok tt, storage_after (update rt c (VStr sid) data now ls))
  /\ stored c sid (storage_after (update rt c (VStr sid) data now ls))
     = Some (JSON_props
               (spread item (obj_set "updatedAt" (VStr (toISOString rt now)) data))).
Proof.
  intros Hparsed Hid Hst. rewrite update_run.
  change (spread data [("updatedAt", VStr (toISOString rt now))])
    with (obj_set "updatedAt" (VStr (toISOString rt now)) data).
  set (patch := obj_set "updatedAt" (VStr (toISOString rt now)) data).
  assert (Hidp : has_key "id" patch = false).
  { subst patch. rewrite has_key_obj_set_other by reflexivity. assumption. }
  destruct (update_first (VStr sid) patch (getItem c ls)) as [items'|] eqn:E.
  - destruct (update_first_stored sid patch _ _ Hidp Hparsed E) as [item' [H1 H2]].
    rewrite stored_find in Hst. rewrite Hst in H1. injection H1 as <-.
    split; [reflexivity|].
    unfold storage_after. cbn [snd]. rewrite stored_find, getItem_setItem_same.
    exact H2.
  - exfalso.
    assert (Hex : existsb (fun p => strict_eq (lookup "id" p) (VStr sid)) (getItem c ls) = true).
    { rewrite stored_find in Hst. apply find_some in Hst.
      apply existsb_exists. exists item. exact Hst. }
    apply (update_first_some (VStr sid) patch) in Hex. destruct Hex as [? Hex].
    congruence.
Qed.

(** X4: update, then read.  On a collection as [JSON.parse] returns it,
    [update] of a stored record by a patch with distinct keys and no [id]
    succeeds; the record then read under the identifier has the current
    instant as [updatedAt], the patch's value (as JSON stores it) under every
    other key the patch gives a value, and its old value under every key the
    patch does not name. *)
Theorem X4_update_then_read
  (rt : Runtime) (c : collection) (sid : string) (data : obj) (now : Z)
  (ls : LocalStorage) (item : obj)
  (Hparsed : JSON_items (getItem c ls) = getItem c ls)
  (Hsid : sid <> "")
  (Hstored : stored c sid ls = Some item)
  (Hkeys : NoDup (map fst data))
  (Hid : has_key "id" data = false) :
  let ls' := storage_after (update rt c (VStr sid) data now ls) in
  update rt c (VStr sid) data now ls = (Ok tt, ls')
  /\ exists record,
       read c (VStr sid) ls' = (Ok (VObj record), ls')
       /\ lookup "updatedAt" record = VStr (toISOString rt now)
       /\ (forall k, String.eqb k "updatedAt" = false ->
             lookup k data <> VUndef ->
             lookup k record = JSON_value (lookup k data))
       /\ (forall k, String.eqb k "updatedAt" = false ->
             has_key k data = false ->
             lookup k record = lookup k item).
Proof.
  intros ls'.
  destruct (update_stored rt c sid data now ls item Hparsed Hid Hstored)
    as [Hok Hst'].
  fold ls' in Hok, Hst'. split; [exact Hok|].
  set (patch := obj_set "updatedAt" (VStr (toISOString rt now)) data) in *.
  assert (Hnd : NoDup (map fst patch)) by now apply NoDup_obj_set.
  exists (JSON_props (spread item patch)). split; [|split; [|split]].
  - rewrite read_stored by assumption. now rewrite Hst'.
  - assert (Hu : lookup "updatedAt" (spread item patch)
                 = VStr (toISOString rt now)).
    { rewrite lookup_spread_present;
        [apply lookup_obj_set_same | assumption | apply has_key_obj_set_same]. }
    rewrite lookup_JSON_props; rewrite Hu; [reflexivity | discriminate].
  - intros k Hk Hdef.
    assert (Hpk : lookup k patch = lookup k data)
      by now apply lookup_obj_set_other.
    assert (Hhas : has_key k patch = true).
    { destruct (has_key k patch) eqn:Hh; [reflexivity|].
      apply lookup_absent in Hh. congruence. }
    assert (Hs : lookup k (spread item patch) = lookup k data)
      by (rewrite lookup_spread_present; assumption).
    rewrite lookup_JSON_props; rewrite Hs; [reflexivity | assumption].
  - intros k Hk Habs.
    apply patched_record_keeps.
    + subst patch. now rewrite has_key_obj_set_other.
    + apply (parsed_In (getItem c ls)); [assumption|].
      rewrite stored_find in Hstored. now apply find_some in Hstored.
Qed.

(** X4 on the demo data: shop "1" is renamed. *)
Lemma X4_update_then_read_witness :
  let data := [("name", VStr "Corner Books")] in
  let ls' := storage_after (update host shops (VStr "1") data (t0 + day) seeded) in
  update host shops (VStr "1") data (t0 + day) seeded = (Ok tt, ls')
  /\ exists record,
       read shops (VStr "1") ls' = (Ok (VObj record), ls')
       /\ lookup "updatedAt" record = VStr (toISOString host (t0 + day))
       /\ (forall k, String.eqb k "updatedAt" = false ->
             lookup k data <> VUndef ->
             lookup k record = JSON_value (lookup k data))
       /\ (forall k, String.eqb k "updatedAt" = false ->
             has_key k data = false ->
             lookup k record = lookup k (nth 0 (demoShops host t0) [])).
Proof.
  apply (X4_update_then_read host shops "1" [("name", VStr "Corner Books")]
           (t0 + day) seeded (nth 0 (demoShops host t0) []));
    try (vm_compute; reflexivity).
  - discriminate.
  - repeat constructor. intros [].
Defined.

(** ** Fetching one record *)

(** The view-count increment of a fetch: it returns, and without a stored
    record of the identifier the catalog entries are as they were. *)
Lemma increment_run (rt : Runtime) (c : collection) (id : value) (now : Z)
  (ls : LocalStorage) (patch : value -> obj) :
  let incr :=
    try_catch
      (record <- read c id ;;
       if truthy record then update rt c id (patch record) now else ret tt)
      (fun _ => ret tt) in
  returned (incr ls) = Ok tt
  /\ (has_id c id ls = false -> incr ls = (Ok tt, ls)).
Proof.
  intros incr. split; [apply try_catch_ret_ok|].
  intros Habs. subst incr. unfold try_catch, bind. rewrite read_run.
  match goal with |- context [truthy ?r] => destruct (truthy r) end;
    [|reflexivity].
  rewrite update_absent by assumption. reflexivity.
Qed.

Lemma getById_run (rt : Runtime) (c : collection) (id : value) (now : Z)
  (ls : LocalStorage) (record : value) :
  record
  = (if truthy id
     then match find (fun item => strict_eq (lookup "id" item) id) (getItem c ls) with
          | Some item => VObj item
          | None => VNull
          end
     else all_records c ls) ->
  (truthy record = false -> getById rt c id now ls = (Throw (missing c), ls))
  /\ (truthy record = true ->
      returned (getById rt c id now ls) = Ok record
      /\ (has_id c id ls = false -> getById rt c id now ls = (Ok record, ls))).
Proof.
  intros Hrec. unfold all_records in Hrec.
  pose proof (increment_run rt c id now ls (views_patch rt now)) as H.
  cbn zeta in H. destruct H as [H1 H2].
  destruct c; cbn [getById missing];
    unfold ShopService.getShopById, ProductService.getProductById,
      OfferService.getOfferById, ShopService.incrementShopViews,
      ProductService.incrementProductViews, OfferService.incrementOfferViews;
    (split; intros Hr; [|split; [|intros Habs]]);
    unfold bind at 1; rewrite read_run; rewrite <- Hrec; rewrite Hr;
    cbn [negb]; try reflexivity; unfold bind at 1.
  1, 3, 5: destruct (try_catch _ _ ls) as [[[]|e] ls'];
    [reflexivity | discriminate H1].
  all: rewrite (H2 Habs); reflexivity.
Qed.

(** X5: a fetch without an identifier.  Called with a falsy identifier
    (undefined, null, the empty string, 0, false, NaN), [getShopById],
    [getProductById] and [getOfferById] do not throw their "not found" error:
    each returns the array of all records of its collection, inactive ones
    included; and unless a stored record has that very identifier, the three
    collections and the current-user entry are as they were. *)
Theorem X5_fetch_without_id_returns_the_collection
  (rt : Runtime) (c : collection) (id : value) (now : Z) (ls : LocalStorage)
  (Hfalsy : truthy id = false) :
  returned (getById rt c id now ls) = Ok (all_records c ls)
  /\ (has_id c id ls = false ->
      same_catalog ls (storage_after (getById rt c id now ls))).
Proof.
  destruct (getById_run rt c id now ls (all_records c ls)) as [_ H].
  - now rewrite Hfalsy.
  - destruct (H eq_refl) as [Hreturned Hstorage].
    split; [exact Hreturned|]. intros Habs. rewrite (Hstorage Habs).
    apply same_catalog_refl.
Qed.

(** X5 on the demo data: [getShopById('')] returns both demo shops. *)
Lemma X5_fetch_without_id_witness :
  returned (getById host shops (VStr "") (t0 + day) seeded)
  = Ok (all_records shops seeded)
  /\ same_catalog seeded
       (storage_after (getById host shops (VStr "") (t0 + day) seeded))
  /\ List.length (getItem shops seeded) = 2%nat.
Proof.
  destruct (X5_fetch_without_id_returns_the_collection host shops (VStr "")
              (t0 + day) seeded eq_refl) as [Hreturned Hsame].
  split; [exact Hreturned|]. split; [apply Hsame; reflexivity | reflexivity].
Defined.

(** X6: a fetch by identifier.  For a truthy identifier that no stored
    record of the collection has, [getShopById], [getProductById] and
    [getOfferById] throw their "not found" error and the three collections
    and the current-user entry are as they were; for one that a stored
    record has, each returns the first stored record with that identifier,
    whether or not the record is active. *)
Theorem X6_fetch_by_id
  (rt : Runtime) (c : collection) (id : value) (now : Z) (ls : LocalStorage)
  (Htruthy : truthy id = true) :
  (has_id c id ls = false ->
   returned (getById rt c id now ls) = Throw (missing c)
   /\ same_catalog ls (storage_after (getById rt c id now ls)))
  /\ (has_id c id ls = true ->
      exists item,
        find (fun item => strict_eq (lookup "id" item) id) (getItem c ls)
        = Some item
        /\ returned (getById rt c id now ls) = Ok (VObj item)).
Proof.
  pose proof (getById_run rt c id now ls _ eq_refl) as H.
  rewrite Htruthy in H. destruct H as [Hnone Hsome]. unfold has_id.
  destruct (find (fun item => strict_eq (lookup "id" item) id) (getItem c ls))
    as [item|] eqn:E.
  - split.
    + intros Habs. apply find_some in E.
      assert (Hex : existsb (fun item => strict_eq (lookup "id" item) id)
                      (getItem c ls) = true)
        by (apply existsb_exists; exists item; exact E).
      congruence.
    + intros _. exists item. split; [reflexivity|]. now apply Hsome.
  - split.
    + intros _. rewrite (Hnone eq_refl).
      split; [reflexivity | apply same_catalog_refl].
    + intros Hex. apply existsb_exists in Hex. destruct Hex as [x [Hin Hx]].
      pose proof (find_none _ _ E x Hin) as Hn. cbv beta in Hn. congruence.
Qed.

(** X6 on the demo data: no product has the identifier "nope", and product
    "1" is found. *)
Lemma X6_fetch_by_id_witness :
  (returned (getById host products (VStr "nope") (t0 + day) seeded)
   = Throw (missing products)
   /\ same_catalog seeded
        (storage_after (getById host products (VStr "nope") (t0 + day) seeded)))
  /\ exists item,
       find (fun item => strict_eq (lookup "id" item) (VStr "1"))
         (getItem products seeded)
       = Some item
       /\ returned (getById host products (VStr "1") (t0 + day) seeded)
          = Ok (VObj item).
Proof.
  split.
  - apply (proj1 (X6_fetch_by_id host products (VStr "nope") (t0 + day) seeded
                    eq_refl)).
    reflexivity.
  - apply (proj2 (X6_fetch_by_id host products (VStr "1") (t0 + day) seeded
                    eq_refl)).
    reflexivity.
Defined.

(** ** Listings *)

(** X7: the price range.  When [getProductsByPriceRange(a, b)] returns, a
    stored product with a numeric price is listed exactly when it is active
    and its price lies between the bounds, both inclusive; but a bound of 0 is
    no bound at all, so a maximum of 0 lists products of every price. *)
Theorem X7_price_range_bounds
  (rt : Runtime) (a b : Q) (ls : LocalStorage) (l : list obj)
  (Hlisted : returned (ProductQueries.getProductsByPriceRange rt
                         (VNum (Fin a)) (VNum (Fin b)) ls) = Ok l)
  (p : obj) (q : Q) (Hprice : lookup "price" p = VNum (Fin q)) :
  In p l
  <-> In p (getItem products ls)
      /\ lookup "isActive" p = VBool true
      /\ (a == 0 \/ a <= q)%Q
      /\ (b == 0 \/ q <= b)%Q.
Proof.
  apply getProducts_listing in Hlisted.
  assert (Hin : In p l
                <-> In p (filter
                            (passes rt
                               (with_isActive
                                  [("priceRange",
                                    VObj [("min", VNum (Fin a));
                                          ("max", VNum (Fin b))])]))
                            (getItem products ls))).
  { split; intros H.
    - eapply Permutation_in; [apply Permutation_sym; exact Hlisted | exact H].
    - eapply Permutation_in; [exact Hlisted | exact H]. }
  rewrite Hin, filter_In. clear Hin Hlisted.
  assert (Hpass :
            passes rt
              (with_isActive
                 [("priceRange",
                   VObj [("min", VNum (Fin a)); ("max", VNum (Fin b))])]) p
            = (negb (negb (Qeq_bool a 0)) || Qle_bool a q)
              && (negb (negb (Qeq_bool b 0)) || Qle_bool q b)
              && active p).
  { unfold passes, with_isActive, spread, matches, ge, le, js_lt, active.
    cbn. rewrite Hprice. cbn. unfold Qltb. rewrite !negb_involutive.
    now rewrite andb_true_r. }
  rewrite Hpass, !andb_true_iff, !orb_true_iff, !negb_involutive, active_true.
  rewrite !Qeq_bool_iff, !Qle_bool_iff. tauto.
Qed.

(** X7 on the demo data, for prices between 10 and 50. *)
Lemma X7_price_range_bounds_witness :
  let l := listed (ProductQueries.getProductsByPriceRange host
                     (num_of_Z 10) (num_of_Z 50) seeded) in
  let p := nth 0 (demoProducts host t0) [] in
  In p l
  <-> In p (getItem products seeded)
      /\ lookup "isActive" p = VBool true
      /\ (inject_Z 10 == 0 \/ inject_Z 10 <= 2999 # 100)%Q
      /\ (inject_Z 50 == 0 \/ (2999 # 100) <= inject_Z 50)%Q.
Proof.
  apply (X7_price_range_bounds host (inject_Z 10) (inject_Z 50) seeded);
    vm_compute; reflexivity.
Defined.

(** X8: listings by one field.  When they return, [getShopsByCategory],
    [getShopsByFloor], [getProductsByCategory] and [getProductsByShop] hold,
    in some order, exactly the active stored records whose field is strictly
    equal to the argument (a floor stored as the text "3" is not on floor 3);
    for an argument that is undefined, null or the empty string they hold
    all active records. *)
Theorem X8_listings_by_one_field
  (rt : Runtime) (v : value) (ls : LocalStorage) (l : list obj) :
  (returned (ShopQueries.getShopsByCategory rt v ls) = Ok l ->
   Permutation (filter (active_with "category" v) (getItem shops ls)) l)
  /\ (returned (ShopQueries.getShopsByFloor rt v ls) = Ok l ->
      Permutation (filter (active_with "floor" v) (getItem shops ls)) l)
  /\ (returned (ProductQueries.getProductsByCategory rt v ls) = Ok l ->
      Permutation (filter (active_with "category" v) (getItem products ls)) l)
  /\ (returned (ProductQueries.getProductsByShop rt v ls) = Ok l ->
      Permutation (filter (active_with "shopId" v) (getItem products ls)) l).
Proof.
  repeat split; intros H;
    [ apply getShops_listing in H | apply getShops_listing in H
    | apply getProducts_listing in H | apply getProducts_listing in H ];
    (erewrite filter_ext_all; [exact H|]);
    intros p; symmetry; now apply passes_one_field.
Qed.

(** X8 on the demo data, for the shops of the category "Electronics". *)
Lemma X8_listings_by_one_field_witness :
  Permutation
    (filter (active_with "category" (VStr "Electronics")) (getItem shops seeded))
    (listed (ShopQueries.getShopsByCategory host (VStr "Electronics") seeded)).
Proof.
  apply (proj1 (X8_listings_by_one_field host (VStr "Electronics") seeded
                  (listed (ShopQueries.getShopsByCategory host
                             (VStr "Electronics") seeded)))).
  vm_compute. reflexivity.
Defined.

(** ** Search *)

Lemma is_white_lower (c : ascii) : is_white (lower_unit c) = is_white c.
Proof.
  destruct c as [b0 b1 b2 b3 b4 b5 b6 b7].
  destruct b0, b1, b2, b3, b4, b5, b6, b7; reflexivity.
Qed.

Lemma drop_white_lower (cs : list ascii) :
  drop_white (map lower_unit cs) = map lower_unit (drop_white cs).
Proof.
  induction cs as [|c cs IH]; [reflexivity|].
  cbn [map drop_white]. rewrite is_white_lower.
  destruct (is_white c); [exact IH | reflexivity].
Qed.

Lemma trim_toLowerCase (s : string) :
  trim (toLowerCase s) = toLowerCase (trim s).
Proof.
  unfold trim, toLowerCase.
  rewrite !list_ascii_of_string_of_list_ascii.
  now rewrite drop_white_lower, <- map_rev, drop_white_lower, <- map_rev.
Qed.

Lemma toLowerCase_empty (s : string) :
  String.eqb (toLowerCase s) "" = String.eqb s "".
Proof. destruct s; reflexivity. Qed.

(** Whether a query is blank can be read off its search term. *)
Lemma blank_searchTerm (query : string) :
  blank query = String.eqb (searchTerm query) "".
Proof.
  unfold blank, searchTerm. rewrite trim_toLowerCase, toLowerCase_empty.
  destruct query; reflexivity.
Qed.

(** X9: the searches ignore the case and the surrounding white space of the
    query.  Two queries with the same lower-cased, trimmed form give the same
    outcome of [searchShops], and of [searchProducts], on every storage: the
    same list, or the same exception. *)
Theorem X9_search_ignores_case_and_margins
  (rt : Runtime) (q1 q2 : string) (filters : obj) (ls : LocalStorage)
  (Hsame : trim (toLowerCase q1) = trim (toLowerCase q2)) :
  ShopQueries.searchShops rt q1 filters ls
  = ShopQueries.searchShops rt q2 filters ls
  /\ ProductQueries.searchProducts rt q1 filters ls
     = ProductQueries.searchProducts rt q2 filters ls.
Proof.
  unfold ShopQueries.searchShops, ProductQueries.searchProducts.
  rewrite !blank_searchTerm. unfold searchTerm. rewrite Hsame.
  split; reflexivity.
Qed.

(** X9 for the queries "  BAMBOO " and "bamboo" on the demo data. *)
Lemma X9_search_ignores_case_witness :
  ShopQueries.searchShops host "  BAMBOO " [] seeded
  = ShopQueries.searchShops host "bamboo" [] seeded
  /\ ProductQueries.searchProducts host "  BAMBOO " [] seeded
     = ProductQueries.searchProducts host "bamboo" [] seeded.
Proof.
  apply (X9_search_ignores_case_and_margins host "  BAMBOO " "bamboo" [] seeded).
  reflexivity.
Defined.

Lemma filter_throwing_ok (f : obj -> result bool) (l r : list obj) :
  filter_throwing f l = Ok r -> r = filter (fun x => hit (f x)) l.
Proof.
  revert r. induction l as [|x l IH]; cbn [filter_throwing filter]; intros r H.
  - now injection H as <-.
  - destruct (f x) as [keep|e]; cbn [rbind hit] in *; [|discriminate].
    destruct (filter_throwing f l) as [rest|e]; cbn [rbind] in *; [|discriminate].
    injection H as <-. rewrite (IH rest eq_refl). reflexivity.
Qed.

Lemma filter_throwing_throws (f : obj -> result bool) (l : list obj) (x : obj) :
  In x l -> f x = Throw TypeError ->
  (forall y e, f y = Throw e -> e = TypeError) ->
  filter_throwing f l = Throw TypeError.
Proof.
  intros Hin Hx Honly. induction l as [|y l IH]; [contradiction|].
  cbn [filter_throwing].
  destruct (f y) as [keep|e] eqn:Ey; cbn [rbind].
  - destruct Hin as [->|Hin]; [congruence|].
    rewrite (IH Hin). reflexivity.
  - now rewrite (Honly y e Ey).
Qed.

Lemma lowered_includes_throws (v : value) (term : string) (e : exn) :
  lowered_includes v term = Throw e -> e = TypeError.
Proof. destruct v; cbn; congruence. Qed.

Lemma or_lazy_throws (a b : result bool) (e : exn) :
  or_lazy a b = Throw e -> a = Throw e \/ b = Throw e.
Proof.
  unfold or_lazy. destruct a as [[]|e']; cbn [rbind]; intros H;
    [discriminate | now right | now left].
Qed.

Lemma shop_matches_throws (term : string) (shop : obj) (e : exn) :
  ShopQueries.shop_matches term shop = Throw e -> e = TypeError.
Proof.
  unfold ShopQueries.shop_matches. intros H.
  repeat (apply or_lazy_throws in H;
          destruct H as [H|H]; [now apply lowered_includes_throws in H|]).
  destruct (truthy (lookup "contact" shop)); [|discriminate].
  now apply lowered_includes_throws in H.
Qed.

Lemma searchShops_run (rt : Runtime) (query : string) (filters : obj)
  (ls : LocalStorage) (all : list obj) :
  returned (ShopService.getShops rt filters ls) = Ok all ->
  returned (ShopQueries.searchShops rt query filters ls)
  = if blank query then Ok all
    else filter_throwing (ShopQueries.shop_matches (searchTerm query)) all.
Proof.
  unfold ShopQueries.searchShops, bind, returned.
  destruct (ShopService.getShops rt filters ls) as [[l|e] ls']; cbn [fst];
    [|discriminate].
  intros H. injection H as ->. now destruct (blank query).
Qed.

Lemma searchProducts_run (rt : Runtime) (query : string) (filters : obj)
  (ls : LocalStorage) (all : list obj) :
  returned (ProductService.getProducts rt filters ls) = Ok all ->
  returned (ProductQueries.searchProducts rt query filters ls)
  = if blank query then Ok all
    else filter_throwing (ProductQueries.product_matches rt (searchTerm query)) all.
Proof.
  unfold ProductQueries.searchProducts, bind, returned.
  destruct (ProductService.getProducts rt filters ls) as [[l|e] ls']; cbn [fst];
    [|discriminate].
  intros H. injection H as ->. now destruct (blank query).
Qed.

(** X10: what a search finds.  When [searchShops] (or [searchProducts])
    returns, its result is a part of the listing [getShops] ([getProducts])
    gives for the same filters, in the listing's order, and it holds every
    listed record whose name contains the lower-cased, trimmed query after
    lower-casing. *)
Theorem X10_search_results
  (rt : Runtime) (query : string) (filters : obj) (ls : LocalStorage) :
  (forall found,
     returned (ShopQueries.searchShops rt query filters ls) = Ok found ->
     exists keep,
       found = filter keep (listed (ShopService.getShops rt filters ls))
       /\ forall shop name,
            lookup "name" shop = VStr name ->
            includes (toLowerCase name) (searchTerm query) = true ->
            keep shop = true)
  /\ (forall found,
        returned (ProductQueries.searchProducts rt query filters ls) = Ok found ->
        exists keep,
          found = filter keep (listed (ProductService.getProducts rt filters ls))
          /\ forall product name,
               lookup "name" product = VStr name ->
               includes (toLowerCase name) (searchTerm query) = true ->
               keep product = true).
Proof.
  split; intros found Hfound.
  - destruct (returned (ShopService.getShops rt filters ls)) as [all|e] eqn:Hall.
    + rewrite (searchShops_run rt query filters ls all Hall) in Hfound.
      unfold listed. unfold returned in Hall. rewrite Hall.
      destruct (blank query).
      * injection Hfound as <-. exists (fun _ => true).
        split; [symmetry; now apply filter_all_true | reflexivity].
      * apply filter_throwing_ok in Hfound.
        exists (fun shop => hit (ShopQueries.shop_matches (searchTerm query) shop)).
        split; [exact Hfound|]. intros shop name Hname Hinc.
        unfold ShopQueries.shop_matches. rewrite Hname. cbn [lowered_includes].
        rewrite Hinc. reflexivity.
    + exfalso. unfold ShopQueries.searchShops, bind, returned in *.
      destruct (ShopService.getShops rt filters ls) as [[l|e'] ls'];
        cbn [fst] in *; discriminate.
  - destruct (returned (ProductService.getProducts rt filters ls)) as [all|e] eqn:Hall.
    + rewrite (searchProducts_run rt query filters ls all Hall) in Hfound.
      unfold listed. unfold returned in Hall. rewrite Hall.
      destruct (blank query).
      * injection Hfound as <-. exists (fun _ => true).
        split; [symmetry; now apply filter_all_true | reflexivity].
      * apply filter_throwing_ok in Hfound.
        exists (fun product =>
                  hit (ProductQueries.product_matches rt (searchTerm query) product)).
        split; [exact Hfound|]. intros product name Hname Hinc.
        unfold ProductQueries.product_matches. rewrite Hname.
        cbn [lowered_includes]. rewrite Hinc. reflexivity.
    + exfalso. unfold ProductQueries.searchProducts, bind, returned in *.
      destruct (ProductService.getProducts rt filters ls) as [[l|e'] ls'];
        cbn [fst] in *; discriminate.
Qed.

(** X10 on the demo data, for the query "bamboo" among the products. *)
Lemma X10_search_results_witness :
  exists keep,
    listed (ProductQueries.searchProducts host "bamboo" [] seeded)
    = filter keep (listed (ProductService.getProducts host [] seeded))
    /\ forall product name,
         lookup "name" product = VStr name ->
         includes (toLowerCase name) (searchTerm "bamboo") = true ->
         keep product = true.
Proof.
  apply (proj2 (X10_search_results host "bamboo" [] seeded)).
  vm_compute. reflexivity.
Defined.

(** X11: a shop without an e-mail address breaks the search.  The shop
    validation asks for a contact but not for its e-mail address, while the
    search reads [contact.email.toLowerCase()]: whenever the listing holds a
    shop whose contact has no e-mail address and whose name, description and
    category do not contain the query, [searchShops] throws a [TypeError]
    instead of returning the other matches. *)
Theorem X11_search_fails_on_contact_without_email
  (rt : Runtime) (query : string) (filters : obj) (ls : LocalStorage)
  (all : list obj) (shop : obj) (name description category : string)
  (Hquery : blank query = false)
  (Hall : returned (ShopService.getShops rt filters ls) = Ok all)
  (Hshop : In shop all)
  (Hname : lookup "name" shop = VStr name)
  (Hdescription : lookup "description" shop = VStr description)
  (Hcategory : lookup "category" shop = VStr category)
  (Hname' : includes (toLowerCase name) (searchTerm query) = false)
  (Hdescription' : includes (toLowerCase description) (searchTerm query) = false)
  (Hcategory' : includes (toLowerCase category) (searchTerm query) = false)
  (Hcontact : truthy (lookup "contact" shop) = true)
  (Hemail : get_prop (lookup "contact" shop) "email" = VUndef) :
  returned (ShopQueries.searchShops rt query filters ls) = Throw TypeError.
Proof.
  rewrite (searchShops_run rt query filters ls all Hall), Hquery.
  apply (filter_throwing_throws _ all shop Hshop).
  - unfold ShopQueries.shop_matches.
    rewrite Hname, Hdescription, Hcategory, Hcontact, Hemail.
    cbn [lowered_includes]. rewrite Hname', Hdescription', Hcategory'.
    reflexivity.
  - intros y e. apply shop_matches_throws.
Qed.

(** X11 on the demo data: [createShop] accepts the kiosk, whose contact is a
    phone number only, and the search for "bamboo" then throws. *)
Lemma X11_search_fails_witness :
  let created := ShopService.createShop host kiosk "s1" t0 seeded in
  returned created = Ok (VStr "s1")
  /\ returned (ShopQueries.searchShops host "bamboo" [] (storage_after created))
     = Throw TypeError.
Proof.
  split; [vm_compute; reflexivity|].
  apply (X11_search_fails_on_contact_without_email host "bamboo" []
           (storage_after (ShopService.createShop host kiosk "s1" t0 seeded))
           (listed (ShopService.getShops host []
                      (storage_after
                         (ShopService.createShop host kiosk "s1" t0 seeded))))
           (JSON_props
              (kiosk ++ [("isActive", VBool true);
                         ("createdBy", VStr "anonymous");
                         ("stats", ShopService.initial_stats);
                         ("id", VStr "s1");
                         ("createdAt", VStr (toISOString host t0))]))
           "Key Kiosk" "Keys cut while you wait" "Services");
    try (vm_compute; reflexivity).
  vm_compute. tauto.
Defined.

(** ** Stock *)

(** What a successful [update] writes under a key of the patch. *)
Lemma update_writes (rt : Runtime) (c : collection) (sid : string) (data : obj)
  (now : Z) (ls : LocalStorage) (item : obj) (k : string) :
  JSON_items (getItem c ls) = getItem c ls ->
  stored c sid ls = Some item ->
  NoDup (map fst data) ->
  has_key "id" data = false ->
  String.eqb k "updatedAt" = false ->
  lookup k data <> VUndef ->
  returned (update rt c (VStr sid) data now ls) = Ok tt
  /\ exists record,
       stored c sid (storage_after (update rt c (VStr sid) data now ls))
       = Some record
       /\ lookup k record = JSON_value (lookup k data).
Proof.
  intros Hparsed Hstored Hkeys Hid Hk Hdef.
  destruct (update_stored rt c sid data now ls item Hparsed Hid Hstored)
    as [Hok Hst'].
  split; [now rewrite Hok|].
  set (patch := obj_set "updatedAt" (VStr (toISOString rt now)) data) in *.
  exists (JSON_props (spread item patch)). split; [exact Hst'|].
  assert (Hpk : lookup k patch = lookup k data)
    by now apply lookup_obj_set_other.
  assert (Hhas : has_key k patch = true).
  { destruct (has_key k patch) eqn:Hh; [reflexivity|].
    apply lookup_absent in Hh. congruence. }
  assert (Hs : lookup k (spread item patch) = lookup k data).
  { rewrite lookup_spread_present; [assumption | | assumption].
    now apply NoDup_obj_set. }
  rewrite lookup_JSON_props; rewrite Hs; [reflexivity | assumption].
Qed.

Lemma NoDup_keys3 (k1 k2 k3 : string) (v1 v2 v3 : value) :
  String.eqb k1 k2 = false -> String.eqb k1 k3 = false ->
  String.eqb k2 k3 = false ->
  NoDup (map fst [(k1, v1); (k2, v2); (k3, v3)]).
Proof.
  intros H12 H13 H23. apply String.eqb_neq in H12, H13, H23.
  cbn. repeat constructor; cbn; intuition congruence.
Qed.

(** X12: the stock outside the product validation.  [updateStock] refuses a
    quantity below zero, and the three collections and the current-user entry
    are then as they were; but it writes a fractional quantity to the stored
    product, which [updateProduct] refuses as "not a valid non-negative
    integer". *)
Theorem X12_updateStock_accepts_fractions
  (rt : Runtime) (sid : string) (q : Q) (now : Z) (ls : LocalStorage)
  (item : obj)
  (Hparsed : JSON_items (getItem products ls) = getItem products ls)
  (Hstored : stored products sid ls = Some item)
  (Hq : (0 <= q)%Q)
  (Hfraction : Number_isInteger (VNum (Fin q)) = false) :
  let ls' :=
    storage_after (ProductQueries.updateStock rt (VStr sid) (VNum (Fin q)) now ls) in
  returned (ProductQueries.updateStock rt (VStr sid) (VNum (Fin q)) now ls) = Ok tt
  /\ (exists record,
        stored products sid ls' = Some record
        /\ lookup "stock" record = VNum (Fin q))
  /\ returned (ProductService.updateProduct rt (VStr sid)
                 [("stock", VNum (Fin q))] now ls)
     = Throw (Error "Stock must be a valid non-negative integer")
  /\ forall quantity,
       lt rt quantity zero = true ->
       returned (ProductQueries.updateStock rt (VStr sid) quantity now ls)
       = Throw (Error "Stock quantity cannot be negative")
       /\ same_catalog ls
            (storage_after
               (ProductQueries.updateStock rt (VStr sid) quantity now ls)).
Proof.
  intros ls'. subst ls'.
  assert (Hlt : lt rt (VNum (Fin q)) zero = false).
  { unfold lt, js_lt, zero, num_of_Z. cbn. unfold Qltb.
    apply negb_false_iff. now apply Qle_bool_iff. }
  assert (Hrun : ProductQueries.updateStock rt (VStr sid) (VNum (Fin q)) now ls
                 = update rt products (VStr sid)
                     [("stock", VNum (Fin q));
                      ("stockUpdatedAt", VStr (toISOString rt now));
                      ("stockUpdatedBy", getCurrentUserId ls)] now ls).
  { unfold ProductQueries.updateStock. rewrite Hlt. reflexivity. }
  rewrite Hrun.
  destruct (update_writes rt products sid
              [("stock", VNum (Fin q));
               ("stockUpdatedAt", VStr (toISOString rt now));
               ("stockUpdatedBy", getCurrentUserId ls)] now ls item "stock"
              Hparsed Hstored) as [Hok [record [Hrec Hstock]]];
    try reflexivity.
  - now apply NoDup_keys3.
  - discriminate.
  - split; [exact Hok|]. split; [exists record; split; [exact Hrec | exact Hstock]|].
    split.
    + unfold ProductService.updateProduct, ProductService.validateProductData.
      cbn [lookup String.eqb Ascii.eqb Bool.eqb require_fields check_min_length
           truthy strict_eq negb andb rbind throw_if].
      rewrite Hfraction, orb_true_r. reflexivity.
    + intros quantity Hneg. unfold ProductQueries.updateStock.
      rewrite Hneg. split; [reflexivity | apply same_catalog_refl].
Qed.

(** X12 on the demo data: product "1" gets a stock of 5/2, and a stock of
    -1 is refused. *)
Lemma X12_updateStock_witness :
  let updated :=
    ProductQueries.updateStock host (VStr "1") (VNum (Fin (5 # 2))) (t0 + day)
      seeded in
  let refused :=
    ProductQueries.updateStock host (VStr "1") (num_of_Z (-1)) (t0 + day)
      seeded in
  returned updated = Ok tt
  /\ (exists record,
        stored products "1" (storage_after updated) = Some record
        /\ lookup "stock" record = VNum (Fin (5 # 2)))
  /\ returned (ProductService.updateProduct host (VStr "1")
                 [("stock", VNum (Fin (5 # 2)))] (t0 + day) seeded)
     = Throw (Error "Stock must be a valid non-negative integer")
  /\ returned refused = Throw (Error "Stock quantity cannot be negative")
  /\ same_catalog seeded (storage_after refused).
Proof.
  destruct (X12_updateStock_accepts_fractions host "1" (5 # 2) (t0 + day) seeded
              (nth 0 (demoProducts host t0) []))
    as (H1 & H2 & H3 & H4); try (vm_compute; reflexivity).
  - discriminate.
  - split; [exact H1|]. split; [exact H2|]. split; [exact H3|].
    apply H4. reflexivity.
Defined.

Lemma listed_products_active (rt : Runtime) (ls : LocalStorage)
  (all : list obj) (p : obj) :
  returned (ProductService.getProducts rt [] ls) = Ok all -> In p all ->
  In p (getItem products ls) /\ lookup "isActive" p = VBool true.
Proof.
  intros Hall Hin. apply getProducts_listing in Hall.
  apply (Permutation_in _ (Permutation_sym Hall)) in Hin.
  apply filter_In in Hin. destruct Hin as [Hin Hpass]. split; [exact Hin|].
  unfold passes, with_isActive, spread in Hpass. cbn in Hpass.
  rewrite andb_true_r in Hpass. now apply strict_eq_true_bool.
Qed.

Lemma stock_lists_run (rt : Runtime) (threshold : value) (ls : LocalStorage) :
  returned (ProductQueries.getLowStockProducts rt threshold ls)
  = result_map
      (filter (ProductQueries.low_stock rt
                 (if strict_eq threshold VUndef then num_of_Z 10 else threshold)))
      (returned (ProductService.getProducts rt [] ls))
  /\ returned (ProductQueries.getOutOfStockProducts rt ls)
     = result_map
         (filter (fun product => strict_eq (lookup "stock" product) zero))
         (returned (ProductService.getProducts rt [] ls)).
Proof.
  unfold ProductQueries.getLowStockProducts, ProductQueries.getOutOfStockProducts,
    bind, returned.
  destruct (ProductService.getProducts rt [] ls) as [[all|e] ls']; split;
    reflexivity.
Qed.

Lemma strict_eq_zero (v : value) :
  strict_eq v zero = true -> exists q, v = VNum (Fin q) /\ (q == 0)%Q.
Proof.
  destruct v as [| |b|[|q]|s|l|o]; cbn; try discriminate.
  intros H. exists q. split; [reflexivity|]. now apply Qeq_bool_iff.
Qed.

(** X13: the two stock reports.  When [getLowStockProducts(t)] and
    [getOutOfStockProducts()] return, both list stored, active products only;
    no product is on both lists; a product on the low-stock list with a
    numeric stock has a stock above 0 and at most [t]; a product on the
    out-of-stock list has the number 0 as its stock. *)
Theorem X13_stock_reports
  (rt : Runtime) (t : Q) (ls : LocalStorage) (low out : list obj)
  (Hlow : returned (ProductQueries.getLowStockProducts rt (VNum (Fin t)) ls)
          = Ok low)
  (Hout : returned (ProductQueries.getOutOfStockProducts rt ls) = Ok out) :
  (forall p, In p low \/ In p out ->
     In p (getItem products ls) /\ lookup "isActive" p = VBool true)
  /\ (forall p, In p low -> ~ In p out)
  /\ (forall p q, In p low -> lookup "stock" p = VNum (Fin q) ->
        (0 < q /\ q <= t)%Q)
  /\ (forall p, In p out ->
        exists q, lookup "stock" p = VNum (Fin q) /\ (q == 0)%Q).
Proof.
  destruct (stock_lists_run rt (VNum (Fin t)) ls) as [Rlow Rout].
  rewrite Rlow in Hlow. rewrite Rout in Hout. clear Rlow Rout.
  destruct (returned (ProductService.getProducts rt [] ls)) as [all|e] eqn:Hall;
    [|discriminate].
  cbn [result_map strict_eq] in Hlow, Hout.
  injection Hlow as <-. injection Hout as <-.
  assert (Hlow : forall p q,
             In p (filter (ProductQueries.low_stock rt (VNum (Fin t))) all) ->
             lookup "stock" p = VNum (Fin q) -> (0 < q /\ q <= t)%Q).
  { intros p q Hp Hq. apply filter_In in Hp. destruct Hp as [_ Hp].
    unfold ProductQueries.low_stock, le, gt, lt, js_lt in Hp. rewrite Hq in Hp.
    cbn in Hp. unfold Qltb in Hp. rewrite negb_involutive in Hp.
    apply andb_true_iff in Hp. destruct Hp as [H1 H2].
    apply Qle_bool_iff in H1. apply negb_true_iff in H2.
    split; [|exact H1]. apply Qnot_le_lt. intros Hle.
    apply Qle_bool_iff in Hle. unfold inject_Z in H2. congruence. }
  assert (Hout : forall p,
             In p (filter (fun product => strict_eq (lookup "stock" product) zero)
                     all) ->
             exists q, lookup "stock" p = VNum (Fin q) /\ (q == 0)%Q).
  { intros p Hp. apply filter_In in Hp. destruct Hp as [_ Hp].
    now apply strict_eq_zero. }
  split; [|split; [|split]].
  - intros p [Hp|Hp]; apply filter_In in Hp; destruct Hp as [Hp _];
      exact (listed_products_active rt ls all p Hall Hp).
  - intros p Hp Hp'. destruct (Hout p Hp') as [q [Hq Hz]].
    destruct (Hlow p q Hp Hq) as [Hpos _]. rewrite Hz in Hpos.
    now apply Qlt_irrefl in Hpos.
  - exact Hlow.
  - exact Hout.
Qed.

(** X13 on the demo data, for the threshold 25. *)
Lemma X13_stock_reports_witness :
  let low := listed (ProductQueries.getLowStockProducts host (num_of_Z 25) seeded) in
  let out := listed (ProductQueries.getOutOfStockProducts host seeded) in
  (forall p, In p low \/ In p out ->
     In p (getItem products seeded) /\ lookup "isActive" p = VBool true)
  /\ (forall p, In p low -> ~ In p out)
  /\ (forall p q, In p low -> lookup "stock" p = VNum (Fin q) ->
        (0 < q /\ q <= inject_Z 25)%Q)
  /\ (forall p, In p out ->
        exists q, lookup "stock" p = VNum (Fin q) /\ (q == 0)%Q).
Proof.
  apply (X13_stock_reports host (inject_Z 25) seeded); vm_compute; reflexivity.
Defined.

(** ** The stored form *)

Lemma JSON_value_defined (v : value) : v <> VUndef -> JSON_value v <> VUndef.
Proof. destruct v as [| |b|[|q]|s|l|o]; cbn; congruence. Qed.

(** Writing a value that was read back changes nothing. *)
Lemma JSON_value_idempotent (v : value) :
  JSON_value (JSON_value v) = JSON_value v.
Proof.
  revert v. fix IH 1. intros [| |b|[|q]|s|l|o]; try reflexivity.
  - cbn [JSON_value]. f_equal. rewrite map_map.
    induction l as [|x l IHl]; [reflexivity|].
    cbn [map]. f_equal; [|exact IHl].
    destruct x as [| |b|[|q]|s|l'|o'] eqn:Ex; try reflexivity.
    + rewrite <- Ex. rewrite (IH x). rewrite Ex. reflexivity.
    + rewrite <- Ex. rewrite (IH x). rewrite Ex. reflexivity.
  - rewrite !JSON_value_obj. f_equal.
    induction o as [|[k x] o IHo]; [reflexivity|].
    destruct x as [| |b|[|q]|s|l'|o'] eqn:Ex; try exact IHo;
      try (cbn [JSON_props JSON_value]; now rewrite IHo).
    + rewrite <- Ex.
      assert (Hx : x <> VUndef) by (rewrite Ex; discriminate).
      rewrite !JSON_props_cons_defined by auto using JSON_value_defined.
      now rewrite (IH x), IHo.
    + rewrite <- Ex.
      assert (Hx : x <> VUndef) by (rewrite Ex; discriminate).
      rewrite !JSON_props_cons_defined by auto using JSON_value_defined.
      now rewrite (IH x), IHo.
Qed.

Lemma JSON_props_idempotent (o : obj) : JSON_props (JSON_props o) = JSON_props o.
Proof.
  pose proof (JSON_value_idempotent (VObj o)) as H.
  rewrite !JSON_value_obj in H. now injection H.
Qed.

Lemma JSON_items_idempotent (items : list obj) :
  JSON_items (JSON_items items) = JSON_items items.
Proof.
  unfold JSON_items. rewrite map_map. apply map_ext.
  intros o. apply JSON_props_idempotent.
Qed.

Lemma parsed_setItem (c : collection) (items : list obj) (ls : LocalStorage) :
  parsed ls -> parsed (setItem c (JSON_items items) ls).
Proof.
  intros Hp c'. destruct c, c'; cbn [setItem getItem supermall_shops
    supermall_products supermall_offers];
    first [apply JSON_items_idempotent | apply (Hp shops)
          | apply (Hp products) | apply (Hp offers)].
Qed.

Lemma create_parsed (rt : Runtime) (c : collection) (data : obj)
  (newId : string) (now : Z) (ls : LocalStorage) :
  parsed ls -> parsed (storage_after (create rt c data newId now ls)).
Proof. intros Hp. rewrite create_run. now apply parsed_setItem. Qed.

Lemma update_parsed (rt : Runtime) (c : collection) (id : value) (data : obj)
  (now : Z) (ls : LocalStorage) :
  parsed ls -> parsed (storage_after (update rt c id data now ls)).
Proof.
  intros Hp. rewrite update_run.
  destruct (update_first id _ (getItem c ls)) as [items'|]; [|exact Hp].
  now apply parsed_setItem.
Qed.

(** X14: the storage stays in the form [JSON.parse] returns.  If every
    collection is in that form (no [undefined] property, no [NaN]), it still
    is after [create] and after [update], whether [update] succeeds or
    throws: whatever the payload holds, what is stored can be written and
    read again without change. *)
Theorem X14_writes_keep_the_stored_form
  (rt : Runtime) (c : collection) (id : value) (data : obj) (newId : string)
  (now : Z) (ls : LocalStorage)
  (Hparsed : parsed ls) :
  parsed (storage_after (create rt c data newId now ls))
  /\ parsed (storage_after (update rt c id data now ls)).
Proof.
  split; [now apply create_parsed | now apply update_parsed].
Qed.

(** X14 on the demo data, for a payload with an [undefined] and a [NaN]. *)
Lemma X14_writes_keep_the_stored_form_witness :
  let data := [("name", VUndef); ("price", VNum NaN)] in
  parsed (storage_after (create host products data "p1" t0 seeded))
  /\ parsed (storage_after (update host products (VStr "1") data t0 seeded)).
Proof.
  apply (X14_writes_keep_the_stored_form host products (VStr "1")
           [("name", VUndef); ("price", VNum NaN)] "p1" t0 seeded).
  intros c. destruct c; vm_compute; reflexivity.
Defined.

(** ** Shop statistics *)

Lemma length_filter_disjoint {A} (f g : A -> bool) (l : list A) :
  (forall x, f x = true -> g x = false) ->
  (List.length (filter f l) + List.length (filter g l) <= List.length l)%nat.
Proof.
  intros Hfg. induction l as [|x l IH]; cbn [filter]; [reflexivity|].
  destruct (f x) eqn:Ef.
  - rewrite (Hfg x Ef). cbn [List.length]. lia.
  - destruct (g x); cbn [List.length]; lia.
Qed.

Lemma length_filter_weaker {A} (f g : A -> bool) (l : list A) :
  (forall x, f x = true -> g x = true) ->
  (List.length (filter f l) <= List.length (filter g l))%nat.
Proof.
  intros Hfg. induction l as [|x l IH]; cbn [filter]; [reflexivity|].
  destruct (f x) eqn:Ef.
  - rewrite (Hfg x Ef). cbn [List.length]. lia.
  - destruct (g x); cbn [List.length]; lia.
Qed.

Lemma in_stock_not_zero (rt : Runtime) (p : obj) :
  gt rt (lookup "stock" p) zero = true ->
  strict_eq (lookup "stock" p) zero = false.
Proof.
  intros Hgt. destruct (strict_eq (lookup "stock" p) zero) eqn:E; [|reflexivity].
  apply strict_eq_zero in E. destruct E as [q [Hq Hz]]. rewrite Hq in Hgt.
  unfold gt, lt, js_lt in Hgt. cbn in Hgt. unfold Qltb in Hgt.
  apply negb_true_iff in Hgt.
  assert (Hle : Qle_bool q (inject_Z 0) = true)
    by (apply Qle_bool_iff; rewrite Hz; apply Qle_refl).
  congruence.
Qed.

Lemma getShopStats_run (rt : Runtime) (shopId : value) (ls : LocalStorage) :
  storage_after (ShopQueries.getShopStats rt shopId ls) = ls
  /\ (truthy (match returned (read shops shopId ls) with
              | Ok shop => shop
              | Throw _ => VUndef
              end) = false ->
      returned (ShopQueries.getShopStats rt shopId ls)
      = Throw (Error "Shop not found"))
  /\ forall stats,
       returned (ShopQueries.getShopStats rt shopId ls) = Ok stats ->
       let found :=
         filter (passes rt [("shopId", shopId); ("isActive", VBool true)])
           (getItem products ls) in
       totalProducts stats = List.length found
       /\ activeProducts stats
          = List.length (filter (fun p => gt rt (lookup "stock" p) zero) found)
       /\ outOfStockProducts stats
          = List.length
              (filter (fun p => strict_eq (lookup "stock" p) zero) found).
Proof.
  unfold ShopQueries.getShopStats, bind. rewrite read_run, !query_run.
  rewrite !apply_filters_passes. unfold returned, storage_after. cbn [fst snd].
  match goal with |- context [negb (truthy ?r)] => destruct (truthy r) end;
    cbn [negb].
  - split; [reflexivity|]. split; [discriminate|].
    intros stats H. cbn [ret fst] in H. injection H as <-.
    cbn [totalProducts activeProducts outOfStockProducts]. auto.
  - split; [reflexivity|]. split; [reflexivity|]. intros stats H. discriminate.
Qed.

(** X15: the shop statistics.  [getShopStats] leaves the three collections
    and the current-user entry as they were; for a truthy identifier that no
    shop has it throws "Shop not found"; and when it returns, the products in stock and the products out of stock together
    are at most [totalProducts], which counts the active products of the
    shop only, so it can be smaller than the number of product rows that
    make [deleteShop] refuse the shop. *)
Theorem X15_getShopStats_counts
  (rt : Runtime) (shopId : value) (ls : LocalStorage) :
  same_catalog ls (storage_after (ShopQueries.getShopStats rt shopId ls))
  /\ (truthy shopId = true -> has_id shops shopId ls = false ->
      returned (ShopQueries.getShopStats rt shopId ls)
      = Throw (Error "Shop not found"))
  /\ forall stats,
       returned (ShopQueries.getShopStats rt shopId ls) = Ok stats ->
       (activeProducts stats + outOfStockProducts stats <= totalProducts stats)%nat
       /\ (totalProducts stats
           <= List.length (listed (query rt products [("shopId", shopId)] ls)))%nat.
Proof.
  destruct (getShopStats_run rt shopId ls) as [Hls [Hnone Hsome]].
  split; [rewrite Hls; apply same_catalog_refl|]. split.
  - intros Htruthy Habs. apply Hnone. rewrite read_run. unfold returned.
    cbn [fst]. rewrite Htruthy. unfold has_id in Habs.
    destruct (find (fun item => strict_eq (lookup "id" item) shopId)
                (getItem shops ls)) as [item|] eqn:E; [|reflexivity].
    apply find_some in E.
    assert (Hex : existsb (fun item => strict_eq (lookup "id" item) shopId)
                    (getItem shops ls) = true)
      by (apply existsb_exists; exists item; exact E).
    congruence.
  - intros stats Hstats. destruct (Hsome stats Hstats) as [Ht [Ha Ho]].
    rewrite Ht, Ha, Ho. split.
    + apply length_filter_disjoint. intros p. apply in_stock_not_zero.
    + rewrite query_run, apply_filters_passes. unfold listed. cbn [fst].
      apply length_filter_weaker. intros p. unfold passes. cbn [map fst forallb].
      rewrite !andb_true_iff. tauto.
Qed.

(** X15 on the demo data, for shop "1". *)
Lemma X15_getShopStats_counts_witness :
  exists stats,
    returned (ShopQueries.getShopStats host (VStr "1") seeded) = Ok stats
    /\ (activeProducts stats + outOfStockProducts stats <= totalProducts stats)%nat
    /\ (totalProducts stats
        <= List.length
             (listed (query host products [("shopId", VStr "1")] seeded)))%nat.
Proof.
  eexists. split; [vm_compute; reflexivity|].
  apply (proj2 (proj2 (X15_getShopStats_counts host (VStr "1") seeded))).
  vm_compute. reflexivity.
Defined.

(** ** Validation on creation and on update *)







(** ** Offers *)

Lemma getOffers_run (rt : Runtime) (filters : obj) (now : Z) (ls : LocalStorage) :
  OfferService.getOffers rt filters now ls
  = (OfferService.sortOffers rt
       (if truthy (lookup "includeExpired" filters)
        then filter (passes rt (with_isActive filters)) (getItem offers ls)
        else filter (OfferService.in_validity_window rt now)
               (filter (passes rt (with_isActive filters)) (getItem offers ls)))
       (or_else (lookup "sortBy" filters) (VStr "newest")),
     ls).
Proof.
  unfold OfferService.getOffers, bind. rewrite query_run, apply_filters_passes.
  reflexivity.
Qed.

(** X17: two ways to list the offers of a shop.  For a shop identifier that
    is truthy, or is undefined, null or the empty string,
    [getActiveOffers(shopId)] and [getOffersByShop(shopId)] have the same
    outcome on every storage. *)
Theorem X17_active_offers_of_a_shop
  (rt : Runtime) (shopId : value) (now : Z) (ls : LocalStorage)
  (Hid : truthy shopId = true \/ filter_given shopId = false) :
  OfferQueries.getActiveOffers rt shopId now ls
  = OfferQueries.getOffersByShop rt shopId now ls.
Proof.
  unfold OfferQueries.getActiveOffers, OfferQueries.getOffersByShop.
  rewrite (getOffers_run rt [("shopId", shopId)]).
  assert (Hsame : forall filters,
             filters = [("isActive", VBool true); ("shopId", shopId)]
             \/ (filter_given shopId = false
                 /\ filters = [("isActive", VBool true)]) ->
             OfferService.getOffers rt filters now ls
             = (OfferService.sortOffers rt
                  (filter (OfferService.in_validity_window rt now)
                     (filter (passes rt (with_isActive [("shopId", shopId)]))
                        (getItem offers ls)))
                  (VStr "newest"), ls)).
  { intros filters Hf. rewrite getOffers_run.
    assert (Hpass : filter (passes rt (with_isActive filters)) (getItem offers ls)
                    = filter (passes rt (with_isActive [("shopId", shopId)]))
                        (getItem offers ls)).
    { apply filter_ext_all. intros p.
      destruct Hf as [->|[Hng ->]]; unfold passes, with_isActive, spread; cbn.
      - rewrite !andb_true_r. apply andb_comm.
      - rewrite Hng. cbn. reflexivity. }
    rewrite Hpass. destruct Hf as [->|[_ ->]]; reflexivity. }
  cbn [lookup String.eqb Ascii.eqb Bool.eqb truthy or_else].
  destruct Hid as [Ht|Hng].
  - assert (Hu : strict_eq shopId VUndef = false)
      by (destruct shopId as [| |b|[|q]|s|l|o]; cbn in *; congruence).
    rewrite Hu, Ht. apply Hsame. now left.
  - assert (Hf : truthy (if strict_eq shopId VUndef then VNull else shopId) = false).
    { destruct shopId as [| |b|[|q]|s|l|o]; cbn in *; try congruence;
        destruct (String.eqb s ""); cbn in *; congruence. }
    rewrite Hf. apply Hsame. right. now split.
Qed.

(** X17 on the demo data, for shop "1". *)
Lemma X17_active_offers_witness :
  OfferQueries.getActiveOffers host (VStr "1") (t0 + day) seeded
  = OfferQueries.getOffersByShop host (VStr "1") (t0 + day) seeded.
Proof.
  apply (X17_active_offers_of_a_shop host (VStr "1") (t0 + day) seeded).
  left. reflexivity.
Defined.

(** X18: one date at a time is never checked.  [updateOffer] compares
    [validFrom] with [validTo], and [validTo] with the clock, only when the
    update holds both dates.  An update of a stored offer that sets just one
    of the two always succeeds and stores the date as given, leaving the
    other date as it was: the stored offer may then end before it starts, or
    in the past. *)
Theorem X18_single_date_update_is_unchecked
  (rt : Runtime) (sid : string) (key other : string) (v : value) (now : Z)
  (ls : LocalStorage) (item : obj)
  (Hparsed : JSON_items (getItem offers ls) = getItem offers ls)
  (Hstored : stored offers sid ls = Some item)
  (Hkey : key = "validFrom" /\ other = "validTo"
          \/ key = "validTo" /\ other = "validFrom")
  (Hv : v <> VUndef) :
  let updated := OfferService.updateOffer rt (VStr sid) [(key, v)] now ls in
  returned updated = Ok tt
  /\ exists record,
       stored offers sid (storage_after updated) = Some record
       /\ lookup key record = JSON_value v
       /\ lookup other record = lookup other item.
Proof.
  intros updated. subst updated.
  assert (Hrun : OfferService.updateOffer rt (VStr sid) [(key, v)] now ls
                 = update rt offers (VStr sid)
                     [(key, v); ("updatedBy", getCurrentUserId ls)] now ls).
  { unfold OfferService.updateOffer, OfferService.validateOfferData.
    destruct Hkey as [[-> ->]|[-> ->]];
      cbn [lookup String.eqb Ascii.eqb Bool.eqb require_fields check_min_length
           truthy strict_eq negb andb rbind throw_if];
      rewrite ?andb_false_r; reflexivity. }
  rewrite Hrun.
  set (data := [(key, v); ("updatedBy", getCurrentUserId ls)]).
  assert (Hid : has_key "id" data = false)
    by (destruct Hkey as [[-> ->]|[-> ->]]; reflexivity).
  assert (Hlook : lookup key data = v)
    by (subst data; cbn [lookup]; now rewrite String.eqb_refl).
  destruct (update_writes rt offers sid data now ls item key Hparsed Hstored)
    as [Hok [record [Hrec Hwritten]]];
    try (destruct Hkey as [[-> ->]|[-> ->]]; reflexivity); try assumption.
  - destruct Hkey as [[-> ->]|[-> ->]]; repeat constructor; cbn;
      intuition discriminate.
  - now rewrite Hlook.
  - split; [exact Hok|]. exists record. split; [exact Hrec|].
    split; [now rewrite Hwritten, Hlook|].
    destruct (update_stored rt offers sid data now ls item Hparsed Hid Hstored)
      as [_ Hst'].
    rewrite Hst' in Hrec. injection Hrec as <-.
    apply patched_record_keeps.
    + destruct Hkey as [[-> ->]|[-> ->]]; reflexivity.
    + apply (parsed_In (getItem offers ls)); [assumption|].
      rewrite stored_find in Hstored. now apply find_some in Hstored.
Qed.

(** X18 on the demo data: offer "1" is made to end in 1999. *)
Lemma X18_single_date_update_witness :
  let updated :=
    OfferService.updateOffer host (VStr "1")
      [("validTo", VStr "1999-12-31T23:59:59.000Z")] (t0 + day) seeded in
  returned updated = Ok tt
  /\ exists record,
       stored offers "1" (storage_after updated) = Some record
       /\ lookup "validTo" record = JSON_value (VStr "1999-12-31T23:59:59.000Z")
       /\ lookup "validFrom" record
          = lookup "validFrom" (nth 0 (demoOffers host t0) []).
Proof.
  apply (X18_single_date_update_is_unchecked host "1" "validTo" "validFrom"
           (VStr "1999-12-31T23:59:59.000Z") (t0 + day) seeded
           (nth 0 (demoOffers host t0) []));
    try (vm_compute; reflexivity).
  - right. split; reflexivity.
  - discriminate.
Defined.






(** X20: the offers about to expire.  When [getExpiringOffers(days)]
    returns, every offer on its list is a stored, active offer that has
    started and whose [validTo] is a valid date between now and the threshold
    date, both inclusive; if the threshold date is invalid the list is
    empty. *)
Theorem X20_expiring_offers_are_current
  (rt : Runtime) (plusDays : Z -> value -> option Z) (days : value) (now : Z)
  (ls : LocalStorage) (l : list obj)
  (Hlisted : returned (OfferQueries.getExpiringOffers rt plusDays days now ls)
             = Ok l)
  (offer : obj) (Hoffer : In offer l) :
  In offer (getItem offers ls)
  /\ lookup "isActive" offer = VBool true
  /\ date_cmp Z.geb (Some now) (new_Date rt (lookup "validFrom" offer)) = true
  /\ exists validTo threshold,
       new_Date rt (lookup "validTo" offer) = Some validTo
       /\ plusDays now (if strict_eq days VUndef then num_of_Z 7 else days)
          = Some threshold
       /\ (now <= validTo <= threshold)%Z.
Proof.
  unfold OfferQueries.getExpiringOffers, bind, returned in Hlisted.
  change (OfferQueries.getActiveOffers rt VUndef now ls)
    with (OfferService.getOffers rt [("isActive", VBool true)] now ls) in Hlisted.
  destruct (OfferService.getOffers rt [("isActive", VBool true)] now ls)
    as [[all|e] ls'] eqn:Hall; cbn [fst ret] in Hlisted; [|discriminate].
  injection Hlisted as <-. apply filter_In in Hoffer.
  destruct Hoffer as [Hin Hexp].
  assert (Hall' : returned (OfferService.getOffers rt [("isActive", VBool true)]
                              now ls) = Ok all).
  { unfold returned. now rewrite Hall. }
  apply getOffers_listing in Hall'.
  apply (Permutation_in _ (Permutation_sym Hall')) in Hin.
  apply filter_In in Hin. destruct Hin as [Hin Hpass].
  cbn [lookup String.eqb Ascii.eqb Bool.eqb truthy orb] in Hpass.
  apply andb_true_iff in Hpass. destruct Hpass as [Hpass Hwindow].
  unfold passes, with_isActive, spread in Hpass. cbn in Hpass.
  rewrite andb_true_r in Hpass. apply strict_eq_true_bool in Hpass.
  unfold OfferService.in_validity_window in Hwindow.
  apply andb_true_iff in Hwindow. destruct Hwindow as [Hfrom Hto].
  split; [exact Hin|]. split; [exact Hpass|]. split; [exact Hfrom|].
  destruct (new_Date rt (lookup "validTo" offer)) as [validTo|];
    [|discriminate].
  destruct (plusDays now (if strict_eq days VUndef then num_of_Z 7 else days))
    as [threshold|]; [|discriminate].
  exists validTo, threshold. cbn [date_cmp] in Hexp, Hto.
  apply Z.leb_le in Hexp, Hto. repeat split; assumption.
Qed.

(** X20 on the demo data, 25 days after seeding: offer "1" ends within a
    week. *)
Lemma X20_expiring_offers_witness :
  let offer := nth 0 (demoOffers host t0) [] in
  In offer (getItem offers seeded)
  /\ lookup "isActive" offer = VBool true
  /\ date_cmp Z.geb (Some (t0 + 25 * day)%Z)
       (new_Date host (lookup "validFrom" offer)) = true
  /\ exists validTo threshold,
       new_Date host (lookup "validTo" offer) = Some validTo
       /\ utcPlusDays host (t0 + 25 * day)%Z
            (if strict_eq VUndef VUndef then num_of_Z 7 else VUndef)
          = Some threshold
       /\ (t0 + 25 * day <= validTo <= threshold)%Z.
Proof.
  apply (X20_expiring_offers_are_current host (utcPlusDays host) VUndef
           (t0 + 25 * day)%Z seeded
           (listed (OfferQueries.getExpiringOffers host (utcPlusDays host) VUndef
                      (t0 + 25 * day)%Z seeded))).
  - vm_compute. reflexivity.
  - vm_compute. left. reflexivity.
Defined.

(** ** Helpers *)

Lemma length_string_of_list (l : list ascii) :
  String.length (string_of_list_ascii l) = List.length l.
Proof. induction l as [|c l IH]; cbn; [reflexivity | now rewrite IH]. Qed.

Lemma length_list_of_string (s : string) :
  List.length (list_ascii_of_string s) = String.length s.
Proof. induction s as [|c s IH]; cbn; [reflexivity | now rewrite IH]. Qed.

Lemma length_append (s1 s2 : string) :
  String.length (s1 ++ s2) = (String.length s1 + String.length s2)%nat.
Proof. induction s1 as [|c s1 IH]; cbn; [reflexivity | now rewrite IH]. Qed.

(** X21: the length of a truncated text.  A text no longer than
    [maxLength] is returned as it is.  A longer text is cut so that the
    result, suffix included, is exactly [maxLength] long; but when the suffix
    alone is longer than [maxLength] the result is the suffix, which exceeds
    the limit. *)
Theorem X21_truncateText_length (text : string) (maxLength : Z) (suffix : string) :
  let result := truncateText text maxLength suffix in
  ((Z.of_nat (String.length text) <= maxLength)%Z -> result = text)
  /\ ((maxLength < Z.of_nat (String.length text))%Z -> text <> "" ->
      Z.of_nat (String.length result)
      = Z.max maxLength (Z.of_nat (String.length suffix))
      /\ exists kept,
           result = (kept ++ suffix)%string
           /\ substring 0 (String.length kept) text = kept)
  /\ ((maxLength < Z.of_nat (String.length suffix))%Z ->
      (maxLength < Z.of_nat (String.length text))%Z -> text <> "" ->
      result = suffix).
Proof.
  intros result. subst result. unfold truncateText, substring_to.
  split; [|split].
  - intros Hfits. apply Z.leb_le in Hfits. rewrite Hfits, orb_true_r.
    reflexivity.
  - intros Hlong Htext.
    assert (Hleb : (Z.of_nat (String.length text) <=? maxLength)%Z = false)
      by now apply Z.leb_gt.
    assert (Ht : negb (truthy (VStr text)) = false).
    { cbn. rewrite negb_involutive. now apply String.eqb_neq. }
    rewrite Hleb, Ht. cbn [orb]. split.
    + rewrite length_append, length_string_of_list, length_firstn,
        length_list_of_string.
      lia.
    + eexists. split; [reflexivity|].
      rewrite length_string_of_list.
      generalize (Z.to_nat (maxLength - Z.of_nat (String.length suffix))).
      intros n. clear. revert n.
      induction text as [|c text IH]; intros [|n]; cbn; try reflexivity.
      f_equal. apply IH.
  - intros Hsuffix Hlong Htext.
    assert (Hleb : (Z.of_nat (String.length text) <=? maxLength)%Z = false)
      by now apply Z.leb_gt.
    assert (Ht : negb (truthy (VStr text)) = false).
    { cbn. rewrite negb_involutive. now apply String.eqb_neq. }
    rewrite Hleb, Ht. cbn [orb].
    replace (Z.to_nat (maxLength - Z.of_nat (String.length suffix))) with O by lia.
    reflexivity.
Qed.

Lemma split_at_spec (sep : ascii) (cs l r : list ascii) :
  split_at sep cs = Some (l, r)
  <-> cs = l ++ sep :: r /\ Forall (fun c => Ascii.eqb c sep = false) l.
Proof.
  revert l. induction cs as [|c cs IH]; intros l; cbn [split_at].
  - split; [discriminate|]. intros [H _]. now destruct l.
  - destruct (Ascii.eqb c sep) eqn:E.
    + apply Ascii.eqb_eq in E. subst c. split.
      * intros H. injection H as <- <-. split; [reflexivity | constructor].
      * intros [H Hl]. destruct l as [|x l]; cbn in H.
        -- now injection H as <-.
        -- injection H as <- _. inversion Hl as [|? ? Hx _]; subst.
           now rewrite Ascii.eqb_refl in Hx.
    + split.
      * destruct (split_at sep cs) as [[l' r']|] eqn:Es; [|discriminate].
        intros H. injection H as <- <-.
        destruct (proj1 (IH l') eq_refl) as [-> Hl].
        split; [reflexivity | now constructor].
      * intros [H Hl]. destruct l as [|x l]; cbn in H.
        -- injection H as -> _. now rewrite Ascii.eqb_refl in E.
        -- injection H as <- H. inversion Hl as [|? ? _ Hl']; subst.
           now rewrite (proj2 (IH l) (conj eq_refl Hl')).
Qed.

Lemma has_inner_dot_spec (cs : list ascii) :
  has_inner_dot cs = true
  <-> exists d1 d2, d1 <> [] /\ d2 <> [] /\ cs = d1 ++ "."%char :: d2.
Proof.
  induction cs as [|a cs IH].
  - split; [discriminate|]. intros (d1 & d2 & _ & _ & H). now destruct d1.
  - destruct cs as [|c [|b rest]].
    + split; [discriminate|]. intros (d1 & d2 & H1 & _ & H).
      destruct d1 as [|x [|y d1]]; [congruence | discriminate | discriminate].
    + split; [discriminate|]. intros (d1 & d2 & H1 & H2 & H).
      destruct d1 as [|x [|y [|z d1]]]; [congruence | | discriminate | discriminate].
      injection H as _ _ H. congruence.
    + change (has_inner_dot (a :: c :: b :: rest))
        with (Ascii.eqb c "." || has_inner_dot (c :: b :: rest)).
      rewrite orb_true_iff, IH. split.
      * intros [E|(d1 & d2 & H1 & H2 & H)].
        -- apply Ascii.eqb_eq in E. subst c. exists [a], (b :: rest).
           repeat split; discriminate.
        -- exists (a :: d1), d2. repeat split; [discriminate | assumption|].
           cbn. now rewrite H.
      * intros (d1 & d2 & H1 & H2 & H).
        destruct d1 as [|x [|y d1]]; [congruence | |].
        -- injection H as _ -> _. left. apply Ascii.eqb_refl.
        -- right. injection H as _ Hc Hrest. exists (y :: d1), d2.
           repeat split; [discriminate | assumption|].
           cbn. now rewrite Hc, Hrest.
Qed.

Lemma forallb_Forall_true {A} (f : A -> bool) (l : list A) :
  forallb f l = true <-> Forall (fun x => f x = true) l.
Proof.
  rewrite forallb_forall, Forall_forall. reflexivity.
Qed.

Lemma email_unit_not_at (l : list ascii) :
  Forall (fun c => email_unit c = true) l ->
  Forall (fun c => Ascii.eqb c "@" = false) l.
Proof.
  apply Forall_impl. intros c H. unfold email_unit in H.
  apply andb_true_iff in H. destruct H as [_ H]. now apply negb_true_iff in H.
Qed.

(** X22: the e-mail check is its pattern.  [isValidEmail] accepts exactly
    the strings made of a non-empty local part, an "@", a non-empty domain
    part, a dot and a non-empty last part, none of the three parts holding
    white space or a further "@" (dots are allowed anywhere in them). *)
Theorem X22_isValidEmail_is_its_pattern (email : string) :
  isValidEmail email = true
  <-> matches_email_pattern (list_ascii_of_string email).
Proof.
  unfold isValidEmail, matches_email_pattern, plain_run.
  generalize (list_ascii_of_string email). intros cs. split.
  - destruct (split_at "@" cs) as [[local domain]|] eqn:Es; [|discriminate].
    apply split_at_spec in Es. destruct Es as [-> _].
    rewrite !andb_true_iff, negb_true_iff, Nat.eqb_neq.
    intros [[[Hlen Hlocal] Hdomain] Hdot].
    apply has_inner_dot_spec in Hdot. destruct Hdot as (d1 & d2 & H1 & H2 & ->).
    rewrite forallb_app in Hdomain. apply andb_true_iff in Hdomain.
    destruct Hdomain as [Hd1 Hd2]. cbn [forallb] in Hd2.
    apply andb_true_iff in Hd2. destruct Hd2 as [_ Hd2].
    exists local, d1, d2. split; [reflexivity|].
    repeat split; try (now apply forallb_Forall_true); try assumption.
    now destruct local.
  - intros (local & domain & tld & -> & [Hl Hlocal] & [Hd Hdomain] & [Ht Htld]).
    assert (Es : split_at "@" (local ++ "@"%char :: domain ++ "."%char :: tld)
                 = Some (local, domain ++ "."%char :: tld)).
    { apply split_at_spec. split; [reflexivity|]. now apply email_unit_not_at. }
    rewrite Es. rewrite !andb_true_iff, negb_true_iff, Nat.eqb_neq.
    repeat split.
    + now destruct local.
    + now apply forallb_Forall_true.
    + rewrite forallb_app. cbn [forallb].
      apply forallb_Forall_true in Hdomain, Htld. rewrite Hdomain, Htld.
      reflexivity.
    + apply has_inner_dot_spec. now exists domain, tld.
Qed.

Lemma phone_digits_spec (cs : list ascii) :
  phone_digits cs = true
  <-> exists first rest,
        cs = first :: rest
        /\ is_digit first = true /\ first <> "0"%char
        /\ Forall (fun c => is_digit c = true) rest
        /\ (List.length rest <= 15)%nat.
Proof.
  destruct cs as [|d ds]; cbn [phone_digits].
  - split; [discriminate|]. intros (first & rest & H & _). discriminate.
  - rewrite !andb_true_iff, negb_true_iff, Nat.leb_le, forallb_Forall_true.
    split.
    + intros [[[Hd Hz] Hds] Hlen]. exists d, ds.
      repeat split; try assumption. intros ->. discriminate.
    + intros (first & rest & H & Hd & Hz & Hds & Hlen). injection H as -> ->.
      repeat split; try assumption.
      destruct (Ascii.eqb first "0") eqn:E; [|reflexivity].
      apply Ascii.eqb_eq in E. contradiction.
Qed.

(** X23: the phone check is its pattern on the stripped number.  White
    space, dashes and parentheses are dropped wherever they stand, balanced
    or not; [isValidPhone] accepts exactly the numbers whose remaining units
    are an optional plus sign, a digit from 1 to 9 and at most 15 further
    digits. *)
Theorem X23_isValidPhone_is_its_pattern (phone : string) :
  isValidPhone phone = true <-> matches_phone_pattern (stripped phone).
Proof.
  unfold isValidPhone, matches_phone_pattern. fold (stripped phone).
  generalize (stripped phone). intros cs. split.
  - destruct cs as [|c cs]; [discriminate|].
    destruct (Ascii.eqb c "+") eqn:E; intros H; apply phone_digits_spec in H;
      destruct H as (first & rest & Hcs & H).
    + apply Ascii.eqb_eq in E. subst c. exists ["+"%char], first, rest.
      split; [cbn; now rewrite Hcs|]. split; [now right | exact H].
    + exists [], first, rest. split; [exact Hcs|]. split; [now left | exact H].
  - intros (sign & first & rest & -> & [->| ->] & H).
    + cbn [app].
      assert (E : Ascii.eqb first "+" = false).
      { destruct (Ascii.eqb first "+") eqn:E; [|reflexivity].
        apply Ascii.eqb_eq in E. subst first. destruct H as [H _].
        discriminate H. }
      rewrite E. apply phone_digits_spec. now exists first, rest.
    + cbn [app]. rewrite Ascii.eqb_refl. apply phone_digits_spec.
      now exists first, rest.
Qed.

(** ** Logger *)

Lemma storeLog_spec (entry : obj) (logs : LogStorage) :
  let logs' := Logger.storeLog entry logs in
  List.length (supermall_logs logs')
  = Nat.min (S (List.length (supermall_logs logs))) Logger.maxLogs
  /\ (exists dropped,
        JSON_items (supermall_logs logs ++ [entry])
        = dropped ++ supermall_logs logs')
  /\ supermall_server_logs logs' = supermall_server_logs logs.
Proof.
  unfold Logger.storeLog. cbn [supermall_logs supermall_server_logs].
  set (pushed := supermall_logs logs ++ [entry]).
  assert (Hlen : List.length pushed = S (List.length (supermall_logs logs)))
    by (subst pushed; rewrite length_app; cbn; lia).
  destruct (Logger.maxLogs <? List.length pushed)%nat eqn:E.
  - apply Nat.ltb_lt in E. split; [|split; [|reflexivity]].
    + unfold JSON_items. rewrite length_map, length_skipn. lia.
    + exists (JSON_items (firstn (List.length pushed - Logger.maxLogs) pushed)).
      unfold JSON_items. rewrite <- map_app. now rewrite firstn_skipn.
  - apply Nat.ltb_ge in E. split; [|split; [|reflexivity]].
    + unfold JSON_items. rewrite length_map. lia.
    + exists []. reflexivity.
Qed.

(** X24: the stored log is capped, the server log is not.  A message that
    passes the level test leaves in [supermall_logs] the newest entries of
    the old log followed by the new entry, at most 100 of them, and, if its
    level is WARN or ERROR, makes [supermall_server_logs] one entry longer,
    however long it already is. *)
Theorem X24_log_is_capped
  (rt : Runtime) (page : Page) (currentLevel : value) (level : logLevel)
  (message : string) (data : value) (now : Z) (ls : LocalStorage)
  (logs : LogStorage)
  (Hpasses : lt rt (Logger.levelValue level) currentLevel = false) :
  let entry := Logger.logEntry rt page level message data now ls in
  let logs' := Logger.log rt page currentLevel level message data now ls logs in
  List.length (Logger.getLogs logs')
  = Nat.min (S (List.length (Logger.getLogs logs))) 100
  /\ (exists dropped,
        JSON_items (Logger.getLogs logs ++ [entry])
        = dropped ++ Logger.getLogs logs')
  /\ List.length (supermall_server_logs logs')
     = if Logger.shouldSendToServer level
       then S (List.length (supermall_server_logs logs))
       else List.length (supermall_server_logs logs).
Proof.
  intros entry logs'. subst logs'. unfold Logger.log. rewrite Hpasses.
  fold entry. destruct (storeLog_spec entry logs) as [Hlen [Hkept Hserver]].
  unfold Logger.getLogs.
  destruct (Logger.shouldSendToServer level);
    unfold Logger.sendToServer; cbn [supermall_logs supermall_server_logs].
  - split; [exact Hlen|]. split; [exact Hkept|].
    unfold JSON_items. rewrite length_map, length_app, Hserver. cbn. lia.
  - split; [exact Hlen|]. split; [exact Hkept|]. now rewrite Hserver.
Qed.

(** X24 for a warning at the initial level, on empty logs. *)
Lemma X24_log_is_capped_witness :
  let page := mkPage "Mozilla/5.0" "https://supermall.example/" in
  let logs := mkLogStorage [] [] in
  let entry := Logger.logEntry host page WARN "Low stock" VNull t0 seeded in
  let logs' := Logger.log host page (num_of_Z 1) WARN "Low stock" VNull t0 seeded logs in
  List.length (Logger.getLogs logs')
  = Nat.min (S (List.length (Logger.getLogs logs))) 100
  /\ (exists dropped,
        JSON_items (Logger.getLogs logs ++ [entry])
        = dropped ++ Logger.getLogs logs')
  /\ List.length (supermall_server_logs logs')
     = if Logger.shouldSendToServer WARN
       then S (List.length (supermall_server_logs logs))
       else List.length (supermall_server_logs logs).
Proof.
  apply (X24_log_is_capped host (mkPage "Mozilla/5.0" "https://supermall.example/")
           (num_of_Z 1) WARN "Low stock" VNull t0 seeded (mkLogStorage [] [])).
  reflexivity.
Defined.

(** X25: debug messages are logged as info messages.  The level DEBUG has
    the value 0, which [||] replaces by the value of INFO: whatever the
    current level, a DEBUG message is dropped exactly when an INFO message is
    dropped, and at the initial level INFO it is stored. *)
Theorem X25_debug_is_never_below_info
  (rt : Runtime) (page : Page) (currentLevel : value) (message : string)
  (data : value) (now : Z) (ls : LocalStorage) (logs : LogStorage) :
  let stored_as (level : logLevel) :=
    Logger.storeLog (Logger.logEntry rt page level message data now ls) logs in
  (Logger.log rt page currentLevel DEBUG message data now ls logs
   = if lt rt (Logger.levelValue INFO) currentLevel then logs
     else stored_as DEBUG)
  /\ (Logger.log rt page currentLevel INFO message data now ls logs
      = if lt rt (Logger.levelValue INFO) currentLevel then logs
        else stored_as INFO)
  /\ Logger.log rt page (lookup "INFO" Logger.logLevels) DEBUG message data
       now ls logs
     = stored_as DEBUG.
Proof.
  intros stored_as. unfold Logger.log.
  change (Logger.levelValue DEBUG) with (Logger.levelValue INFO).
  cbn [Logger.shouldSendToServer]. repeat split.
Qed.

(** X26: clearing the logs leaves one entry.  At a current level of INFO or
    below, [clearLogs] empties both logs and then stores the message "Logs
    cleared successfully": the stored log has exactly that one entry, the
    server log none. *)
Theorem X26_clearLogs_leaves_its_own_entry
  (rt : Runtime) (page : Page) (level : Q) (now : Z) (ls : LocalStorage)
  (logs : LogStorage)
  (Hlevel : (level <= 1)%Q) :
  let logs' := Logger.clearLogs rt page (VNum (Fin level)) now ls logs in
  supermall_server_logs logs' = []
  /\ exists entry,
       Logger.getLogs logs' = [entry]
       /\ lookup "message" entry = VStr "Logs cleared successfully"
       /\ lookup "level" entry = VStr "INFO".
Proof.
  intros logs'. subst logs'. unfold Logger.clearLogs, Logger.log.
  assert (Hpass : lt rt (Logger.levelValue INFO) (VNum (Fin level)) = false).
  { unfold lt, js_lt. cbn. unfold Qltb. apply negb_false_iff.
    now apply Qle_bool_iff. }
  rewrite Hpass. cbn [Logger.shouldSendToServer].
  unfold Logger.storeLog, Logger.getLogs.
  cbn [supermall_logs supermall_server_logs app List.length Nat.ltb Nat.leb
       Logger.maxLogs].
  split; [reflexivity|].
  unfold Logger.logEntry, JSON_items. cbn [map].
  rewrite !JSON_props_cons_defined by discriminate.
  eexists. split; [reflexivity|]. split; reflexivity.
Qed.

(** X26 at the initial level. *)
Lemma X26_clearLogs_witness :
  let page := mkPage "Mozilla/5.0" "https://supermall.example/" in
  let logs' :=
    Logger.clearLogs host page (VNum (Fin 1)) t0 seeded (mkLogStorage [] []) in
  supermall_server_logs logs' = []
  /\ exists entry,
       Logger.getLogs logs' = [entry]
       /\ lookup "message" entry = VStr "Logs cleared successfully"
       /\ lookup "level" entry = VStr "INFO".
Proof.
  apply (X26_clearLogs_leaves_its_own_entry host
           (mkPage "Mozilla/5.0" "https://supermall.example/") 1 t0 seeded
           (mkLogStorage [] [])).
  discriminate.
Defined.

(** ** AuthService *)

Lemma strict_eq_str (v : value) (s : string) :
  strict_eq v (VStr s) = true <-> v = VStr s.
Proof.
  split; [apply strict_eq_true_str|]. intros ->. cbn. apply String.eqb_refl.
Qed.

Lemma login_run (email password : value) (s : Session) :
  (email = VStr "admin@supermall.com" /\ password = VStr "admin123" ->
   AuthService.login email password s
   = (Ok (VObj (AuthService.demoAdmin email)),
      AuthService.signIn (AuthService.demoAdmin email) s))
  /\ (email = VStr "user@supermall.com" /\ password = VStr "user123" ->
      AuthService.login email password s
      = (Ok (VObj (AuthService.demoUser email)),
         AuthService.signIn (AuthService.demoUser email) s))
  /\ (~ (email = VStr "admin@supermall.com" /\ password = VStr "admin123") ->
      ~ (email = VStr "user@supermall.com" /\ password = VStr "user123") ->
      AuthService.login email password s = (Throw invalid_login, s)).
Proof.
  unfold AuthService.login. split; [|split].
  - intros [-> ->]. reflexivity.
  - intros [-> ->]. reflexivity.
  - intros Hadmin Huser.
    destruct (strict_eq email (VStr "admin@supermall.com")
              && strict_eq password (VStr "admin123")) eqn:E1.
    { apply andb_true_iff in E1. rewrite !strict_eq_str in E1. contradiction. }
    destruct (strict_eq email (VStr "user@supermall.com")
              && strict_eq password (VStr "user123")) eqn:E2.
    { apply andb_true_iff in E2. rewrite !strict_eq_str in E2. contradiction. }
    reflexivity.
Qed.

(** X27: who can log in.  In the storage-backed mode [login] accepts the
    two demo accounts only: with the administrator's credentials the session
    user is an administrator and the catalog services attribute their writes
    to "demo-admin-uid", with the demo user's credentials the session user is
    no administrator and writes go to "demo-user-uid"; with any other
    arguments it throws "Invalid email or password" and leaves the session as
    it was. *)
Theorem X27_login_accepts_the_demo_accounts_only
  (email password : value) (s : Session) :
  let after := snd (AuthService.login email password s) in
  (email = VStr "admin@supermall.com" /\ password = VStr "admin123" ->
   AuthService.isAdmin after = VBool true
   /\ getCurrentUserId (storage after) = VStr "demo-admin-uid")
  /\ (email = VStr "user@supermall.com" /\ password = VStr "user123" ->
      AuthService.isAdmin after = VBool false
      /\ getCurrentUserId (storage after) = VStr "demo-user-uid")
  /\ (~ (email = VStr "admin@supermall.com" /\ password = VStr "admin123") ->
      ~ (email = VStr "user@supermall.com" /\ password = VStr "user123") ->
      AuthService.login email password s = (Throw invalid_login, s)).
Proof.
  intros after. subst after.
  destruct (login_run email password s) as [Hadmin [Huser Hother]].
  split; [|split; [|exact Hother]].
  - intros H. rewrite (Hadmin H). destruct H as [-> ->]. split; reflexivity.
  - intros H. rewrite (Huser H). destruct H as [-> ->]. split; reflexivity.
Qed.

Lemma isValidPassword_long (rt : Runtime) (password : string) :
  (6 <= String.length password)%nat ->
  truthy (AuthService.isValidPassword rt (VStr password)) = true.
Proof.
  intros Hlen. unfold AuthService.isValidPassword.
  assert (Ht : truthy (VStr password) = true)
    by (destruct password; [cbn in Hlen; lia | reflexivity]).
  rewrite Ht. cbn [truthy get_prop String.eqb Ascii.eqb Bool.eqb].
  unfold ge, js_lt, num_of_Z. cbn [stringy andb ToNumber]. unfold Qltb.
  rewrite negb_involutive. apply Qle_bool_iff.
  rewrite <- Zle_Qle. lia.
Qed.

(** X28: a registration chooses its own role and is not kept.  [register]
    with a well-formed e-mail address and a password of at least six
    characters logs the caller in with the role named in the submitted data,
    "admin" included; but the account exists in the session only: after
    [logout], [login] with the same credentials (other than a demo address)
    is refused. *)
Theorem X28_register_takes_the_submitted_role
  (rt : Runtime) (email password role : string) (userData : obj) (now : Z)
  (s : Session)
  (Hemail : isValidEmail email = true)
  (Hpassword : (6 <= String.length password)%nat)
  (Hrole : lookup "role" userData = VStr role)
  (Hnamed : role <> "")
  (Hadmin : email <> "admin@supermall.com")
  (Huser : email <> "user@supermall.com") :
  let registration :=
    AuthService.register rt (VStr email) (VStr password) userData now s in
  let left := snd (AuthService.logout (snd registration)) in
  (exists user, fst registration = Ok (VObj user)
                /\ lookup "role" user = VStr role)
  /\ AuthService.hasRole (VStr role) (snd registration) = VBool true
  /\ AuthService.login (VStr email) (VStr password) left
     = (Throw invalid_login, left).
Proof.
  intros registration left. subst left registration.
  assert (Hrun : AuthService.register rt (VStr email) (VStr password) userData now s
                 = (Ok (VObj (AuthService.registered rt (VStr email) userData now)),
                    AuthService.signIn
                      (AuthService.registered rt (VStr email) userData now) s)).
  { unfold AuthService.register. cbn [ToString]. rewrite Hemail.
    rewrite (isValidPassword_long rt password Hpassword). reflexivity. }
  rewrite Hrun. cbn [fst snd].
  assert (Hreg : lookup "role" (AuthService.registered rt (VStr email) userData now)
                 = VStr role).
  { unfold AuthService.registered. cbn [lookup String.eqb Ascii.eqb Bool.eqb].
    rewrite Hrole. unfold or_else. cbn [truthy].
    apply String.eqb_neq in Hnamed. now rewrite Hnamed. }
  split; [eexists; split; [reflexivity | exact Hreg]|]. split.
  - unfold AuthService.hasRole, AuthService.signIn. cbn [currentUser truthy get_prop].
    rewrite Hreg. cbn [strict_eq]. now rewrite String.eqb_refl.
  - apply login_run; intros [H _]; injection H as H; contradiction.
Qed.

(** X28 for a visitor who registers as administrator. *)
Lemma X28_register_witness :
  let s := mkSession VNull seeded in
  let registration :=
    AuthService.register host (VStr "eve@mall.example") (VStr "letmein")
      [("name", VStr "Eve"); ("role", VStr "admin")] t0 s in
  let left := snd (AuthService.logout (snd registration)) in
  (exists user, fst registration = Ok (VObj user)
                /\ lookup "role" user = VStr "admin")
  /\ AuthService.hasRole (VStr "admin") (snd registration) = VBool true
  /\ AuthService.login (VStr "eve@mall.example") (VStr "letmein") left
     = (Throw invalid_login, left).
Proof.
  apply (X28_register_takes_the_submitted_role host "eve@mall.example" "letmein"
           "admin" [("name", VStr "Eve"); ("role", VStr "admin")] t0
           (mkSession VNull seeded));
    try reflexivity; try discriminate.
  cbn. lia.
Defined.

(** X29: a profile update cannot change who the user is.  For a logged-in
    user, [updateProfile] succeeds and changes [displayName] and [profile]
    only: the user's uid, e-mail address and role are as before, whatever the
    submitted data names, and every submitted property is found inside
    [profile]. *)
Theorem X29_updateProfile_keeps_identity
  (profileData user : obj) (s : Session)
  (Huser : currentUser s = VObj user)
  (Hkeys : NoDup (map fst profileData)) :
  let after := snd (AuthService.updateProfile profileData s) in
  fst (AuthService.updateProfile profileData s) = Ok tt
  /\ (forall k, String.eqb k "displayName" = false ->
        String.eqb k "profile" = false ->
        get_prop (currentUser after) k = lookup k user)
  /\ (forall role, AuthService.hasRole role after = AuthService.hasRole role s)
  /\ (forall k, has_key k profileData = true ->
        get_prop (get_prop (currentUser after) "profile") k
        = lookup k profileData).
Proof.
  intros after. subst after. unfold AuthService.updateProfile.
  rewrite Huser. cbn [truthy negb fst snd own_properties].
  unfold AuthService.signIn. cbn [currentUser get_prop].
  set (patch := [("displayName", _); ("profile", _)]).
  assert (Hkeep : forall k, String.eqb k "displayName" = false ->
                    String.eqb k "profile" = false ->
                    lookup k (spread user patch) = lookup k user).
  { intros k H1 H2. apply spread_keeps. unfold has_key. subst patch.
    cbn [existsb fst]. now rewrite H1, H2. }
  split; [reflexivity|]. split; [exact Hkeep|]. split.
  - intros role. unfold AuthService.hasRole. rewrite Huser.
    cbn [currentUser truthy get_prop]. now rewrite Hkeep.
  - intros k Hk.
    assert (Hprofile : lookup "profile" (spread user patch)
                       = VObj (spread (own_properties (lookup "profile" user))
                                 profileData)).
    { rewrite lookup_spread_present; [reflexivity | | reflexivity].
      subst patch. repeat constructor; cbn; intuition discriminate. }
    rewrite Hprofile. cbn [get_prop].
    now apply lookup_spread_present.
Qed.

(** X29 for the demo user, who submits a role. *)
Lemma X29_updateProfile_witness :
  let s := snd (AuthService.login (VStr "user@supermall.com") (VStr "user123")
                  (mkSession VNull seeded)) in
  let profileData := [("role", VStr "admin"); ("phone", VStr "+1-555-0100")] in
  let after := snd (AuthService.updateProfile profileData s) in
  fst (AuthService.updateProfile profileData s) = Ok tt
  /\ (forall k, String.eqb k "displayName" = false ->
        String.eqb k "profile" = false ->
        get_prop (currentUser after) k
        = lookup k (AuthService.demoUser (VStr "user@supermall.com")))
  /\ (forall role, AuthService.hasRole role after = AuthService.hasRole role s)
  /\ (forall k, has_key k profileData = true ->
        get_prop (get_prop (currentUser after) "profile") k
        = lookup k profileData).
Proof.
  apply (X29_updateProfile_keeps_identity
           [("role", VStr "admin"); ("phone", VStr "+1-555-0100")]
           (AuthService.demoUser (VStr "user@supermall.com"))
           (snd (AuthService.login (VStr "user@supermall.com") (VStr "user123")
                   (mkSession VNull seeded)))).
  - reflexivity.
  - repeat constructor; cbn; intuition discriminate.
Defined.

Lemma mirrored_signIn (user : obj) (s : Session) :
  mirrored (AuthService.signIn user s).
Proof. reflexivity. Qed.

(** X30: the stored session mirrors the user in memory.  If the entry
    [supermall_current_user] is absent when nobody is logged in and holds the
    written form of the current user otherwise, this is still so after every
    operation of the service, successful or not; and the demo-mode
    operations [resetPassword], [changePassword] and [deleteAccount] leave
    the session exactly as it was: the account is never deleted. *)
Theorem X30_session_entry_mirrors_the_user
  (rt : Runtime) (email password : value) (userData profileData : obj)
  (now : Z) (s : Session)
  (Hmirrored : mirrored s) :
  mirrored (snd (AuthService.login email password s))
  /\ mirrored (snd (AuthService.register rt email password userData now s))
  /\ mirrored (snd (AuthService.logout s))
  /\ mirrored (snd (AuthService.updateProfile profileData s))
  /\ snd (AuthService.resetPassword email s) = s
  /\ snd (AuthService.changePassword rt email password s) = s
  /\ snd (AuthService.deleteAccount s) = s.
Proof.
  repeat split.
  - unfold AuthService.login.
    repeat match goal with |- context [if ?c then _ else _] => destruct c end;
      try exact Hmirrored; apply mirrored_signIn.
  - unfold AuthService.register.
    repeat match goal with |- context [if ?c then _ else _] => destruct c end;
      try exact Hmirrored; apply mirrored_signIn.
  - unfold AuthService.updateProfile.
    destruct (negb (truthy (currentUser s))); [exact Hmirrored|].
    apply mirrored_signIn.
  - unfold AuthService.changePassword.
    repeat match goal with |- context [if ?c then _ else _] => destruct c end;
      reflexivity.
  - unfold AuthService.deleteAccount.
    destruct (negb (truthy (currentUser s))); reflexivity.
Qed.

(** X30 for a session restored from the demo storage. *)
Lemma X30_session_entry_witness :
  let s := AuthService.initializeAuth seeded in
  mirrored (snd (AuthService.login (VStr "admin@supermall.com")
                   (VStr "admin123") s))
  /\ mirrored (snd (AuthService.register host (VStr "admin@supermall.com")
                      (VStr "admin123") [("name", VStr "Eve")] t0 s))
  /\ mirrored (snd (AuthService.logout s))
  /\ mirrored (snd (AuthService.updateProfile [("phone", VStr "1")] s))
  /\ snd (AuthService.resetPassword (VStr "admin@supermall.com") s) = s
  /\ snd (AuthService.changePassword host (VStr "admin@supermall.com")
            (VStr "admin123") s) = s
  /\ snd (AuthService.deleteAccount s) = s.
Proof.
  apply (X30_session_entry_mirrors_the_user host (VStr "admin@supermall.com")
           (VStr "admin123") [("name", VStr "Eve")] [("phone", VStr "1")] t0
           (AuthService.initializeAuth seeded)).
  reflexivity.
Defined.
